(** * itvalleyorion: structured-output extraction and the supervisor loop

    A shallow embedding of the agents of the [itvalleyorion] SDK
    ([operatorsdk.py], [analystsdk.py], [supervisorsdk.py], [auth.py]) and
    the properties of its extraction cascade and orchestration loop.

    Conventions of the embedding:
    - a Python [str] is a Rocq [string] holding its UTF-8 bytes; the only
      indices taken in the code are those of the ASCII characters '{' and
      '}', so a slice taken between them is the same text;
    - a Python exception derived from [Exception] is a value of [exn];
      code that may raise returns an [outcome]; exits that are not
      instances of [Exception] ([KeyboardInterrupt], [SystemExit]) are
      not modelled;
    - code that talks to the backend, reads the API key or touches the
      tool registry runs in the monad [M] over the record [World];
    - the functions of Python's own libraries ([json], [re], [int],
      [float], [str.strip], [str.lower], [str.title], pydantic's
      [create_model]) are the fields of the class [Runtime];
    - a [Callable] is a function object that the decorator [tool]
      accepts: [inspect.signature] and [get_type_hints] return for it
      (what they return are its fields) and [create_model] returns a
      class for its parameters.  A decoration that raises is not
      modelled, and nothing is stated of a constructor that has to
      decorate a function for which it would. *)

From Stdlib Require Import String Ascii List ZArith Lia Bool Arith.
From stdpp Require Import gmap strings.
Import ListNotations.

Local Open Scope string_scope.
Local Open Scope bool_scope.

Set Implicit Arguments.
Local Set Warnings "-register-all".

(** ** Python values and exceptions *)

(** Values that travel through JSON documents, tool arguments and tool
    results.  A [float] is kept as its literal; the code never computes
    with one.  [PObject] is any other Python object, named by its class. *)
Inductive pyval : Type :=
| PNone
| PBool (b : bool)
| PInt (z : Z)
| PFloat (literal : string)
| PStr (s : string)
| PList (items : list pyval)
| PDict (entries : list (string * pyval))
| PObject (class_name : string).

(** A [dict] with string keys, in insertion order. *)
Definition dict := list (string * pyval).

Fixpoint dict_get (d : dict) (k : string) : option pyval :=
  match d with
  | [] => None
  | (k', v) :: d' => if String.eqb k' k then Some v else dict_get d' k
  end.

(** [d[k] = v]: replaces the value of an existing key in place, appends a
    new key. *)
Fixpoint dict_set (d : dict) (k : string) (v : pyval) : dict :=
  match d with
  | [] => [(k, v)]
  | (k', v') :: d' =>
      if String.eqb k' k then (k, v) :: d' else (k', v') :: dict_set d' k v
  end.

(** An instance of a class derived from [Exception]: its class name and
    the text [str(e)] gives. *)
Record exn : Type := Exn { exn_class : string; exn_str : string }.

Inductive outcome (A : Type) : Type :=
| Ok (a : A)
| Raise (e : exn).
Arguments Ok {A} a.
Arguments Raise {A} e.

Definition ValueError (msg : string) : exn := Exn "ValueError" msg.
Definition TypeError (msg : string) : exn := Exn "TypeError" msg.

Definition obind {A B} (c : outcome A) (k : A -> outcome B) : outcome B :=
  match c with
  | Ok a => k a
  | Raise e => Raise e
  end.

Definition is_ok {A} (c : outcome A) : bool :=
  match c with Ok _ => true | Raise _ => false end.

(** ** Strings *)

Definition quote_char : ascii := "034"%char.
Definition quote : string := String quote_char EmptyString.

(** [s.find(c)]: index of the first [c], or -1. *)
Fixpoint str_find (c : ascii) (s : string) : Z :=
  match s with
  | EmptyString => (-1)%Z
  | String a s' =>
      if Ascii.eqb a c then 0%Z
      else let i := str_find c s' in
           if (i <? 0)%Z then (-1)%Z else (i + 1)%Z
  end.

(** [s.rfind(c)]: index of the last [c], or -1. *)
Fixpoint str_rfind (c : ascii) (s : string) : Z :=
  match s with
  | EmptyString => (-1)%Z
  | String a s' =>
      let i := str_rfind c s' in
      if (0 <=? i)%Z then (i + 1)%Z
      else if Ascii.eqb a c then 0%Z else (-1)%Z
  end.

(** [s[start:stop]] for [0 <= start] and [0 <= stop]. *)
Definition str_slice (s : string) (start stop : Z) : string :=
  substring (Z.to_nat start) (Z.to_nat (stop - start)) s.

Definition str_startswith (c : ascii) (s : string) : bool :=
  match s with
  | EmptyString => false
  | String a _ => Ascii.eqb a c
  end.

Fixpoint str_endswith (c : ascii) (s : string) : bool :=
  match s with
  | EmptyString => false
  | String a EmptyString => Ascii.eqb a c
  | String _ s' => str_endswith c s'
  end.

(** [s[1:-1]] *)
Definition str_inner (s : string) : string :=
  substring 1 (String.length s - 2) s.

(** [c in s] *)
Fixpoint str_contains (c : ascii) (s : string) : bool :=
  match s with
  | EmptyString => false
  | String a s' => Ascii.eqb a c || str_contains c s'
  end.

Definition in_chars (cs : list ascii) (a : ascii) : bool :=
  existsb (Ascii.eqb a) cs.

Fixpoint str_lstrip_chars (cs : list ascii) (s : string) : string :=
  match s with
  | EmptyString => EmptyString
  | String a s' => if in_chars cs a then str_lstrip_chars cs s' else s
  end.

Fixpoint str_rstrip_chars (cs : list ascii) (s : string) : string :=
  match s with
  | EmptyString => EmptyString
  | String a s' =>
      match str_rstrip_chars cs s' with
      | EmptyString => if in_chars cs a then EmptyString else String a EmptyString
      | rest => String a rest
      end
  end.

(** [s.strip(chars)] *)
Definition str_strip_chars (cs : list ascii) (s : string) : string :=
  str_rstrip_chars cs (str_lstrip_chars cs s).

(** [s.split(c)] *)
Fixpoint str_split (c : ascii) (s : string) : list string :=
  match s with
  | EmptyString => [EmptyString]
  | String a s' =>
      if Ascii.eqb a c then EmptyString :: str_split c s'
      else match str_split c s' with
           | [] => [String a EmptyString]
           | w :: ws => String a w :: ws
           end
  end.

(** [t] occurs in [s]. *)
Definition occurs_in (t s : string) : Prop :=
  exists before after, s = before ++ t ++ after.

(** [str(n)] for an [int]. *)
Fixpoint digits_of_pos (fuel : nat) (n : N) (acc : string) : string :=
  match fuel with
  | O => acc
  | S fuel' =>
      let d := String (ascii_of_N (48 + N.modulo n 10)) acc in
      if (n <? 10)%N then d else digits_of_pos fuel' (N.div n 10) d
  end.

Definition str_of_int (z : Z) : string :=
  let n := Z.abs_N z in
  let ds := digits_of_pos (S (N.to_nat (N.log2 n))) n EmptyString in
  if (z <? 0)%Z then String "-"%char ds else ds.

Definition newline : string := String "010"%char EmptyString.

(** [a or b] for an optional text [a]: [None] and the empty text are
    falsy. *)
Definition str_or (a : option string) (b : string) : string :=
  match a with
  | Some (String c s) => String c s
  | _ => b
  end.

(** ** pydantic models, tools and the Python runtime *)

(** An instance of a class derived from [BaseModel]; [bm_dict] is what
    [.dict()] returns. *)
Record BaseModel : Type := { bm_class : string; bm_dict : dict }.

(** One entry of [__fields__]: [str(field.type_)] and
    [field.field_info.description]. *)
Record ModelField : Type := {
  field_type : string;
  field_description : option string
}.

(** A class derived from [BaseModel]: [model_new data] is
    [model_type( **data )], which validates and may raise. *)
Record ModelType : Type := {
  model_name : string;
  model_fields : list (string * ModelField);
  model_new : dict -> outcome BaseModel
}.

(** A Python function object: [fn_parameters] lists the names of
    [inspect.signature(func).parameters], [fn_type_hints] is
    [get_type_hints(func)] with each type given by its [str()], and
    [fn_call kwargs] is [func( **kwargs )]. *)
Record Callable : Type := {
  fn_name : string;
  fn_doc : option string;
  fn_parameters : list string;
  fn_type_hints : list (string * string);
  fn_call : dict -> outcome pyval
}.

(** An entry of [_REGISTERED_TOOLS]. *)
Record ToolEntry : Type := {
  te_function : Callable;
  te_name : string;
  te_description : string;
  te_parameters : ModelType;
  te_return_type : option string
}.

Class Runtime : Type := {
  (** [json.loads(text)] *)
  json_loads : string -> outcome pyval;
  (** [json.dumps(value)] *)
  json_dumps : pyval -> outcome string;
  (** [re.search(pattern, text, re.IGNORECASE)]: [None] when nothing
      matches, else [group(1)] of the match *)
  re_search : string -> string -> option string;
  (** [int(text)] *)
  py_int : string -> outcome Z;
  (** [float(text)], as a literal *)
  py_float : string -> outcome string;
  (** [text.strip()], [text.lower()], [text.title()] *)
  str_strip : string -> string;
  str_lower : string -> string;
  str_title : string -> string;
  (** [create_model(name, **{p: (type, ...)})] *)
  create_model : string -> list (string * string) -> ModelType
}.

(** [model_type( **data )] for a value that came out of [json.loads]: only
    a mapping can be unpacked. *)
Definition model_call (model_type : ModelType) (data : pyval) : outcome BaseModel :=
  match data with
  | PDict entries => model_new model_type entries
  | _ => Raise (TypeError "argument after ** must be a mapping")
  end.

(** ** Backend, requests and results *)

(** An entry of ["tool_calls"]: the code reads ["id"] with [[]] and the
    other two keys with [.get]. *)
Record ToolCall : Type := {
  tc_id : pyval;
  tc_name : option string;
  tc_arguments : option dict
}.

(** An entry of ["agent_delegations"]: ["id"] is read with [[]], the
    other two keys with [.get]; ["agent_id"] is one of the integers
    [id(agent)] the supervisor sent in [supervised_agents], or any other
    integer. *)
Record Delegation : Type := {
  dg_id : pyval;
  dg_agent_id : option Z;
  dg_input : option string
}.

(** The JSON body of a backend response. *)
Record Response : Type := {
  r_content : option string;
  r_tool_calls : option (list ToolCall);
  r_agent_delegations : option (list Delegation)
}.

Record FieldInfo : Type := { fi_type : string; fi_description : string }.

Definition Schema := list (string * FieldInfo).

Record ToolInfo : Type := {
  ti_name : string;
  ti_description : string;
  ti_parameters : Schema
}.

Record AgentToolInfo : Type := { ati_name : string; ati_description : string }.

Record AgentInfo : Type := {
  ai_id : Z;
  ai_name : string;
  ai_type : string;
  ai_instructions : string;
  ai_tools : option (list AgentToolInfo)
}.

Record ToolResult : Type := { tr_tool_call_id : pyval; tr_result : pyval }.

Record DelegationResult : Type := { dr_delegation_id : pyval; dr_result : string }.

(** The [payload] dict of the three agents; a key an agent never sets is
    [None]. *)
Record Payload : Type := {
  pl_prompt : string;
  pl_max_tokens : Z;
  pl_agent_type : option string;
  pl_tools : option (list ToolInfo);
  pl_supervised_agents : option (list AgentInfo);
  pl_output_schema : option Schema;
  pl_tool_results : option (list ToolResult);
  pl_delegation_results : option (list DelegationResult)
}.

Definition set_output_schema (p : Payload) (s : Schema) : Payload :=
  {| pl_prompt := pl_prompt p; pl_max_tokens := pl_max_tokens p;
     pl_agent_type := pl_agent_type p; pl_tools := pl_tools p;
     pl_supervised_agents := pl_supervised_agents p;
     pl_output_schema := Some s;
     pl_tool_results := pl_tool_results p;
     pl_delegation_results := pl_delegation_results p |}.

Definition set_tool_results (p : Payload) (rs : list ToolResult) : Payload :=
  {| pl_prompt := pl_prompt p; pl_max_tokens := pl_max_tokens p;
     pl_agent_type := pl_agent_type p; pl_tools := pl_tools p;
     pl_supervised_agents := pl_supervised_agents p;
     pl_output_schema := pl_output_schema p;
     pl_tool_results := Some rs;
     pl_delegation_results := pl_delegation_results p |}.

Definition set_delegation_results (p : Payload) (rs : list DelegationResult) : Payload :=
  {| pl_prompt := pl_prompt p; pl_max_tokens := pl_max_tokens p;
     pl_agent_type := pl_agent_type p; pl_tools := pl_tools p;
     pl_supervised_agents := pl_supervised_agents p;
     pl_output_schema := pl_output_schema p;
     pl_tool_results := pl_tool_results p;
     pl_delegation_results := Some rs |}.

Record Request : Type := {
  rq_endpoint : string;
  rq_json : Payload;
  rq_headers : list (string * string)
}.

(** What a run can see and change: the API key ([auth._ORION_API_KEY] and
    the environment variable), the tool registry
    ([analystsdk._REGISTERED_TOOLS]), the backend, which answers a request
    knowing all requests so far, and the requests sent (newest first). *)
Record World : Type := {
  ORION_API_KEY : option string;
  environ_ORION_API_KEY : option string;
  REGISTERED_TOOLS : gmap string ToolEntry;
  backend : list Request -> outcome Response;
  sent : list Request
}.

Definition M (A : Type) : Type := World -> outcome A * World.

Definition ret {A} (a : A) : M A := fun w => (Ok a, w).

Definition raise {A} (e : exn) : M A := fun w => (Raise e, w).

Definition bind {A B} (c : M A) (k : A -> M B) : M B :=
  fun w =>
    match c w with
    | (Ok a, w') => k a w'
    | (Raise e, w') => (Raise e, w')
    end.

(** [try: c  except Exception as e: handler e] *)
Definition try_except {A} (c : M A) (handler : exn -> M A) : M A :=
  fun w =>
    match c w with
    | (Ok a, w') => (Ok a, w')
    | (Raise e, w') => handler e w'
    end.

(** A computation that raises but touches nothing. *)
Definition lift {A} (c : outcome A) : M A := fun w => (c, w).

Declare Scope py_scope.
Delimit Scope py_scope with py.
Notation "x <- c ;; k" := (bind c (fun x => k))
  (at level 100, c at next level, right associativity) : py_scope.
Local Open Scope py_scope.

(** [for x in xs: acc = f acc x], stopping at the first exception. *)
Fixpoint for_each {A B} (f : B -> A -> M B) (xs : list A) (acc : B) : M B :=
  match xs with
  | [] => ret acc
  | x :: xs' => acc' <- f acc x ;; for_each f xs' acc'
  end.

(** [auth.get_orion_key] *)
Definition get_orion_key : M string :=
  fun w =>
    match str_or (ORION_API_KEY w) (str_or (environ_ORION_API_KEY w) EmptyString) with
    | EmptyString =>
        (Raise (ValueError
           ("Chave da API Orion não configurada. Use set_default_orion_key() "
            ++ "antes de utilizar os agentes, ou defina a variável de ambiente ORION_API_KEY.")),
         w)
    | key => (Ok key, w)
    end.

(** [auth.set_default_orion_key] *)
Definition set_default_orion_key (api_key : string) : M unit :=
  fun w =>
    (Ok tt,
     {| ORION_API_KEY := Some api_key;
        environ_ORION_API_KEY := Some api_key;
        REGISTERED_TOOLS := REGISTERED_TOOLS w;
        backend := backend w;
        sent := sent w |}).

(** [response = requests.post(endpoint, json=payload, headers=headers);
    response.raise_for_status(); response.json()]: one round-trip.  The
    request is recorded and the backend's answer, a body or an exception
    of the transport, is returned. *)
Definition post_json (endpoint : string) (payload : Payload)
    (headers : list (string * string)) : M Response :=
  fun w =>
    let rq := {| rq_endpoint := endpoint; rq_json := payload; rq_headers := headers |} in
    (backend w (rq :: sent w),
     {| ORION_API_KEY := ORION_API_KEY w;
        environ_ORION_API_KEY := environ_ORION_API_KEY w;
        REGISTERED_TOOLS := REGISTERED_TOOLS w;
        backend := backend w;
        sent := rq :: sent w |}).

Definition api_headers (api_key : string) : list (string * string) :=
  [("Content-Type", "application/json"); ("Authorization", "Bearer " ++ api_key)].

Definition default_base_url : string := "https://app-orion-dev.azurewebsites.net".

(** [operatorsdk.AgentResult] *)
Record AgentResult : Type := { content : string; raw_response : Response }.

(** [AgentResult(response.get("content", ""), raw_response=response)] *)
Definition make_result (response : Response) : AgentResult :=
  {| content := match r_content response with Some c => c | None => EmptyString end;
     raw_response := response |}.

(** What [run] returns: [Union[AgentResult, BaseModel]]. *)
Inductive RunOutput : Type :=
| Raw (result : AgentResult)
| Structured (instance : BaseModel).

(** The prompt all three [run] methods build. *)
Definition full_prompt (name instructions input_text : string) : string :=
  "# Instruções para " ++ name ++ newline
  ++ instructions ++ newline
  ++ newline
  ++ "# Entrada" ++ newline
  ++ input_text ++ newline
  ++ newline
  ++ "# Saída" ++ newline.

(** The [{field: {"type": ..., "description": ...}}] mapping built from
    [__fields__]. *)
Definition fields_schema (model : ModelType) : Schema :=
  map (fun '(field_name, field) =>
         (field_name,
          {| fi_type := field_type field;
             fi_description := str_or (field_description field) EmptyString |}))
      (model_fields model).

(** The [tools_info] list [Analyst.run] and [Supervisor.run] build from
    [self.tools] with the same loop. *)
Definition tools_info_of (tools : list ToolEntry) : list ToolInfo :=
  map (fun tool_data =>
         {| ti_name := te_name tool_data;
            ti_description := te_description tool_data;
            ti_parameters := fields_schema (te_parameters tool_data) |})
      tools.

(** ** analystsdk.py *)

(** [str(x)] of an optional text or number, as an f-string prints it. *)
Definition fmt_opt_str (x : option string) : string :=
  match x with Some s => s | None => "None" end.

Definition fmt_opt_int (x : option Z) : string :=
  match x with Some z => str_of_int z | None => "None" end.

Definition set_registry (w : World) (reg : gmap string ToolEntry) : World :=
  {| ORION_API_KEY := ORION_API_KEY w;
     environ_ORION_API_KEY := environ_ORION_API_KEY w;
     REGISTERED_TOOLS := reg;
     backend := backend w;
     sent := sent w |}.

Definition registry_lookup (name : string) : M (option ToolEntry) :=
  fun w => (Ok (REGISTERED_TOOLS w !! name), w).

Definition opt_eqb (a : option string) (b : string) : bool :=
  match a with Some s => String.eqb s b | None => false end.

Section WithRuntime.
Context `{rt : Runtime}.

(** The decorator [tool(func, name=..., description=...)]: registers the
    function under its name (last write wins) and returns it.  This is
    the decoration of a function that [inspect.signature],
    [get_type_hints] and [create_model] accept; for any other the source
    raises before it registers anything, which is outside the model. *)
Definition tool (func : Callable) (name description : option string) : M Callable :=
  fun w =>
    let func_name := str_or name (fn_name func) in
    let func_description :=
      str_or description (str_strip (str_or (fn_doc func) EmptyString)) in
    let type_hints := fn_type_hints func in
    let parameters :=
      map (fun param_name =>
             (param_name,
              match find (fun h => String.eqb (fst h) param_name) type_hints with
              | Some h => snd h
              | None => "<class 'str'>"
              end))
          (fn_parameters func) in
    let param_model := create_model (func_name ++ "_params") parameters in
    let entry :=
      {| te_function := func;
         te_name := func_name;
         te_description := func_description;
         te_parameters := param_model;
         te_return_type :=
           option_map snd (find (fun h => String.eqb (fst h) "return") type_hints) |} in
    (Ok func, set_registry w (<[func_name := entry]> (REGISTERED_TOOLS w))).

(** The body of the constructors' loop over [tools]: take the registry
    entry of the function, registering the function first when it has
    none. *)
Definition resolve_tool (acc : list ToolEntry) (tool_func : Callable) : M (list ToolEntry) :=
  let tool_name := fn_name tool_func in
  found <- registry_lookup tool_name ;;
  match found with
  | Some entry => ret (acc ++ [entry])%list
  | None =>
      decorated <- tool tool_func None None ;;
      found' <- registry_lookup (fn_name decorated) ;;
      match found' with
      | Some entry => ret (acc ++ [entry])%list
      | None => ret acc
      end
  end.

(** The tool lookup and the [try] block shared, line for line, by
    [Analyst._execute_tool_call] and [Supervisor._execute_tool_call];
    [tools] is [self.tools]. *)
Definition execute_tool_call_in (tools : list ToolEntry) (tool_call : ToolCall)
  : outcome pyval :=
  let tool_name := tc_name tool_call in
  let arguments := match tc_arguments tool_call with Some a => a | None => [] end in
  match find (fun t => opt_eqb tool_name (te_name t)) tools with
  | None =>
      Ok (PDict [("error", PStr ("Ferramenta '" ++ fmt_opt_str tool_name ++ "' não encontrada"))])
  | Some tool_info =>
      let attempt :=
        obind (model_new (te_parameters tool_info) arguments) (fun validated_args =>
        let arg_dict := bm_dict validated_args in
        obind (fn_call (te_function tool_info) arg_dict) (fun result =>
        json_dumps result)) in
      match attempt with
      | Ok text => Ok (PStr text)
      | Raise e =>
          Ok (PDict [("error",
                      PStr ("Erro ao executar ferramenta '" ++ fmt_opt_str tool_name
                            ++ "': " ++ exn_str e))])
      end
  end.

End WithRuntime.

Record AnalystObj : Type := {
  an_name : string;
  an_instructions : string;
  an_output_type : option ModelType;
  an_require_output_type : bool;
  an_base_url : string;
  an_tools : list ToolEntry
}.

(** [not x] for an optional object. *)
Definition is_none {A} (x : option A) : bool :=
  match x with Some _ => false | None => true end.

Module Analyst.
Section WithRuntime.
Context `{rt : Runtime}.

(** [Analyst.__init__] *)
Definition __init__ (name instructions : string) (output_type : option ModelType)
    (tools : list Callable) (require_output_type : bool) : M AnalystObj :=
  if require_output_type && is_none output_type
  then raise (ValueError "output_type é obrigatório quando require_output_type=True")
  else
    self_tools <- for_each resolve_tool tools [] ;;
    ret {| an_name := name;
           an_instructions := instructions;
           an_output_type := output_type;
           an_require_output_type := require_output_type;
           an_base_url := default_base_url;
           an_tools := self_tools |}.

(** [Analyst._execute_tool_call] *)
Definition _execute_tool_call (self : AnalystObj) (tool_call : ToolCall) : outcome pyval :=
  execute_tool_call_in (an_tools self) tool_call.

(** [Analyst._call_orion_api] *)
Definition _call_orion_api (self : AnalystObj) (prompt : string)
    (tools : list ToolInfo) (output_schema : option Schema) : M Response :=
  api_key <- get_orion_key ;;
  let endpoint := an_base_url self ++ "/api/agents/run" in
  let payload :=
    {| pl_prompt := prompt; pl_max_tokens := 1500;
       pl_agent_type := Some "analyst"; pl_tools := Some tools;
       pl_supervised_agents := None; pl_output_schema := None;
       pl_tool_results := None; pl_delegation_results := None |} in
  let payload :=
    match output_schema with
    | Some (f :: fs) => set_output_schema payload (f :: fs)
    | _ => payload
    end in
  let headers := api_headers api_key in
  result <- post_json endpoint payload headers ;;
  match r_tool_calls result with
  | Some tool_calls =>
      for_each
        (fun (_ : Response) tool_call =>
           tool_result <- lift (_execute_tool_call self tool_call) ;;
           let tool_response_payload :=
             set_tool_results payload
               [{| tr_tool_call_id := tc_id tool_call; tr_result := tool_result |}] in
           post_json endpoint tool_response_payload headers)
        tool_calls result
  | None => ret result
  end.

(** The three regular expressions strategy 3 tries for a field.  The
    source builds them in f-strings.  In the first one it writes
    [\\{.*?\\}] inside the f-string, where Python reads the braces as a
    replacement field and rejects the line; the pattern is taken here as
    the regular expression that line spells out. *)
Definition patterns (field_name : string) : list string :=
  [ quote ++ field_name ++ quote ++ "\s*:\s*(" ++ quote ++ ".*?" ++ quote
      ++ "|\d+(\.\d+)?|\[.*?\]|\{.*?\}|true|false|null)";
    field_name ++ "\s*:\s*([^,\n]+)";
    str_title field_name ++ "\s*:\s*([^,\n]+)" ].

(** The inner [for pattern in patterns] loop up to its [break]: the text
    captured by the first pattern that matches. *)
Fixpoint first_match (pats : list string) (output : string) : option string :=
  match pats with
  | [] => None
  | pattern :: rest =>
      match re_search pattern output with
      | Some group1 => Some group1
      | None => first_match rest output
      end
  end.

(** The conversion of a captured [value_str] (already stripped). *)
Definition convert_value (value_str : string) : pyval :=
  if str_startswith quote_char value_str && str_endswith quote_char value_str then
    PStr (str_inner value_str)
  else if String.eqb (str_lower value_str) "true"
          || String.eqb (str_lower value_str) "false" then
    PBool (String.eqb (str_lower value_str) "true")
  else if str_startswith "["%char value_str && str_endswith "]"%char value_str then
    match json_loads value_str with
    | Ok v => v
    | Raise _ =>
        PList (map PStr (str_split ","%char
                 (str_strip_chars ["["%char; "]"%char] value_str)))
    end
  else
    let number :=
      if str_contains "."%char value_str
      then obind (py_float value_str) (fun f => Ok (PFloat f))
      else obind (py_int value_str) (fun z => Ok (PInt z)) in
    match number with
    | Ok v => v
    | Raise _ => PStr value_str
    end.

(** One round of [for field_name in model_type.__fields__]. *)
Definition scan_field (output : string) (data : dict) (field_name : string) : dict :=
  match first_match (patterns field_name) output with
  | Some group1 => dict_set data field_name (convert_value (str_strip group1))
  | None => data
  end.

(** Strategy 1: the whole text as a JSON document. *)
Definition strategy1 (output : string) (model_type : ModelType) : outcome BaseModel :=
  obind (json_loads output) (model_call model_type).

(** Strategy 2: the text from the first '{' to the last '}'.  [None] when
    the guard on the two indices fails and the [try] block ends without
    returning. *)
Definition strategy2 (output : string) (model_type : ModelType)
  : option (outcome BaseModel) :=
  let start_idx := str_find "{"%char output in
  let end_idx := str_rfind "}"%char output in
  if (0 <=? start_idx)%Z && (start_idx <? end_idx)%Z then
    let json_str := str_slice output start_idx (end_idx + 1) in
    Some (obind (json_loads json_str) (model_call model_type))
  else None.

(** Strategy 3: scan for each field, then build the model. *)
Definition strategy3 (output : string) (model_type : ModelType) : outcome BaseModel :=
  let data := fold_left (scan_field output) (map fst (model_fields model_type)) [] in
  model_new model_type data.

(** [Analyst._parse_output_to_model] *)
Definition _parse_output_to_model (self : AnalystObj) (output : string)
    (model_type : ModelType) : outcome BaseModel :=
  match strategy1 output model_type with
  | Ok instance => Ok instance
  | Raise _ =>
      match strategy2 output model_type with
      | Some (Ok instance) => Ok instance
      | _ =>
          match strategy3 output model_type with
          | Ok instance => Ok instance
          | Raise e =>
              Raise (ValueError
                ("Não foi possível extrair dados estruturados: " ++ exn_str e))
          end
      end
  end.

(** Which of the cascade's three [return] statements produces the
    result; [None] when the function raises. *)
Definition selected_strategy (output : string) (model_type : ModelType) : option nat :=
  if is_ok (strategy1 output model_type) then Some 1
  else match strategy2 output model_type with
       | Some (Ok _) => Some 2
       | _ => if is_ok (strategy3 output model_type) then Some 3 else None
       end.

(** [Analyst.run] *)
Definition run (self : AnalystObj) (input_text : string) : M RunOutput :=
  let prompt := full_prompt (an_name self) (an_instructions self) input_text in
  let tools_info := tools_info_of (an_tools self) in
  let output_schema := option_map fields_schema (an_output_type self) in
  response <- _call_orion_api self prompt tools_info output_schema ;;
  let result := make_result response in
  match an_output_type self with
  | Some output_type =>
      try_except
        (instance <- lift (_parse_output_to_model self (content result) output_type) ;;
         ret (Structured instance))
        (fun e =>
           if an_require_output_type self
           then raise (ValueError
                  ("Não foi possível converter o resultado para "
                   ++ model_name output_type ++ ": " ++ exn_str e))
           else ret (Raw result))
  | None => ret (Raw result)
  end.

End WithRuntime.
End Analyst.

(** ** operatorsdk.py *)

Record OperatorObj : Type := {
  op_name : string;
  op_instructions : string;
  op_base_url : string
}.

Module Operator.

(** [Operator.__init__] *)
Definition __init__ (name instructions : string) : OperatorObj :=
  {| op_name := name; op_instructions := instructions; op_base_url := default_base_url |}.

(** [Operator._call_orion_api] *)
Definition _call_orion_api (self : OperatorObj) (prompt : string) : M Response :=
  api_key <- get_orion_key ;;
  let endpoint := op_base_url self ++ "/api/agents/run" in
  let payload :=
    {| pl_prompt := prompt; pl_max_tokens := 1000;
       pl_agent_type := None; pl_tools := None;
       pl_supervised_agents := None; pl_output_schema := None;
       pl_tool_results := None; pl_delegation_results := None |} in
  post_json endpoint payload (api_headers api_key).

(** [Operator.run] *)
Definition run (self : OperatorObj) (input_text : string) : M AgentResult :=
  let prompt := full_prompt (op_name self) (op_instructions self) input_text in
  response <- _call_orion_api self prompt ;;
  ret (make_result response).

End Operator.

(** ** supervisorsdk.py *)

(** A supervised agent, [Union[Operator, Analyst]]. *)
Inductive Agent : Type :=
| AnOperator (o : OperatorObj)
| AnAnalyst (a : AnalystObj).

(** An agent object together with [id(agent)]. *)
Record AgentRef : Type := { obj_id : Z; obj : Agent }.

Definition agent_name (a : AgentRef) : string :=
  match obj a with
  | AnOperator o => op_name o
  | AnAnalyst an => an_name an
  end.

Definition agent_instructions (a : AgentRef) : string :=
  match obj a with
  | AnOperator o => op_instructions o
  | AnAnalyst an => an_instructions an
  end.

Record SupervisorObj : Type := {
  sv_name : string;
  sv_instructions : string;
  sv_supervised_agents : list AgentRef;
  sv_output_type : option ModelType;
  sv_require_output_type : bool;
  sv_base_url : string;
  sv_tools : list ToolEntry
}.

(** The local variables of the [while] loop of
    [Supervisor._call_orion_api]. *)
Record LoopState : Type := {
  payload : Payload;
  result : Response;
  needs_more_processing : bool;
  current_iteration : nat
}.

Module Supervisor.
Section WithRuntime.
Context `{rt : Runtime}.

(** [Supervisor.__init__] *)
Definition __init__ (name instructions : string) (supervised_agents : list AgentRef)
    (output_type : option ModelType) (tools : list Callable)
    (require_output_type : bool) : M SupervisorObj :=
  if require_output_type && is_none output_type
  then raise (ValueError "output_type é obrigatório quando require_output_type=True")
  else
    self_tools <- for_each resolve_tool tools [] ;;
    ret {| sv_name := name;
           sv_instructions := instructions;
           sv_supervised_agents := supervised_agents;
           sv_output_type := output_type;
           sv_require_output_type := require_output_type;
           sv_base_url := default_base_url;
           sv_tools := self_tools |}.

(** [Supervisor.add_supervised_agent] *)
Definition add_supervised_agent (self : SupervisorObj) (agent : AgentRef) : SupervisorObj :=
  {| sv_name := sv_name self;
     sv_instructions := sv_instructions self;
     sv_supervised_agents := (sv_supervised_agents self ++ [agent])%list;
     sv_output_type := sv_output_type self;
     sv_require_output_type := sv_require_output_type self;
     sv_base_url := sv_base_url self;
     sv_tools := sv_tools self |}.

(** [Supervisor._execute_tool_call] *)
Definition _execute_tool_call (self : SupervisorObj) (tool_call : ToolCall) : outcome pyval :=
  execute_tool_call_in (sv_tools self) tool_call.

(** [await agent.run(input)] on a supervised agent. *)
Definition agent_run (agent : AgentRef) (input_text : string) : M RunOutput :=
  match obj agent with
  | AnOperator o => r <- Operator.run o input_text ;; ret (Raw r)
  | AnAnalyst an => Analyst.run an input_text
  end.

(** [id(a) == agent_id] *)
Definition id_matches (agent_id : option Z) (a : AgentRef) : bool :=
  match agent_id with
  | Some z => (obj_id a =? z)%Z
  | None => false
  end.

(** [Supervisor._execute_agent_delegation] *)
Definition _execute_agent_delegation (self : SupervisorObj) (delegation : Delegation)
  : M string :=
  let agent_id := dg_agent_id delegation in
  let input_for_agent :=
    match dg_input delegation with Some s => s | None => EmptyString end in
  match find (id_matches agent_id) (sv_supervised_agents self) with
  | None => ret ("Erro: Agente com ID " ++ fmt_opt_int agent_id ++ " não encontrado")
  | Some agent =>
      try_except
        (run_result <- agent_run agent input_for_agent ;;
         match run_result with
         | Raw r => ret (content r)
         | Structured instance => lift (json_dumps (PDict (bm_dict instance)))
         end)
        (fun e => ret ("Erro ao executar o agente " ++ agent_name agent ++ ": " ++ exn_str e))
  end.

Definition max_iterations : nat := 10.

(** The block under [if "tool_calls" in result]. *)
Definition process_tool_calls (self : SupervisorObj) (endpoint : string)
    (headers : list (string * string)) (st : LoopState) : M LoopState :=
  match r_tool_calls (result st) with
  | Some tool_calls =>
      tool_results <-
        for_each
          (fun acc tool_call =>
             tool_result <- lift (_execute_tool_call self tool_call) ;;
             ret (acc ++ [{| tr_tool_call_id := tc_id tool_call;
                             tr_result := tool_result |}])%list)
          tool_calls [] ;;
      let payload' := set_tool_results (payload st) tool_results in
      result' <- post_json endpoint payload' headers ;;
      ret {| payload := payload'; result := result';
             needs_more_processing := true;
             current_iteration := current_iteration st |}
  | None => ret st
  end.

(** The block under [if "agent_delegations" in result]. *)
Definition process_delegations (self : SupervisorObj) (endpoint : string)
    (headers : list (string * string)) (st : LoopState) : M LoopState :=
  match r_agent_delegations (result st) with
  | Some delegations =>
      delegation_results <-
        for_each
          (fun acc delegation =>
             delegation_result <- _execute_agent_delegation self delegation ;;
             ret (acc ++ [{| dr_delegation_id := dg_id delegation;
                             dr_result := delegation_result |}])%list)
          delegations [] ;;
      let payload' := set_delegation_results (payload st) delegation_results in
      result' <- post_json endpoint payload' headers ;;
      ret {| payload := payload'; result := result';
             needs_more_processing := true;
             current_iteration := current_iteration st |}
  | None => ret st
  end.

(** One pass through the body of the [while] loop. *)
Definition loop_body (self : SupervisorObj) (endpoint : string)
    (headers : list (string * string)) (st : LoopState) : M LoopState :=
  let st0 :=
    {| payload := payload st; result := result st;
       needs_more_processing := false;
       current_iteration := S (current_iteration st) |} in
  st1 <- process_tool_calls self endpoint headers st0 ;;
  process_delegations self endpoint headers st1.

(** [while needs_more_processing and current_iteration < max_iterations].
    Every pass adds one to [current_iteration], so [max_iterations] units
    of [fuel] are never used up before the test fails (see
    [while_loop_fuel]). *)
Fixpoint while_loop (fuel : nat) (self : SupervisorObj) (endpoint : string)
    (headers : list (string * string)) (st : LoopState) : M LoopState :=
  if needs_more_processing st && (current_iteration st <? max_iterations)%nat then
    match fuel with
    | O => ret st
    | S fuel' =>
        st' <- loop_body self endpoint headers st ;;
        while_loop fuel' self endpoint headers st'
    end
  else ret st.

(** The statements of [Supervisor._call_orion_api] from the first
    [requests.post] on. *)
Definition orchestrate (self : SupervisorObj) (endpoint : string)
    (headers : list (string * string)) (payload0 : Payload) : M LoopState :=
  result0 <- post_json endpoint payload0 headers ;;
  while_loop max_iterations self endpoint headers
    {| payload := payload0; result := result0;
       needs_more_processing := true; current_iteration := 0 |}.

Definition initial_payload (prompt : string) (tools : list ToolInfo)
    (supervised_agents : list AgentInfo) (output_schema : option Schema) : Payload :=
  let payload :=
    {| pl_prompt := prompt; pl_max_tokens := 1500;
       pl_agent_type := Some "supervisor"; pl_tools := Some tools;
       pl_supervised_agents := Some supervised_agents; pl_output_schema := None;
       pl_tool_results := None; pl_delegation_results := None |} in
  match output_schema with
  | Some (f :: fs) => set_output_schema payload (f :: fs)
  | _ => payload
  end.

(** [Supervisor._call_orion_api] *)
Definition _call_orion_api (self : SupervisorObj) (prompt : string)
    (tools : list ToolInfo) (supervised_agents : list AgentInfo)
    (output_schema : option Schema) : M Response :=
  api_key <- get_orion_key ;;
  let endpoint := sv_base_url self ++ "/api/agents/run" in
  let payload0 := initial_payload prompt tools supervised_agents output_schema in
  let headers := api_headers api_key in
  final <- orchestrate self endpoint headers payload0 ;;
  ret (result final).

(** The entry of [supervised_agents_info] for one agent. *)
Definition agent_info (agent : AgentRef) : AgentInfo :=
  {| ai_id := obj_id agent;
     ai_name := agent_name agent;
     ai_type := match obj agent with AnOperator _ => "operator" | AnAnalyst _ => "analyst" end;
     ai_instructions := agent_instructions agent;
     ai_tools :=
       match obj agent with
       | AnAnalyst an =>
           match an_tools an with
           | [] => None
           | ts => Some (map (fun tool_data =>
                                {| ati_name := te_name tool_data;
                                   ati_description := te_description tool_data |}) ts)
           end
       | AnOperator _ => None
       end |}.

(** The structured-output step of [Supervisor.run]: the [try] block that
    builds a temporary [Analyst] and calls its parser. *)
Definition parse_with_analyst (output_type : ModelType) (text : string) : M BaseModel :=
  analyst_instance <- Analyst.__init__ "temp" "temp" (Some output_type) [] false ;;
  lift (Analyst._parse_output_to_model analyst_instance text output_type).

(** [Supervisor.run] *)
Definition run (self : SupervisorObj) (input_text : string) : M RunOutput :=
  let prompt := full_prompt (sv_name self) (sv_instructions self) input_text in
  let tools_info := tools_info_of (sv_tools self) in
  let supervised_agents_info := map agent_info (sv_supervised_agents self) in
  let output_schema := option_map fields_schema (sv_output_type self) in
  response <- _call_orion_api self prompt tools_info supervised_agents_info output_schema ;;
  let run_result := make_result response in
  match sv_output_type self with
  | Some output_type =>
      try_except
        (instance <- parse_with_analyst output_type (content run_result) ;;
         ret (Structured instance))
        (fun e =>
           if sv_require_output_type self
           then raise (ValueError
                  ("Não foi possível converter o resultado para "
                   ++ model_name output_type ++ ": " ++ exn_str e))
           else ret (Raw run_result))
  | None => ret (Raw run_result)
  end.

End WithRuntime.
End Supervisor.

(** ** A runtime to compute with

    [Demo.runtime] implements the fields of [Runtime] so that the
    functions above can be run on examples.  It follows Python on ASCII
    text written plainly: a JSON reader without [\u] escapes, exponents
    and [NaN]; a JSON writer; a backtracking matcher for the three
    patterns of strategy 3; [int] and [float] on decimal literals.
    [Demo.model] builds a pydantic class whose fields are all required
    and take a value of exactly the declared type. *)
Module Demo.

Definition is_space (a : ascii) : bool :=
  in_chars [" "%char; "009"%char; "010"%char; "011"%char; "012"%char; "013"%char;
            "028"%char; "029"%char; "030"%char; "031"%char] a.

Definition is_digit (a : ascii) : bool :=
  let n := nat_of_ascii a in (48 <=? n)%nat && (n <=? 57)%nat.

Definition lower_char (a : ascii) : ascii :=
  let n := nat_of_ascii a in
  if (65 <=? n)%nat && (n <=? 90)%nat then ascii_of_nat (n + 32) else a.

Definition upper_char (a : ascii) : ascii :=
  let n := nat_of_ascii a in
  if (97 <=? n)%nat && (n <=? 122)%nat then ascii_of_nat (n - 32) else a.

Definition is_alpha (a : ascii) : bool :=
  let n := nat_of_ascii (lower_char a) in (97 <=? n)%nat && (n <=? 122)%nat.

Fixpoint map_string (f : ascii -> ascii) (s : string) : string :=
  match s with
  | EmptyString => EmptyString
  | String a s' => String (f a) (map_string f s')
  end.

Definition lower (s : string) : string := map_string lower_char s.

(** [s.title()]: a letter after a non-letter is upper-cased, any other
    letter lower-cased. *)
Fixpoint title_from (after_letter : bool) (s : string) : string :=
  match s with
  | EmptyString => EmptyString
  | String a s' =>
      String (if after_letter then lower_char a else upper_char a)
             (title_from (is_alpha a) s')
  end.

Definition title (s : string) : string := title_from false s.

Fixpoint lstrip (s : string) : string :=
  match s with
  | EmptyString => EmptyString
  | String a s' => if is_space a then lstrip s' else s
  end.

Fixpoint rstrip (s : string) : string :=
  match s with
  | EmptyString => EmptyString
  | String a s' =>
      match rstrip s' with
      | EmptyString => if is_space a then EmptyString else String a EmptyString
      | rest => String a rest
      end
  end.

Definition strip (s : string) : string := rstrip (lstrip s).

(** *** Numbers *)

Fixpoint take_digits (s : string) : string * string :=
  match s with
  | String a s' =>
      if is_digit a then let (ds, rest) := take_digits s' in (String a ds, rest)
      else (EmptyString, s)
  | EmptyString => (EmptyString, EmptyString)
  end.

Fixpoint digits_value (ds : string) (acc : Z) : Z :=
  match ds with
  | EmptyString => acc
  | String a ds' => digits_value ds' (10 * acc + Z.of_nat (nat_of_ascii a - 48))%Z
  end.

(** [int(text)] for an optional sign and decimal digits between blanks. *)
Definition int_of (text : string) : outcome Z :=
  let bad := Raise (ValueError ("invalid literal for int() with base 10: '" ++ text ++ "'")) in
  let body := strip text in
  let (negative, unsigned) :=
    match body with
    | String "-" r => (true, r)
    | String "+" r => (false, r)
    | _ => (false, body)
    end in
  match take_digits unsigned with
  | (String d ds, EmptyString) =>
      let v := digits_value (String d ds) 0 in
      Ok (if negative then (- v)%Z else v)
  | _ => bad
  end.

(** [float(text)] for decimal literals with a point ([1.5], [1.], [.5])
    and an optional sign; the literal is kept as written. *)
Definition float_of (text : string) : outcome string :=
  let bad := Raise (ValueError ("could not convert string to float: '" ++ text ++ "'")) in
  let body := strip text in
  let unsigned :=
    match body with
    | String "-" r => r
    | String "+" r => r
    | _ => body
    end in
  match take_digits unsigned with
  | (whole, String "." r) =>
      match take_digits r with
      | (fraction, EmptyString) =>
          if String.eqb whole EmptyString && String.eqb fraction EmptyString
          then bad else Ok body
      | _ => bad
      end
  | _ => bad
  end.

(** *** JSON *)

Definition JSONDecodeError (msg : string) : exn := Exn "JSONDecodeError" msg.

Fixpoint skip_ws (s : string) : string :=
  match s with
  | String a s' =>
      if in_chars [" "%char; "009"%char; "010"%char; "013"%char] a then skip_ws s' else s
  | EmptyString => EmptyString
  end.

(** The characters of a string literal after its opening quote, up to the
    closing quote. *)
Fixpoint read_string (s : string) : option (string * string) :=
  match s with
  | EmptyString => None
  | String a s' =>
      if Ascii.eqb a quote_char then Some (EmptyString, s')
      else if Ascii.eqb a "\"%char then
        match s' with
        | String e s'' =>
            let unescaped :=
              if Ascii.eqb e quote_char then Some quote_char
              else if Ascii.eqb e "\"%char then Some "\"%char
              else if Ascii.eqb e "/"%char then Some "/"%char
              else if Ascii.eqb e "n"%char then Some "010"%char
              else if Ascii.eqb e "t"%char then Some "009"%char
              else if Ascii.eqb e "r"%char then Some "013"%char
              else if Ascii.eqb e "b"%char then Some "008"%char
              else if Ascii.eqb e "f"%char then Some "012"%char
              else None in
            match unescaped, read_string s'' with
            | Some c, Some (body, rest) => Some (String c body, rest)
            | _, _ => None
            end
        | EmptyString => None
        end
      else if (nat_of_ascii a <? 32)%nat then None
      else match read_string s' with
           | Some (body, rest) => Some (String a body, rest)
           | None => None
           end
  end.

(** A number: [-?int frac?]; with a fraction it is a float. *)
Definition read_number (s : string) : option (pyval * string) :=
  let (negative, unsigned) :=
    match s with
    | String "-" r => (true, r)
    | _ => (false, s)
    end in
  match take_digits unsigned with
  | (String d ds, rest) =>
      if Ascii.eqb d "0"%char && negb (String.eqb ds EmptyString) then None
      else
        let int_text := (if negative then "-" else EmptyString) ++ String d ds in
        match rest with
        | String "." r =>
            match take_digits r with
            | (String f fs, rest') => Some (PFloat (int_text ++ "." ++ String f fs), rest')
            | _ => None
            end
        | _ =>
            let v := digits_value (String d ds) 0 in
            Some (PInt (if negative then (- v)%Z else v), rest)
        end
  | _ => None
  end.

Definition strip_prefix (p s : string) : option string :=
  if String.prefix p s then Some (substring (String.length p) (String.length s) s)
  else None.

Fixpoint read_value (fuel : nat) (s : string) : option (pyval * string) :=
  match fuel with
  | O => None
  | S fuel' =>
      let read_items :=
        fix read_items (n : nat) (s : string) (acc : list pyval)
          : option (list pyval * string) :=
          match n with
          | O => None
          | S n' =>
              match read_value fuel' (skip_ws s) with
              | Some (v, rest) =>
                  match skip_ws rest with
                  | String "," rest' => read_items n' rest' (acc ++ [v])%list
                  | String "]" rest' => Some ((acc ++ [v])%list, rest')
                  | _ => None
                  end
              | None => None
              end
          end in
      let read_members :=
        fix read_members (n : nat) (s : string) (acc : dict)
          : option (dict * string) :=
          match n with
          | O => None
          | S n' =>
              match skip_ws s with
              | String q s1 =>
                  if Ascii.eqb q quote_char then
                    match read_string s1 with
                    | Some (key, s2) =>
                        match skip_ws s2 with
                        | String ":" s3 =>
                            match read_value fuel' (skip_ws s3) with
                            | Some (v, rest) =>
                                match skip_ws rest with
                                | String "," rest' => read_members n' rest' (dict_set acc key v)
                                | String "}" rest' => Some (dict_set acc key v, rest')
                                | _ => None
                                end
                            | None => None
                            end
                        | _ => None
                        end
                    | None => None
                    end
                  else None
              | EmptyString => None
              end
          end in
      match s with
      | String "{" s' =>
          match skip_ws s' with
          | String "}" rest => Some (PDict [], rest)
          | _ => match read_members (String.length s) s' [] with
                 | Some (d, rest) => Some (PDict d, rest)
                 | None => None
                 end
          end
      | String "[" s' =>
          match skip_ws s' with
          | String "]" rest => Some (PList [], rest)
          | _ => match read_items (String.length s) s' [] with
                 | Some (l, rest) => Some (PList l, rest)
                 | None => None
                 end
          end
      | String q s' =>
          if Ascii.eqb q quote_char then
            match read_string s' with
            | Some (body, rest) => Some (PStr body, rest)
            | None => None
            end
          else
            match strip_prefix "true" s, strip_prefix "false" s, strip_prefix "null" s with
            | Some rest, _, _ => Some (PBool true, rest)
            | _, Some rest, _ => Some (PBool false, rest)
            | _, _, Some rest => Some (PNone, rest)
            | _, _, _ => read_number s
            end
      | EmptyString => None
      end
  end.

Definition loads (text : string) : outcome pyval :=
  match read_value (S (String.length text)) (skip_ws text) with
  | Some (v, rest) =>
      match skip_ws rest with
      | EmptyString => Ok v
      | _ => Raise (JSONDecodeError "Extra data")
      end
  | None => Raise (JSONDecodeError "Expecting value")
  end.


Definition hex_digit (n : nat) : ascii :=
  if (n <? 10)%nat then ascii_of_nat (48 + n) else ascii_of_nat (87 + n).

Fixpoint escape (s : string) : string :=
  match s with
  | EmptyString => EmptyString
  | String a s' =>
      let n := nat_of_ascii a in
      (if Ascii.eqb a quote_char then "\" ++ quote
       else if Ascii.eqb a "\"%char then "\\"
       else if (n =? 10)%nat then "\n"
       else if (n =? 13)%nat then "\r"
       else if (n =? 9)%nat then "\t"
       else if (n =? 8)%nat then "\b"
       else if (n =? 12)%nat then "\f"
       else if (n <? 32)%nat then
         "\u00" ++ String (hex_digit (n / 16)) (String (hex_digit (n mod 16)) EmptyString)
       else String a EmptyString)
      ++ escape s'
  end.

Definition join (sep : string) (parts : list string) : string :=
  match parts with
  | [] => EmptyString
  | p :: ps => fold_left (fun acc x => acc ++ sep ++ x) ps p
  end.

(** [json.dumps(value)] with the default separators. *)
Fixpoint dumps (v : pyval) : outcome string :=
  match v with
  | PNone => Ok "null"
  | PBool b => Ok (if b then "true" else "false")
  | PInt z => Ok (str_of_int z)
  | PFloat literal => Ok literal
  | PStr s => Ok (quote ++ escape s ++ quote)
  | PList items =>
      let fix all (l : list pyval) : outcome (list string) :=
        match l with
        | [] => Ok []
        | x :: l' => obind (dumps x) (fun t => obind (all l') (fun ts => Ok (t :: ts)))
        end in
      obind (all items) (fun ts => Ok ("[" ++ join ", " ts ++ "]"))
  | PDict entries =>
      let fix all (l : list (string * pyval)) : outcome (list string) :=
        match l with
        | [] => Ok []
        | (k, x) :: l' =>
            obind (dumps x) (fun t =>
            obind (all l') (fun ts => Ok ((quote ++ escape k ++ quote ++ ": " ++ t) :: ts)))
        end in
      obind (all entries) (fun ts => Ok ("{" ++ join ", " ts ++ "}"))
  | PObject class_name =>
      Raise (TypeError ("Object of type " ++ class_name ++ " is not JSON serializable"))
  end.

(** *** Regular expressions *)

(** The constructs the three patterns use.  [Lit] compares without case,
    as under [re.IGNORECASE]; [Group1] is the capture group numbered 1. *)
Inductive regex : Type :=
| Lit (c : ascii)
| Class (member : ascii -> bool)
| Cat (r1 r2 : regex)
| Alt (r1 r2 : regex)
| Star (greedy : bool) (r : regex)
| Opt (r : regex)
| Group1 (r : regex).

(** Backtracking match of [r] at the start of [s]; [k] receives the rest
    of the text and the text of group 1. *)
Fixpoint rmatch {A} (r : regex) (s : string) (cap : option string)
    (k : string -> option string -> option A) : option A :=
  match r with
  | Lit c =>
      match s with
      | String a s' => if Ascii.eqb (lower_char a) (lower_char c) then k s' cap else None
      | EmptyString => None
      end
  | Class member =>
      match s with
      | String a s' => if member a then k s' cap else None
      | EmptyString => None
      end
  | Cat r1 r2 => rmatch r1 s cap (fun s1 cap1 => rmatch r2 s1 cap1 k)
  | Alt r1 r2 =>
      match rmatch r1 s cap k with
      | Some x => Some x
      | None => rmatch r2 s cap k
      end
  | Opt r1 =>
      match rmatch r1 s cap k with
      | Some x => Some x
      | None => k s cap
      end
  | Star greedy r1 =>
      (fix star (n : nat) (s : string) (cap : option string) : option A :=
         match n with
         | O => k s cap
         | S n' =>
             let again :=
               rmatch r1 s cap (fun s1 cap1 =>
                 if (String.length s1 <? String.length s)%nat then star n' s1 cap1 else None) in
             if greedy then
               match again with Some x => Some x | None => k s cap end
             else
               match k s cap with Some x => Some x | None => again end
         end) (String.length s) s cap
  | Group1 r1 =>
      rmatch r1 s cap (fun s1 _ =>
        k s1 (Some (substring 0 (String.length s - String.length s1) s)))
  end.

(** [re.search]: the leftmost position where [r] matches. *)
Fixpoint search (r : regex) (s : string) : option string :=
  match rmatch r s None (fun _ cap => Some cap) with
  | Some cap => cap
  | None =>
      match s with
      | String _ s' => search r s'
      | EmptyString => None
      end
  end.

Fixpoint lits (s : string) : regex -> regex :=
  match s with
  | EmptyString => fun r => r
  | String a s' => fun r => Cat (Lit a) (lits s' r)
  end.

Definition spaces : regex := Star true (Class is_space).
Definition any : regex := Class (fun a => negb (Ascii.eqb a "010"%char)).
Definition plus (r : regex) : regex := Cat r (Star true r).

(** [\s*:\s*([^,\n]+)] *)
Definition plain_tail : regex :=
  Cat spaces (Cat (Lit ":"%char) (Cat spaces
    (Group1 (plus (Class (fun a => negb (in_chars [","%char; "010"%char] a))))))).

(** [\s*:\s*(".*?"|\d+(\.\d+)?|\[.*?\]|\{.*?\}|true|false|null)] *)
Definition quoted_tail : regex :=
  let between (o c : ascii) := Cat (Lit o) (Cat (Star false any) (Lit c)) in
  let digits := plus (Class is_digit) in
  Cat spaces (Cat (Lit ":"%char) (Cat spaces
    (Group1
       (Alt (between quote_char quote_char)
       (Alt (Cat digits (Opt (Cat (Lit "."%char) digits)))
       (Alt (between "["%char "]"%char)
       (Alt (between "{"%char "}"%char)
       (Alt (lits "tru" (Lit "e"%char))
       (Alt (lits "fals" (Lit "e"%char))
            (lits "nul" (Lit "l"%char))))))))))).

Definition plain_suffix : string := "\s*:\s*([^,\n]+)".

Definition quoted_suffix : string :=
  quote ++ "\s*:\s*(" ++ quote ++ ".*?" ++ quote
  ++ "|\d+(\.\d+)?|\[.*?\]|\{.*?\}|true|false|null)".

Definition strip_suffix (suffix s : string) : option string :=
  let n := String.length s - String.length suffix in
  if (String.length suffix <=? String.length s)%nat
     && String.eqb (substring n (String.length suffix) s) suffix
  then Some (substring 0 n s) else None.

(** [re.search(pattern, text, re.IGNORECASE).group(1)] for the patterns
    strategy 3 builds from a field name made of letters, digits and
    underscores. *)
Definition re_search_patterns (pattern text : string) : option string :=
  match strip_suffix quoted_suffix pattern with
  | Some (String q name) =>
      if Ascii.eqb q quote_char
      then search (Cat (Lit quote_char) (lits name (Cat (Lit quote_char) quoted_tail))) text
      else None
  | _ =>
      match strip_suffix plain_suffix pattern with
      | Some name => search (lits name plain_tail) text
      | None => None
      end
  end.

(** *** Models *)

Inductive kind : Type := KStr | KInt | KFloat | KList.

Definition kind_type (k : kind) : string :=
  match k with
  | KStr => "<class 'str'>"
  | KInt => "<class 'int'>"
  | KFloat => "<class 'float'>"
  | KList => "typing.List[str]"
  end.

(** The line pydantic prints for a field that is missing or holds a value
    of another type; [None] when the value is accepted. *)
Definition field_error (k : kind) (v : option pyval) : option string :=
  match v, k with
  | None, _ => Some "field required (type=value_error.missing)"
  | Some (PStr _), KStr => None
  | Some (PInt _), KInt => None
  | Some (PFloat _), KFloat => None
  | Some (PInt _), KFloat => None
  | Some (PList _), KList => None
  | Some _, KStr => Some "str type expected (type=type_error.str)"
  | Some _, KInt => Some "value is not a valid integer (type=type_error.integer)"
  | Some _, KFloat => Some "value is not a valid float (type=type_error.float)"
  | Some _, KList => Some "value is not a valid list (type=type_error.list)"
  end.

Definition ValidationError (msg : string) : exn := Exn "ValidationError" msg.

Definition validate (name : string) (fields : list (string * kind)) (data : dict)
  : outcome BaseModel :=
  let errors :=
    flat_map (fun '(f, k) =>
                match field_error k (dict_get data f) with
                | Some line => [f ++ newline ++ "  " ++ line]
                | None => []
                end) fields in
  match errors with
  | [] =>
      Ok {| bm_class := name;
            bm_dict := flat_map (fun '(f, _) =>
                         match dict_get data f with
                         | Some v => [(f, v)]
                         | None => []
                         end) fields |}
  | _ =>
      Raise (ValidationError
        (str_of_int (Z.of_nat (List.length errors))
         ++ (if (List.length errors =? 1)%nat then " validation error for "
             else " validation errors for ")
         ++ name ++ newline ++ join newline errors))
  end.

Definition model (name : string) (fields : list (string * kind)) : ModelType :=
  {| model_name := name;
     model_fields :=
       map (fun '(f, k) =>
              (f, {| field_type := kind_type k; field_description := None |})) fields;
     model_new := validate name fields |}.

Definition kind_of_type (t : string) : kind :=
  if String.eqb t (kind_type KInt) then KInt
  else if String.eqb t (kind_type KFloat) then KFloat
  else if String.eqb t (kind_type KList) then KList
  else KStr.

Definition runtime : Runtime :=
  {| json_loads := loads;
     json_dumps := dumps;
     re_search := re_search_patterns;
     py_int := int_of;
     py_float := float_of;
     str_strip := strip;
     str_lower := lower;
     str_title := title;
     create_model := fun name parameters =>
       model name (map (fun '(p, t) => (p, kind_of_type t)) parameters) |}.

End Demo.

(** ** Observations on a run *)

(** A request sent by the supervisor's own loop: its payload says
    [agent_type = "supervisor"].  The requests of the supervised agents
    say ["analyst"] or nothing. *)
Definition is_supervisor_request (rq : Request) : bool :=
  opt_eqb (pl_agent_type (rq_json rq)) "supervisor".

(** The number of round-trips of the supervisor's loop recorded in [w]. *)
Definition round_trips (w : World) : nat :=
  List.length (List.filter is_supervisor_request (sent w)).

(** The round-trips a computation adds when run from [w]. *)
Definition round_trips_of {A} (c : M A) (w : World) : nat :=
  round_trips (snd (c w)) - round_trips w.

(** [r] is the body of the response to the last request sent. *)
Definition last_response (w : World) (r : Response) : Prop :=
  backend w (sent w) = Ok r.

(** The world moved from [w] to [w'] with the same backend, with
    requests only added, and at most [n] more round-trips of the
    supervisor's loop. *)
Definition step_to (n : nat) (w w' : World) : Prop :=
  backend w' = backend w
  /\ (exists more, sent w' = (more ++ sent w)%list)
  /\ (round_trips w' <= round_trips w + n)%nat.

Definition bounded {A} (n : nat) (c : M A) : Prop :=
  forall w, step_to n w (snd (c w)).

(** A request carries the results of tool calls and of delegations. *)
Definition carries_both (rq : Request) : Prop :=
  pl_tool_results (rq_json rq) <> None /\ pl_delegation_results (rq_json rq) <> None.

(** The value inside an outcome that is known not to raise. *)
Definition value_of (o : outcome pyval) : pyval :=
  match o with Ok v => v | Raise _ => PNone end.

Definition error_value (msg : string) : pyval := PDict [("error", PStr msg)].

(** The [tool_results] list the supervisor builds for a tool-call list. *)
Definition tool_results_of `{rt : Runtime} (self : SupervisorObj)
    (tool_calls : list ToolCall) : list ToolResult :=
  map (fun tool_call =>
         {| tr_tool_call_id := tc_id tool_call;
            tr_result := value_of (Supervisor._execute_tool_call self tool_call) |})
      tool_calls.

(** The [for delegation in result["agent_delegations"]] loop of the
    supervisor, as it stands in [Supervisor.process_delegations]. *)
Definition run_delegations `{rt : Runtime} (self : SupervisorObj)
    (delegations : list Delegation) (acc : list DelegationResult)
  : M (list DelegationResult) :=
  for_each
    (fun acc delegation =>
       delegation_result <- Supervisor._execute_agent_delegation self delegation ;;
       ret (acc ++ [{| dr_delegation_id := dg_id delegation;
                       dr_result := delegation_result |}])%list)
    delegations acc.

(** The text a delegation to an agent nobody supervises comes back with. *)
Definition unknown_agent_text (agent_id : option Z) : string :=
  "Erro: Agente com ID " ++ fmt_opt_int agent_id ++ " não encontrado".

Definition unknown_agent_result (d : Delegation) : DelegationResult :=
  {| dr_delegation_id := dg_id d; dr_result := unknown_agent_text (dg_agent_id d) |}.

(** The list inside an outcome that is known not to raise. *)
Definition results_of (o : outcome (list DelegationResult)) : list DelegationResult :=
  match o with Ok l => l | Raise _ => [] end.

(** No supervised agent has the id the delegation names. *)
Definition unresolved (self : SupervisorObj) (d : Delegation) : Prop :=
  find (Supervisor.id_matches (dg_agent_id d)) (sv_supervised_agents self) = None.

Definition request (endpoint : string) (p : Payload) (headers : list (string * string))
  : Request :=
  {| rq_endpoint := endpoint; rq_json := p; rq_headers := headers |}.

(** What [run] makes of a response once the backend is done: the text
    parsed by [parse] when an output type was given, the raw result when
    none was given or when parsing failed and the type is not required. *)
Definition conclude (output_type : option ModelType) (require_output_type : bool)
    (parse : string -> ModelType -> outcome BaseModel) (response : Response)
  : outcome RunOutput :=
  let run_result := make_result response in
  match output_type with
  | None => Ok (Raw run_result)
  | Some m =>
      match parse (content run_result) m with
      | Ok instance => Ok (Structured instance)
      | Raise e =>
          if require_output_type
          then Raise (ValueError
                 ("Não foi possível converter o resultado para "
                  ++ model_name m ++ ": " ++ exn_str e))
          else Ok (Raw run_result)
      end
  end.

(** The object [Analyst("temp", "temp", output_type=...)] that
    [Supervisor.run] builds to borrow the parser. *)
Definition temp_analyst (output_type : ModelType) : AnalystObj :=
  {| an_name := "temp"; an_instructions := "temp";
     an_output_type := Some output_type;
     an_require_output_type := false;
     an_base_url := default_base_url;
     an_tools := [] |}.

(** The world after one more request. *)
Definition after_request (w : World) (rq : Request) : World :=
  {| ORION_API_KEY := ORION_API_KEY w;
     environ_ORION_API_KEY := environ_ORION_API_KEY w;
     REGISTERED_TOOLS := REGISTERED_TOOLS w;
     backend := backend w;
     sent := rq :: sent w |}.

(** ** Examples *)

Module Example.

Definition both_lists (n : nat) : Response :=
  {| r_content := Some (str_of_int (Z.of_nat n));
     r_tool_calls :=
       Some [{| tc_id := PStr "call-1"; tc_name := Some "lookup";
                tc_arguments := Some [] |}];
     r_agent_delegations :=
       Some [{| dg_id := PStr "dlg-1"; dg_agent_id := Some 7%Z;
                dg_input := Some "go" |}] |}.

Definition plain (text : string) : Response :=
  {| r_content := Some text; r_tool_calls := None; r_agent_delegations := None |}.

Definition world (answers : list Request -> outcome Response) : World :=
  {| ORION_API_KEY := Some "key";
     environ_ORION_API_KEY := None;
     REGISTERED_TOOLS := ∅;
     backend := answers;
     sent := [] |}.

(** A backend that always asks for a tool call and a delegation; the
    content of a response is the number of the request it answers. *)
Definition insatiable : World :=
  world (fun history => Ok (both_lists (List.length history))).

(** A backend that asks for a tool call and a delegation once, and then
    is done. *)
Definition once : World :=
  world (fun history =>
           match history with
           | [_] => Ok (both_lists 1)
           | _ => Ok (plain "done")
           end).

(** A backend that answers every request with the same text. *)
Definition says (text : string) : World := world (fun _ => Ok (plain text)).

Definition coordinator : SupervisorObj :=
  {| sv_name := "Coordenador"; sv_instructions := "Coordene.";
     sv_supervised_agents := []; sv_output_type := None;
     sv_require_output_type := false; sv_base_url := default_base_url;
     sv_tools := [] |}.

Definition get_price : Callable :=
  {| fn_name := "get_price";
     fn_doc := Some "Price of a ticker.";
     fn_parameters := ["ticker"];
     fn_type_hints := [("ticker", "<class 'str'>"); ("return", "<class 'float'>")];
     fn_call := fun _ => Raise (Exn "RuntimeError" "no quote") |}.

Definition get_price_tool : ToolEntry :=
  {| te_function := get_price;
     te_name := "get_price";
     te_description := "Price of a ticker.";
     te_parameters := Demo.model "get_price_params" [("ticker", Demo.KStr)];
     te_return_type := Some "<class 'float'>" |}.

Definition get_price_call : ToolCall :=
  {| tc_id := PStr "call-1"; tc_name := Some "get_price";
     tc_arguments := Some [("ticker", PStr "XYZ")] |}.

Definition Trend : ModelType := Demo.model "Trend" [("trend", Demo.KStr)].

Definition analyst (require_output_type : bool) : AnalystObj :=
  {| an_name := "Analista"; an_instructions := "Analise.";
     an_output_type := Some Trend;
     an_require_output_type := require_output_type;
     an_base_url := default_base_url;
     an_tools := [get_price_tool] |}.

Definition supervisor (require_output_type : bool) : SupervisorObj :=
  {| sv_name := "Coordenador"; sv_instructions := "Coordene.";
     sv_supervised_agents := []; sv_output_type := Some Trend;
     sv_require_output_type := require_output_type;
     sv_base_url := default_base_url;
     sv_tools := [get_price_tool] |}.

(** The loop state after a first response that asks for a tool call and
    a delegation. *)
Definition first_state : LoopState :=
  {| payload := Supervisor.initial_payload "p" [] [] None;
     result := both_lists 1;
     needs_more_processing := true;
     current_iteration := 0 |}.

(** [Here is the result: {"trend": "up"}] *)
Definition wrapped : string :=
  "Here is the result: {" ++ quote ++ "trend" ++ quote ++ ": "
  ++ quote ++ "up" ++ quote ++ "}".

(** The scenario of a market analysis: three fields, and the text
    [Here is the result: {"trend": "up", "confidence": 0.8,
    "actions": ["buy","hold"]}]. *)
Definition Market : ModelType :=
  Demo.model "Market"
    [("trend", Demo.KStr); ("confidence", Demo.KFloat); ("actions", Demo.KList)].

Definition market_text : string :=
  "Here is the result: {" ++ quote ++ "trend" ++ quote ++ ": " ++ quote ++ "up" ++ quote
  ++ ", " ++ quote ++ "confidence" ++ quote ++ ": 0.8, "
  ++ quote ++ "actions" ++ quote ++ ": [" ++ quote ++ "buy" ++ quote ++ ","
  ++ quote ++ "hold" ++ quote ++ "]}".

(** A tool whose return value [json.dumps] cannot serialize. *)
Definition snapshot_tool : ToolEntry :=
  {| te_function :=
       {| fn_name := "snapshot"; fn_doc := None; fn_parameters := [];
          fn_type_hints := []; fn_call := fun _ => Ok (PObject "object") |};
     te_name := "snapshot";
     te_description := EmptyString;
     te_parameters := Demo.model "snapshot_params" [];
     te_return_type := None |}.

(** [{"mood": "up"}] *)
Definition other_object : string :=
  "{" ++ quote ++ "mood" ++ quote ++ ": " ++ quote ++ "up" ++ quote ++ "}".

End Example.

(** ** More observations *)

(** A world in which no API key was ever set. *)
Definition keyless (answers : list Request -> outcome Response) : World :=
  {| ORION_API_KEY := None;
     environ_ORION_API_KEY := None;
     REGISTERED_TOOLS := ∅;
     backend := answers;
     sent := [] |}.

Definition redator : OperatorObj :=
  Operator.__init__ "Redator" "Escreva um texto simples.".

(** The payload of the first request of [Analyst._call_orion_api]. *)
Definition analyst_payload (prompt : string) (tools : list ToolInfo)
    (output_schema : option Schema) : Payload :=
  let payload :=
    {| pl_prompt := prompt; pl_max_tokens := 1500;
       pl_agent_type := Some "analyst"; pl_tools := Some tools;
       pl_supervised_agents := None; pl_output_schema := None;
       pl_tool_results := None; pl_delegation_results := None |} in
  match output_schema with
  | Some (f :: fs) => set_output_schema payload (f :: fs)
  | _ => payload
  end.

(** The request an analyst sends after running the tool call [tc]: the
    first payload with the result of that one call. *)
Definition analyst_followup `{rt : Runtime} (self : AnalystObj) (endpoint : string)
    (first_payload : Payload) (headers : list (string * string)) (tc : ToolCall)
  : Request :=
  request endpoint
    (set_tool_results first_payload
       [{| tr_tool_call_id := tc_id tc;
           tr_result := value_of (Analyst._execute_tool_call self tc) |}])
    headers.

(** The registry entry [t] with another function behind it. *)
Definition with_function (t : ToolEntry) (f : Callable) : ToolEntry :=
  {| te_function := f;
     te_name := te_name t;
     te_description := te_description t;
     te_parameters := te_parameters t;
     te_return_type := te_return_type t |}.

(** [tool_call.get("arguments", {})] *)
Definition arguments_of (tc : ToolCall) : dict :=
  match tc_arguments tc with Some a => a | None => [] end.

(** A tool that returns the JSON value it is given as [value]. *)
Definition echo_tool : ToolEntry :=
  {| te_function :=
       {| fn_name := "echo"; fn_doc := None; fn_parameters := ["value"];
          fn_type_hints := [];
          fn_call := fun kwargs =>
            match dict_get kwargs "value" with
            | Some v => Ok v
            | None => Raise (TypeError "echo() missing 1 required positional argument: 'value'")
            end |};
     te_name := "echo";
     te_description := EmptyString;
     te_parameters := Demo.model "echo_params" [("value", Demo.KStr)];
     te_return_type := None |}.

Definition echo_call (arguments : dict) : ToolCall :=
  {| tc_id := PStr "call-9"; tc_name := Some "echo"; tc_arguments := Some arguments |}.

(** [delegation.get("input", "")] *)
Definition input_of (d : Delegation) : string :=
  match dg_input d with Some text => text | None => EmptyString end.

(** The text a delegation comes back with when the agent's run, or the
    serialization of its result, raises [e]. *)
Definition failed_agent_text (agent : AgentRef) (e : exn) : string :=
  "Erro ao executar o agente " ++ agent_name agent ++ ": " ++ exn_str e.

(** A supervisor over the operator [redator], whose [id] is 4242. *)
Definition editor_in_chief : SupervisorObj :=
  Supervisor.add_supervised_agent Example.coordinator
    {| obj_id := 4242; obj := AnOperator redator |}.

Definition to_redator : Delegation :=
  {| dg_id := PStr "dlg-7"; dg_agent_id := Some 4242%Z; dg_input := None |}.

(** The first request of [Supervisor._call_orion_api]. *)
Definition supervisor_request (self : SupervisorObj) (prompt : string)
    (tools : list ToolInfo) (agents : list AgentInfo) (schema : option Schema)
    (key : string) : Request :=
  request (sv_base_url self ++ "/api/agents/run")
    (Supervisor.initial_payload prompt tools agents schema) (api_headers key).

(** The response holds a list the loop has to act on. *)
Definition asks_for_more (r : Response) : Prop :=
  r_tool_calls r <> None \/ r_agent_delegations r <> None.

(** A payload without the results it carries: what the loop never
    assigns to. *)
Definition envelope (p : Payload) : Payload :=
  {| pl_prompt := pl_prompt p; pl_max_tokens := pl_max_tokens p;
     pl_agent_type := pl_agent_type p; pl_tools := pl_tools p;
     pl_supervised_agents := pl_supervised_agents p;
     pl_output_schema := pl_output_schema p;
     pl_tool_results := None; pl_delegation_results := None |}.

(** [rq] goes where [rq0] went, with the same headers and, the results
    apart, the same payload. *)
Definition same_envelope (rq0 rq : Request) : Prop :=
  rq_endpoint rq = rq_endpoint rq0
  /\ rq_headers rq = rq_headers rq0
  /\ envelope (rq_json rq) = envelope (rq_json rq0).

(** Every request the computation sends satisfies [P]. *)
Definition sends_only {A} (P : Request -> Prop) (c : M A) : Prop :=
  forall w, exists more, sent (snd (c w)) = (more ++ sent w)%list /\ Forall P more.

(** A request of a supervised agent, or a request in the envelope of the
    supervisor's first one, sent to [endpoint] with [headers] and
    [payload0]. *)
Definition in_the_run (endpoint : string) (headers : list (string * string))
    (payload0 : Payload) (rq : Request) : Prop :=
  is_supervisor_request rq = false
  \/ same_envelope (request endpoint payload0 headers) rq.

(** The registry of [w'] holds all that the registry of [w] holds, and
    the rest of the world is the same. *)
Definition registry_grows (w w' : World) : Prop :=
  (forall k e, REGISTERED_TOOLS w !! k = Some e -> REGISTERED_TOOLS w' !! k = Some e)
  /\ backend w' = backend w
  /\ sent w' = sent w
  /\ ORION_API_KEY w' = ORION_API_KEY w
  /\ environ_ORION_API_KEY w' = environ_ORION_API_KEY w.

(** An exception of the transport: one the backend of [w] answers some
    request with. *)
Definition transport_error (w : World) (e : exn) : Prop :=
  exists history, backend w history = Raise e.


(** A class derived from [BaseModel] whose validation is user code:
    [sm_new data] is [model_type( **data )] run in the world, which a
    validator or a default factory may read and change.  A [ModelType]
    is the case of a validation that depends on the data alone. *)
Record StatefulModel : Type := {
  sm_name : string;
  sm_fields : list (string * ModelField);
  sm_new : dict -> M BaseModel
}.

(** A model whose validation depends on the data alone. *)
Definition stateless (m : ModelType) : StatefulModel :=
  {| sm_name := model_name m;
     sm_fields := model_fields m;
     sm_new := fun data => lift (model_new m data) |}.

(** [Analyst._parse_output_to_model] once more, for a model type whose
    validation runs in the world: the same three [try] blocks, with the
    world threaded through every [model_type( **data )]. *)
Module Stateful.
Section WithRuntime.
Context `{rt : Runtime}.

(** [model_type( **data )] for a value that came out of [json.loads]. *)
Definition model_call (model_type : StatefulModel) (data : pyval) : M BaseModel :=
  match data with
  | PDict entries => sm_new model_type entries
  | _ => raise (TypeError "argument after ** must be a mapping")
  end.

(** The first [try] block: the instance its [return] gives, [None] when
    an exception ends the block. *)
Definition strategy1 (output : string) (model_type : StatefulModel)
  : M (option BaseModel) :=
  try_except
    (data <- lift (json_loads output) ;;
     instance <- model_call model_type data ;;
     ret (Some instance))
    (fun _ => ret None).

(** The second [try] block: [None] also when the guard on the two
    indices fails. *)
Definition strategy2 (output : string) (model_type : StatefulModel)
  : M (option BaseModel) :=
  try_except
    (let start_idx := str_find "{"%char output in
     let end_idx := str_rfind "}"%char output in
     if (0 <=? start_idx)%Z && (start_idx <? end_idx)%Z then
       let json_str := str_slice output start_idx (end_idx + 1) in
       data <- lift (json_loads json_str) ;;
       instance <- model_call model_type data ;;
       ret (Some instance)
     else ret None)
    (fun _ => ret None).

(** The third [try] block, with its [except] clause. *)
Definition strategy3 (output : string) (model_type : StatefulModel) : M BaseModel :=
  try_except
    (let data :=
       fold_left (Analyst.scan_field output) (map fst (sm_fields model_type)) [] in
     sm_new model_type data)
    (fun e =>
       raise (ValueError
         ("Não foi possível extrair dados estruturados: " ++ exn_str e))).

(** The cascade: the instance returned, with the number of the strategy
    whose [return] statement gave it. *)
Definition cascade (output : string) (model_type : StatefulModel)
  : M (nat * BaseModel) :=
  first <- strategy1 output model_type ;;
  match first with
  | Some instance => ret (1%nat, instance)
  | None =>
      second <- strategy2 output model_type ;;
      match second with
      | Some instance => ret (2%nat, instance)
      | None =>
          instance <- strategy3 output model_type ;;
          ret (3%nat, instance)
      end
  end.

(** [Analyst._parse_output_to_model] *)
Definition _parse_output_to_model (self : AnalystObj) (output : string)
    (model_type : StatefulModel) : M BaseModel :=
  selected <- cascade output model_type ;;
  ret (snd selected).

End WithRuntime.
End Stateful.

(** Run from two worlds that [R] relates, the two computations have the
    same outcome and end in worlds that [R] relates. *)
Definition agree {A} (R : World -> World -> Prop) (c1 c2 : M A) : Prop :=
  forall w1 w2,
    R w1 w2 -> fst (c1 w1) = fst (c2 w2) /\ R (snd (c1 w1)) (snd (c2 w2)).

(** The strategy and the instance the pure cascade gives, as the
    stateful one reports them. *)
Definition selected_instance `{rt : Runtime} (self : AnalystObj) (output : string)
    (model_type : ModelType) : outcome (nat * BaseModel) :=
  match Analyst.selected_strategy output model_type,
        Analyst._parse_output_to_model self output model_type with
  | Some n, Ok instance => Ok (n, instance)
  | _, Raise e => Raise e
  | None, Ok instance => Ok (0%nat, instance)
  end.

(** [class Stamped(BaseModel): origin: str =
    Field(default_factory=lambda: os.environ.get("ORION_API_KEY", ""))]:
    a schema with a field that validation fills in from outside the
    data, as a default factory that reads the environment or a clock
    does. *)
Definition stamped : StatefulModel :=
  {| sm_name := "Stamped";
     sm_fields :=
       [("origin", {| field_type := "<class 'str'>"; field_description := None |})];
     sm_new := fun data w =>
       (Ok {| bm_class := "Stamped";
              bm_dict :=
                [("origin",
                  match dict_get data "origin" with
                  | Some v => v
                  | None => PStr (str_or (environ_ORION_API_KEY w) EmptyString)
                  end)] |},
        w) |}.

(** The value of [_ORION_API_KEY or os.environ.get("ORION_API_KEY")]; the
    empty text stands for a falsy value. *)
Definition configured_key (w : World) : string :=
  str_or (ORION_API_KEY w) (str_or (environ_ORION_API_KEY w) EmptyString).

(** The exception [get_orion_key] raises. *)
Definition key_missing : exn :=
  ValueError
    ("Chave da API Orion não configurada. Use set_default_orion_key() "
     ++ "antes de utilizar os agentes, ou defina a variável de ambiente ORION_API_KEY.").

(** The one request of [Operator.run]. *)
Definition operator_request (o : OperatorObj) (input_text key : string) : Request :=
  request (op_base_url o ++ "/api/agents/run")
    {| pl_prompt := full_prompt (op_name o) (op_instructions o) input_text;
       pl_max_tokens := 1000;
       pl_agent_type := None; pl_tools := None;
       pl_supervised_agents := None; pl_output_schema := None;
       pl_tool_results := None; pl_delegation_results := None |}
    (api_headers key).

(** ** Round-trip accounting *)

Lemma step_to_refl (w : World) : step_to 0 w w.
Proof. split; [reflexivity | split; [exists []; reflexivity | lia]]. Qed.

Lemma step_to_trans (n m : nat) (w w1 w2 : World) :
  step_to n w w1 -> step_to m w1 w2 -> step_to (n + m) w w2.
Proof.
  intros [Hb1 [[l1 Hs1] Hn]] [Hb2 [[l2 Hs2] Hm]].
  split; [congruence | split; [| lia]].
  exists (l2 ++ l1)%list. rewrite Hs2, Hs1. apply app_assoc.
Qed.

Lemma step_to_weaken (n m : nat) (w w' : World) :
  (n <= m)%nat -> step_to n w w' -> step_to m w w'.
Proof. intros Hle [Hb [Hs Hn]]. split; [exact Hb | split; [exact Hs | lia]]. Qed.

Lemma bounded_weaken {A} (n m : nat) (c : M A) :
  (n <= m)%nat -> bounded n c -> bounded m c.
Proof. intros Hle Hc w. eapply step_to_weaken; [exact Hle | apply Hc]. Qed.

Lemma bounded_ret {A} (a : A) : bounded 0 (ret a).
Proof. intros w. apply step_to_refl. Qed.

Lemma bounded_raise {A} (e : exn) : bounded 0 (@raise A e).
Proof. intros w. apply step_to_refl. Qed.

Lemma bounded_lift {A} (o : outcome A) : bounded 0 (lift o).
Proof. intros w. apply step_to_refl. Qed.

Lemma bounded_bind {A B} (n m : nat) (c : M A) (k : A -> M B) :
  bounded n c -> (forall a, bounded m (k a)) -> bounded (n + m) (bind c k).
Proof.
  intros Hc Hk w. unfold bind. specialize (Hc w).
  destruct (c w) as [[a | e] w1]; simpl in Hc.
  - eapply step_to_trans; [exact Hc | apply Hk].
  - simpl. eapply step_to_weaken; [| exact Hc]. lia.
Qed.

Lemma bounded_try_except {A} (n m : nat) (c : M A) (handler : exn -> M A) :
  bounded n c -> (forall e, bounded m (handler e)) ->
  bounded (n + m) (try_except c handler).
Proof.
  intros Hc Hh w. unfold try_except. specialize (Hc w).
  destruct (c w) as [[a | e] w1]; simpl in Hc.
  - simpl. eapply step_to_weaken; [| exact Hc]. lia.
  - eapply step_to_trans; [exact Hc | apply Hh].
Qed.

Lemma bounded_for_each {A B} (f : B -> A -> M B) (xs : list A) :
  (forall acc x, bounded 0 (f acc x)) -> forall acc, bounded 0 (for_each f xs acc).
Proof.
  intros Hf. induction xs as [| x xs IH]; intros acc; simpl.
  - apply bounded_ret.
  - change 0%nat with (0 + 0)%nat. apply bounded_bind; [apply Hf | exact IH].
Qed.

Lemma bounded_get_orion_key : bounded 0 get_orion_key.
Proof.
  intros w. unfold get_orion_key.
  destruct (str_or _ _); apply step_to_refl.
Qed.

(** A request of the supervisor's loop is one round-trip ... *)
Lemma bounded_post_json (endpoint : string) (p : Payload) (headers : list (string * string)) :
  bounded 1 (post_json endpoint p headers).
Proof.
  intros w. split; [reflexivity | split; [eexists [_]; reflexivity |]].
  unfold round_trips, post_json. cbn [snd sent List.filter].
  destruct (is_supervisor_request _); simpl; lia.
Qed.

(** ... and a request of another agent is none. *)
Lemma bounded_post_json_other (endpoint : string) (p : Payload)
    (headers : list (string * string)) :
  opt_eqb (pl_agent_type p) "supervisor" = false ->
  bounded 0 (post_json endpoint p headers).
Proof.
  intros Hp w. split; [reflexivity | split; [eexists [_]; reflexivity |]].
  unfold round_trips, post_json, is_supervisor_request.
  cbn [snd sent List.filter rq_json]. rewrite Hp. lia.
Qed.

Section Accounting.
Context `{rt : Runtime}.

Lemma bounded_operator_run (o : OperatorObj) (input_text : string) :
  bounded 0 (Operator.run o input_text).
Proof.
  unfold Operator.run, Operator._call_orion_api.
  change 0%nat with (0 + 0)%nat. apply bounded_bind; [| intros; apply bounded_ret].
  change 0%nat with (0 + 0)%nat. apply bounded_bind; [apply bounded_get_orion_key |].
  intros key. apply bounded_post_json_other. reflexivity.
Qed.

Lemma analyst_payload_type (p : Payload) (s : option Schema) :
  pl_agent_type p = Some "analyst" ->
  opt_eqb (pl_agent_type
             match s with
             | Some (f :: fs) => set_output_schema p (f :: fs)
             | _ => p
             end) "supervisor" = false.
Proof.
  intros Hp. destruct s as [[| f fs] |]; simpl; rewrite Hp; reflexivity.
Qed.

Lemma bounded_analyst_call (a : AnalystObj) (prompt : string)
    (tools : list ToolInfo) (schema : option Schema) :
  bounded 0 (Analyst._call_orion_api a prompt tools schema).
Proof.
  unfold Analyst._call_orion_api.
  change 0%nat with (0 + 0)%nat. apply bounded_bind; [apply bounded_get_orion_key |].
  intros key.
  change 0%nat with (0 + 0)%nat. apply bounded_bind.
  - apply bounded_post_json_other. apply analyst_payload_type. reflexivity.
  - intros r. destruct (r_tool_calls r) as [tcs |]; [| apply bounded_ret].
    apply bounded_for_each. intros acc tc.
    change 0%nat with (0 + 0)%nat. apply bounded_bind; [apply bounded_lift |].
    intros v. apply bounded_post_json_other.
    destruct schema as [[| f fs] |]; reflexivity.
Qed.

Lemma bounded_analyst_run (a : AnalystObj) (input_text : string) :
  bounded 0 (Analyst.run a input_text).
Proof.
  unfold Analyst.run.
  change 0%nat with (0 + 0)%nat. apply bounded_bind; [apply bounded_analyst_call |].
  intros response. destruct (an_output_type a) as [m |]; [| apply bounded_ret].
  change 0%nat with (0 + 0)%nat. apply bounded_try_except.
  - change 0%nat with (0 + 0)%nat. apply bounded_bind; [apply bounded_lift |].
    intros i. apply bounded_ret.
  - intros e. destruct (an_require_output_type a); [apply bounded_raise | apply bounded_ret].
Qed.

Lemma bounded_agent_run (agent : AgentRef) (input_text : string) :
  bounded 0 (Supervisor.agent_run agent input_text).
Proof.
  unfold Supervisor.agent_run. destruct (obj agent) as [o | a].
  - change 0%nat with (0 + 0)%nat. apply bounded_bind; [apply bounded_operator_run |].
    intros r. apply bounded_ret.
  - apply bounded_analyst_run.
Qed.

Lemma bounded_delegation (self : SupervisorObj) (d : Delegation) :
  bounded 0 (Supervisor._execute_agent_delegation self d).
Proof.
  unfold Supervisor._execute_agent_delegation.
  destruct (find _ _) as [agent |]; [| apply bounded_ret].
  change 0%nat with (0 + 0)%nat. apply bounded_try_except.
  - change 0%nat with (0 + 0)%nat. apply bounded_bind; [apply bounded_agent_run |].
    intros [r | i]; [apply bounded_ret | apply bounded_lift].
  - intros e. apply bounded_ret.
Qed.

(** A delegation never raises: a failure of the agent is caught and
    reported as text. *)
Lemma delegation_returns (self : SupervisorObj) (d : Delegation) (w : World) :
  exists text, fst (Supervisor._execute_agent_delegation self d w) = Ok text.
Proof.
  unfold Supervisor._execute_agent_delegation.
  destruct (find _ _) as [agent |]; [| eexists; reflexivity].
  unfold try_except. destruct (bind _ _ w) as [[text | e] w1]; eexists; reflexivity.
Qed.

End Accounting.

(** ** The supervisor's loop *)

Section Loop.
Context `{rt : Runtime}.
Variables (self : SupervisorObj) (endpoint : string) (headers : list (string * string)).

Lemma post_json_run (p : Payload) (w : World) :
  post_json endpoint p headers w
  = (backend w (request endpoint p headers :: sent w),
     after_request w (request endpoint p headers)).
Proof. reflexivity. Qed.

Lemma post_json_last (p : Payload) (w w' : World) (r : Response) :
  post_json endpoint p headers w = (Ok r, w') -> last_response w' r.
Proof.
  rewrite post_json_run. intros H. injection H as Hr Hw. subst w'.
  unfold last_response. simpl. exact Hr.
Qed.

(** Running a tool call never raises. *)
Lemma tool_call_returns (tools : list ToolEntry) (tc : ToolCall) :
  execute_tool_call_in tools tc = Ok (value_of (execute_tool_call_in tools tc)).
Proof.
  unfold execute_tool_call_in.
  destruct (find _ tools) as [t |]; [| reflexivity].
  destruct (obind _ _); reflexivity.
Qed.

Lemma collect_tool_results (tcs : list ToolCall) (acc : list ToolResult) (w : World) :
  for_each
    (fun acc tool_call =>
       tool_result <- lift (Supervisor._execute_tool_call self tool_call) ;;
       ret (acc ++ [{| tr_tool_call_id := tc_id tool_call;
                       tr_result := tool_result |}])%list)
    tcs acc w
  = (Ok (acc ++ tool_results_of self tcs)%list, w).
Proof.
  revert acc. induction tcs as [| tc tcs IH]; intros acc; simpl.
  - rewrite app_nil_r. reflexivity.
  - unfold bind at 1. unfold bind at 1. unfold lift, Supervisor._execute_tool_call.
    rewrite tool_call_returns. simpl. rewrite IH. rewrite <- app_assoc. reflexivity.
Qed.

(** The tool-call block sends all tool results in one request. *)
Lemma process_tool_calls_run (st : LoopState) (tcs : list ToolCall) (w : World) :
  r_tool_calls (result st) = Some tcs ->
  let p1 := set_tool_results (payload st) (tool_results_of self tcs) in
  Supervisor.process_tool_calls self endpoint headers st w
  = (match backend w (request endpoint p1 headers :: sent w) with
     | Ok r1 => Ok {| payload := p1; result := r1; needs_more_processing := true;
                      current_iteration := current_iteration st |}
     | Raise e => Raise e
     end,
     after_request w (request endpoint p1 headers)).
Proof.
  intros Htcs p1. unfold Supervisor.process_tool_calls. rewrite Htcs.
  unfold bind at 1. rewrite collect_tool_results. simpl app.
  unfold bind. rewrite post_json_run. fold p1.
  destruct (backend w _); reflexivity.
Qed.

Lemma run_delegations_returns (ds : list Delegation) (acc : list DelegationResult)
    (w : World) :
  exists drs, fst (run_delegations self ds acc w) = Ok drs.
Proof.
  revert acc w. induction ds as [| d ds IH]; intros acc w; simpl.
  - eexists; reflexivity.
  - unfold run_delegations. simpl. unfold bind at 1. unfold bind at 1.
    destruct (delegation_returns self d w) as [text Htext].
    destruct (Supervisor._execute_agent_delegation self d w) as [o w1].
    simpl in Htext. subst o. simpl. apply IH.
Qed.

Lemma bounded_run_delegations (ds : list Delegation) (acc : list DelegationResult) :
  bounded 0 (run_delegations self ds acc).
Proof.
  unfold run_delegations. apply bounded_for_each. intros acc' d.
  change 0%nat with (0 + 0)%nat. apply bounded_bind; [apply bounded_delegation |].
  intros text. apply bounded_ret.
Qed.

(** The delegation block runs the delegations, then sends their results
    in one request. *)
Lemma process_delegations_run (st : LoopState) (ds : list Delegation) (w : World) :
  r_agent_delegations (result st) = Some ds ->
  exists drs,
    fst (run_delegations self ds [] w) = Ok drs /\
    let w2 := snd (run_delegations self ds [] w) in
    let p2 := set_delegation_results (payload st) drs in
    Supervisor.process_delegations self endpoint headers st w
    = (match backend w2 (request endpoint p2 headers :: sent w2) with
       | Ok r2 => Ok {| payload := p2; result := r2; needs_more_processing := true;
                        current_iteration := current_iteration st |}
       | Raise e => Raise e
       end,
       after_request w2 (request endpoint p2 headers)).
Proof.
  intros Hds. destruct (run_delegations_returns ds [] w) as [drs Hdrs].
  exists drs. split; [exact Hdrs |].
  unfold Supervisor.process_delegations. rewrite Hds.
  fold (run_delegations self ds []).
  unfold bind at 1. destruct (run_delegations self ds [] w) as [o w2].
  simpl in Hdrs. subst o. simpl.
  unfold bind. rewrite post_json_run.
  destruct (backend w2 _); reflexivity.
Qed.

Lemma process_tool_calls_keeps (st st1 : LoopState) (w w1 : World) :
  Supervisor.process_tool_calls self endpoint headers st w = (Ok st1, w1) ->
  current_iteration st1 = current_iteration st
  /\ (last_response w (result st) -> last_response w1 (result st1)).
Proof.
  destruct (r_tool_calls (result st)) as [tcs |] eqn:Htcs.
  - rewrite (process_tool_calls_run st w Htcs).
    destruct (backend w _) as [r1 | e] eqn:Hr1; [| discriminate].
    intros H. injection H as Hst Hw. subst st1 w1. simpl.
    split; [reflexivity |]. intros _. unfold last_response. simpl. exact Hr1.
  - unfold Supervisor.process_tool_calls. rewrite Htcs.
    intros H. injection H as Hst Hw. subst st1 w1. tauto.
Qed.

Lemma process_delegations_keeps (st st1 : LoopState) (w w1 : World) :
  Supervisor.process_delegations self endpoint headers st w = (Ok st1, w1) ->
  current_iteration st1 = current_iteration st
  /\ (last_response w (result st) -> last_response w1 (result st1)).
Proof.
  destruct (r_agent_delegations (result st)) as [ds |] eqn:Hds.
  - destruct (process_delegations_run st w Hds) as [drs [_ Hrun]].
    cbv zeta in Hrun. rewrite Hrun.
    destruct (backend _ _) as [r2 | e] eqn:Hr2; [| discriminate].
    intros H. injection H as Hst Hw. subst st1 w1. simpl.
    split; [reflexivity |]. intros _. unfold last_response. simpl. exact Hr2.
  - unfold Supervisor.process_delegations. rewrite Hds.
    intros H. injection H as Hst Hw. subst st1 w1. tauto.
Qed.

Lemma bounded_process_tool_calls (st : LoopState) :
  bounded 1 (Supervisor.process_tool_calls self endpoint headers st).
Proof.
  intros w. destruct (r_tool_calls (result st)) as [tcs |] eqn:Htcs.
  - rewrite (process_tool_calls_run st w Htcs).
    exact (bounded_post_json endpoint
             (set_tool_results (payload st) (tool_results_of self tcs)) headers w).
  - unfold Supervisor.process_tool_calls. rewrite Htcs.
    eapply step_to_weaken; [| apply step_to_refl]. lia.
Qed.

Lemma bounded_process_delegations (st : LoopState) :
  bounded 1 (Supervisor.process_delegations self endpoint headers st).
Proof.
  unfold Supervisor.process_delegations.
  destruct (r_agent_delegations (result st)) as [ds |].
  - change 1%nat with (0 + (1 + 0))%nat. apply bounded_bind.
    + apply (bounded_run_delegations ds []).
    + intros drs. apply bounded_bind; [apply bounded_post_json |].
      intros r. apply bounded_ret.
  - eapply bounded_weaken; [| apply bounded_ret]. lia.
Qed.

Lemma bounded_loop_body (st : LoopState) :
  bounded 2 (Supervisor.loop_body self endpoint headers st).
Proof.
  unfold Supervisor.loop_body. change 2%nat with (1 + 1)%nat.
  apply bounded_bind; [apply bounded_process_tool_calls |].
  intros st1. apply bounded_process_delegations.
Qed.

(** A pass adds one to [current_iteration] and keeps [result] the body of
    the last response. *)
Lemma loop_body_keeps (st st' : LoopState) (w w' : World) :
  Supervisor.loop_body self endpoint headers st w = (Ok st', w') ->
  current_iteration st' = S (current_iteration st)
  /\ (last_response w (result st) -> last_response w' (result st')).
Proof.
  unfold Supervisor.loop_body, bind.
  destruct (Supervisor.process_tool_calls _ _ _ _ w) as [[st1 | e] w1] eqn:H1;
    [| discriminate].
  intros H2.
  apply process_tool_calls_keeps in H1. apply process_delegations_keeps in H2.
  simpl in H1. destruct H1 as [Hi1 Hl1], H2 as [Hi2 Hl2].
  split; [congruence | auto].
Qed.

(** The loop test fails once [max_iterations] passes are done. *)
Lemma while_loop_at_cap (fuel : nat) (st : LoopState) (w : World) :
  (Supervisor.max_iterations <= current_iteration st)%nat ->
  Supervisor.while_loop fuel self endpoint headers st w = (Ok st, w).
Proof.
  intros Hcap.
  assert (Htest : (current_iteration st <? Supervisor.max_iterations)%nat = false)
    by (apply Nat.ltb_ge; exact Hcap).
  destruct fuel; simpl; rewrite Htest, andb_false_r; reflexivity.
Qed.

(** The fuel of [while_loop] is never what stops it: any two amounts
    that cover the passes left give the same run. *)
Lemma while_loop_fuel (fuel1 fuel2 : nat) (st : LoopState) (w : World) :
  (Supervisor.max_iterations - current_iteration st <= fuel1)%nat ->
  (Supervisor.max_iterations - current_iteration st <= fuel2)%nat ->
  Supervisor.while_loop fuel1 self endpoint headers st w
  = Supervisor.while_loop fuel2 self endpoint headers st w.
Proof.
  revert fuel2 st w. induction fuel1 as [| fuel1 IH]; intros fuel2 st w H1 H2.
  - rewrite !while_loop_at_cap by lia. reflexivity.
  - destruct fuel2 as [| fuel2].
    + rewrite !while_loop_at_cap by lia. reflexivity.
    + simpl. destruct (needs_more_processing st && _); [| reflexivity].
      unfold bind.
      destruct (Supervisor.loop_body self endpoint headers st w) as [[st' | e] w'] eqn:Hb;
        [| reflexivity].
      apply loop_body_keeps in Hb. destruct Hb as [Hi _].
      apply IH; lia.
Qed.

Lemma while_loop_bounded (fuel : nat) (st : LoopState) :
  bounded (2 * (Supervisor.max_iterations - current_iteration st))
          (Supervisor.while_loop fuel self endpoint headers st).
Proof.
  revert st. induction fuel as [| fuel IH]; intros st w; simpl.
  - destruct (_ && _); (eapply step_to_weaken; [| apply step_to_refl]); lia.
  - destruct (needs_more_processing st) ; simpl;
      [| eapply step_to_weaken; [| apply step_to_refl]; lia].
    destruct (current_iteration st <? Supervisor.max_iterations)%nat eqn:Hlt;
      [| eapply step_to_weaken; [| apply step_to_refl]; lia].
    apply Nat.ltb_lt in Hlt. unfold bind.
    pose proof (bounded_loop_body st w) as Hbody.
    destruct (Supervisor.loop_body self endpoint headers st w) as [[st' | e] w'] eqn:Hb;
      simpl in Hbody.
    + apply loop_body_keeps in Hb. destruct Hb as [Hi _].
      eapply step_to_weaken; [| eapply step_to_trans; [exact Hbody | apply IH]].
      rewrite Hi. lia.
    + simpl. eapply step_to_weaken; [| exact Hbody]. lia.
Qed.

Lemma while_loop_keeps (fuel : nat) (st st' : LoopState) (w w' : World) :
  Supervisor.while_loop fuel self endpoint headers st w = (Ok st', w') ->
  ((current_iteration st <= Supervisor.max_iterations)%nat ->
   (current_iteration st' <= Supervisor.max_iterations)%nat)
  /\ (last_response w (result st) -> last_response w' (result st')).
Proof.
  revert st w. induction fuel as [| fuel IH]; intros st w; simpl.
  - destruct (_ && _); intros H; injection H as Hst Hw; subst; tauto.
  - destruct (needs_more_processing st); simpl;
      [| intros H; injection H as Hst Hw; subst; tauto].
    destruct (current_iteration st <? Supervisor.max_iterations)%nat eqn:Hlt;
      [| intros H; injection H as Hst Hw; subst; tauto].
    apply Nat.ltb_lt in Hlt. unfold bind.
    destruct (Supervisor.loop_body self endpoint headers st w) as [[st1 | e] w1] eqn:Hb;
      [| discriminate].
    intros Hrest. apply loop_body_keeps in Hb. destruct Hb as [Hi Hl].
    apply IH in Hrest. destruct Hrest as [Hi' Hl'].
    split; [intros _; apply Hi'; lia | auto].
Qed.

End Loop.

(** ** What the supervisor's call can raise *)

Lemma get_orion_key_cases (w : World) :
  (configured_key w = EmptyString /\ get_orion_key w = (Raise key_missing, w))
  \/ (configured_key w <> EmptyString /\ get_orion_key w = (Ok (configured_key w), w)).
Proof.
  unfold get_orion_key. fold (configured_key w).
  destruct (configured_key w) as [| c k]; [left | right]; split;
    try reflexivity; discriminate.
Qed.

Lemma transport_error_step (n : nat) (w w' : World) (e : exn) :
  step_to n w w' -> transport_error w' e -> transport_error w e.
Proof. intros [Hb _] [history H]. exists history. rewrite <- Hb. exact H. Qed.

Section Failures.
Context `{rt : Runtime}.
Variables (self : SupervisorObj) (endpoint : string) (headers : list (string * string)).

Lemma post_json_raises (p : Payload) (w : World) (e : exn) :
  fst (post_json endpoint p headers w) = Raise e -> transport_error w e.
Proof. rewrite post_json_run. cbn [fst]. intros H. eexists. exact H. Qed.

(** The tool block raises only what its request raises: a failure of a
    tool is a value. *)
Lemma process_tool_calls_raises (st : LoopState) (w : World) (e : exn) :
  fst (Supervisor.process_tool_calls self endpoint headers st w) = Raise e ->
  transport_error w e.
Proof.
  destruct (r_tool_calls (result st)) as [tcs |] eqn:Htcs.
  - rewrite (process_tool_calls_run self endpoint headers st w Htcs). cbn [fst].
    destruct (backend w _) as [r1 | e1] eqn:Hb; [discriminate |].
    intros H. injection H as H. subst e1. eexists. exact Hb.
  - unfold Supervisor.process_tool_calls. rewrite Htcs. discriminate.
Qed.

(** The delegation block raises only what its request raises: a failure
    of an agent is a text. *)
Lemma process_delegations_raises (st : LoopState) (w : World) (e : exn) :
  fst (Supervisor.process_delegations self endpoint headers st w) = Raise e ->
  transport_error w e.
Proof.
  destruct (r_agent_delegations (result st)) as [ds |] eqn:Hds.
  - destruct (process_delegations_run self endpoint headers st w Hds)
      as [drs [_ Hrun]].
    cbv zeta in Hrun. rewrite Hrun. cbn [fst].
    destruct (backend _ _) as [r2 | e2] eqn:Hb; [discriminate |].
    intros H. injection H as H. subst e2.
    apply (transport_error_step (bounded_run_delegations self ds [] w)).
    eexists. exact Hb.
  - unfold Supervisor.process_delegations. rewrite Hds. discriminate.
Qed.

Lemma loop_body_raises (st : LoopState) (w : World) (e : exn) :
  fst (Supervisor.loop_body self endpoint headers st w) = Raise e ->
  transport_error w e.
Proof.
  unfold Supervisor.loop_body, bind.
  pose proof (bounded_process_tool_calls self endpoint headers
                {| payload := payload st; result := result st;
                   needs_more_processing := false;
                   current_iteration := S (current_iteration st) |} w) as Hstep.
  pose proof (@process_tool_calls_raises
                {| payload := payload st; result := result st;
                   needs_more_processing := false;
                   current_iteration := S (current_iteration st) |} w) as Hraise.
  destruct (Supervisor.process_tool_calls self endpoint headers _ w)
    as [[st1 | e1] w1]; cbn [fst snd] in *.
  - intros H. apply (transport_error_step Hstep).
    apply (process_delegations_raises st1 w1 H).
  - intros H. injection H as H. subst e1. apply Hraise. reflexivity.
Qed.

(** The loop raises only what one of its requests raises; its end, at
    the cap or before, is a return. *)
Lemma while_loop_raises (fuel : nat) (st : LoopState) (w : World) (e : exn) :
  fst (Supervisor.while_loop fuel self endpoint headers st w) = Raise e ->
  transport_error w e.
Proof.
  revert st w. induction fuel as [| fuel IH]; intros st w; cbn [Supervisor.while_loop];
    destruct (needs_more_processing st
              && (current_iteration st <? Supervisor.max_iterations)%nat);
    try discriminate.
  unfold bind.
  pose proof (bounded_loop_body self endpoint headers st w) as Hstep.
  pose proof (@loop_body_raises st w) as Hraise.
  destruct (Supervisor.loop_body self endpoint headers st w)
    as [[st' | e'] w']; cbn [fst snd] in *.
  - intros H. apply (transport_error_step Hstep). apply (IH st' w' H).
  - intros H. injection H as H. subst e'. apply Hraise. reflexivity.
Qed.

Lemma orchestrate_raises (payload0 : Payload) (w : World) (e : exn) :
  fst (Supervisor.orchestrate self endpoint headers payload0 w) = Raise e ->
  transport_error w e.
Proof.
  unfold Supervisor.orchestrate, bind.
  pose proof (bounded_post_json endpoint payload0 headers w) as Hstep.
  pose proof (@post_json_raises payload0 w) as Hraise.
  destruct (post_json endpoint payload0 headers w) as [[r0 | e0] w1];
    cbn [fst snd] in *.
  - intros H. apply (transport_error_step Hstep).
    apply (while_loop_raises _ _ _ H).
  - intros H. injection H as H. subst e0. apply Hraise. reflexivity.
Qed.

End Failures.

(** ** The claims about the orchestration loop *)

(** With a backend that keeps asking for a tool call and a delegation, the
    loop makes ten passes of two requests each after the first request,
    and hands back the body of the twenty-first response. *)
Example insatiable_run :
  let run := Supervisor._call_orion_api (rt := Demo.runtime)
               Example.coordinator "p" [] [] None Example.insatiable in
  fst run = Ok (Example.both_lists 21) /\ round_trips (snd run) = 21%nat.
Proof. vm_compute. split; reflexivity. Qed.

(** The market scenario goes through strategy 2. *)
Example market_scenario :
  Analyst._parse_output_to_model (rt := Demo.runtime)
    (Example.analyst false) Example.market_text Example.Market
  = Ok {| bm_class := "Market";
          bm_dict := [("trend", PStr "up"); ("confidence", PFloat "0.8");
                      ("actions", PList [PStr "buy"; PStr "hold"])] |}
  /\ Analyst.selected_strategy (rt := Demo.runtime)
       Example.market_text Example.Market = Some 2.
Proof. vm_compute. split; reflexivity. Qed.

(** Without any JSON in the text, strategy 3 picks the fields up. *)
Example key_value_scenario :
  Analyst._parse_output_to_model (rt := Demo.runtime)
    (Example.analyst false) "Trend: rising, confidence: 3" Example.Market
  = Raise (ValueError
      ("Não foi possível extrair dados estruturados: "
       ++ "1 validation error for Market" ++ newline ++ "actions" ++ newline
       ++ "  field required (type=value_error.missing)"))
  /\ Analyst._parse_output_to_model (rt := Demo.runtime)
       (Example.analyst false) "Trend: rising, the rest is unknown" Example.Trend
     = Ok {| bm_class := "Trend"; bm_dict := [("trend", PStr "rising")] |}.
Proof. vm_compute. split; reflexivity. Qed.

(** A return value that cannot be serialized comes back as an error
    value as well. *)
Example unserializable_result :
  Supervisor._execute_tool_call (rt := Demo.runtime)
    {| sv_name := "s"; sv_instructions := "i"; sv_supervised_agents := [];
       sv_output_type := None; sv_require_output_type := false;
       sv_base_url := default_base_url; sv_tools := [Example.snapshot_tool] |}
    {| tc_id := PInt 1; tc_name := Some "snapshot"; tc_arguments := None |}
  = Ok (error_value
      "Erro ao executar ferramenta 'snapshot': Object of type object is not JSON serializable").
Proof. vm_compute. reflexivity. Qed.

(** C1, as stated, fails: a run of [Supervisor._call_orion_api] against a
    backend that always returns tool calls and delegations performs 21
    round-trips, not at most 10. *)
Lemma call_orion_api_exceeds_ten_round_trips :
  ~ (round_trips_of
       (Supervisor._call_orion_api (rt := Demo.runtime)
          Example.coordinator "p" [] [] None)
       Example.insatiable <= 10)%nat.
Proof.
  assert (H : round_trips_of
                (Supervisor._call_orion_api (rt := Demo.runtime)
                   Example.coordinator "p" [] [] None)
                Example.insatiable = 21%nat)
    by (vm_compute; reflexivity).
  rewrite H. lia.
Qed.

(** C1, amended: for every backend, one run of
    [Supervisor._call_orion_api] makes at most 10 passes through its loop
    and at most 21 round-trips (the first request, then at most two per
    pass); once 10 passes are done the loop stops; however the loop ends,
    at the cap or before, the call returns the response the loop ended
    with, which is the body of the last response received, unchanged.
    The call raises only when no key is configured or when a request
    itself fails: against a backend that answers every request it
    returns, whatever the answers. *)
Theorem call_orion_api_round_trips `{rt : Runtime} (self : SupervisorObj)
    (prompt : string) (tools : list ToolInfo) (agents : list AgentInfo)
    (schema : option Schema) (w : World) :
  let run := Supervisor._call_orion_api self prompt tools agents schema w in
  (round_trips_of (Supervisor._call_orion_api self prompt tools agents schema) w
   <= 1 + 2 * Supervisor.max_iterations)%nat
  /\ (forall r, fst run = Ok r -> last_response (snd run) r)
  /\ (forall endpoint headers payload0 final w',
        Supervisor.orchestrate self endpoint headers payload0 w = (Ok final, w') ->
        (current_iteration final <= Supervisor.max_iterations)%nat)
  /\ (forall fuel endpoint headers st,
        (Supervisor.max_iterations <= current_iteration st)%nat ->
        Supervisor.while_loop fuel self endpoint headers st w = (Ok st, w))
  /\ (configured_key w <> EmptyString ->
      forall final w',
        Supervisor.orchestrate self (sv_base_url self ++ "/api/agents/run")
          (api_headers (configured_key w))
          (Supervisor.initial_payload prompt tools agents schema) w
        = (Ok final, w') ->
        run = (Ok (result final), w') /\ last_response w' (result final))
  /\ (forall e, fst run = Raise e ->
        (configured_key w = EmptyString /\ e = key_missing)
        \/ transport_error w e)
  /\ (configured_key w <> EmptyString ->
      (forall history, exists r, backend w history = Ok r) ->
      exists r, fst run = Ok r /\ last_response (snd run) r).
Proof.
  cbv zeta.
  assert (Hlast : forall r,
            fst (Supervisor._call_orion_api self prompt tools agents schema w) = Ok r ->
            last_response
              (snd (Supervisor._call_orion_api self prompt tools agents schema w)) r).
  { intros r. unfold Supervisor._call_orion_api, bind.
    destruct (get_orion_key w) as [[key | e] w0]; [| discriminate].
    unfold Supervisor.orchestrate, bind.
    destruct (post_json _ _ _ w0) as [[r0 | e] w1] eqn:Hpost; [| discriminate].
    destruct (Supervisor.while_loop _ _ _ _ _ w1) as [[final | e] w2] eqn:Hloop;
      [| discriminate].
    simpl. intros Hr. injection Hr as Hr. subst r.
    apply post_json_last in Hpost. apply while_loop_keeps in Hloop.
    destruct Hloop as [_ Hl]. apply Hl. exact Hpost. }
  assert (Hraise : forall e,
            fst (Supervisor._call_orion_api self prompt tools agents schema w) = Raise e ->
            (configured_key w = EmptyString /\ e = key_missing)
            \/ transport_error w e).
  { intros e. unfold Supervisor._call_orion_api, bind.
    destruct (get_orion_key_cases w) as [[Hkey Hget] | [Hkey Hget]]; rewrite Hget.
    - cbn [fst]. intros H. injection H as H. left. split; [exact Hkey | congruence].
    - pose proof (@orchestrate_raises rt self (sv_base_url self ++ "/api/agents/run")
                    (api_headers (configured_key w))
                    (Supervisor.initial_payload prompt tools agents schema) w) as Ho.
      destruct (Supervisor.orchestrate self _ _ _ w) as [[final | e0] w1];
        cbn [fst] in *; [discriminate |].
      intros H. injection H as H. subst e0. right. apply Ho. reflexivity. }
  split; [| split; [exact Hlast | split; [| split; [| split; [| split; [exact Hraise |]]]]]].
  - assert (Hb : bounded (0 + ((1 + 2 * (Supervisor.max_iterations - 0)) + 0))
                   (Supervisor._call_orion_api self prompt tools agents schema)).
    { unfold Supervisor._call_orion_api.
      apply bounded_bind; [apply bounded_get_orion_key |]. intros key.
      apply bounded_bind; [| intros; apply bounded_ret].
      unfold Supervisor.orchestrate.
      apply bounded_bind; [apply bounded_post_json |]. intros r0.
      apply (while_loop_bounded self _ _ Supervisor.max_iterations
               {| payload := _; result := r0; needs_more_processing := true;
                  current_iteration := 0 |}). }
    destruct (Hb w) as [_ [_ Hn]]. unfold round_trips_of.
    rewrite Nat.sub_0_r in Hn. simpl in Hn |- *. lia.
  - intros endpoint headers payload0 final w'.
    unfold Supervisor.orchestrate, bind.
    destruct (post_json _ _ _ w) as [[r0 | e] w1]; [| discriminate].
    intros Hloop. apply while_loop_keeps in Hloop.
    destruct Hloop as [Hi _]. apply Hi. simpl. lia.
  - intros fuel endpoint headers st Hcap. apply while_loop_at_cap. exact Hcap.
  - intros Hkey final w' Horch.
    assert (Hrun : Supervisor._call_orion_api self prompt tools agents schema w
                   = (Ok (result final), w')).
    { unfold Supervisor._call_orion_api, bind.
      destruct (get_orion_key_cases w) as [[Hno _] | [_ Hget]]; [contradiction |].
      rewrite Hget, Horch. reflexivity. }
    split; [exact Hrun |].
    specialize (Hlast (result final)). rewrite Hrun in Hlast. apply Hlast. reflexivity.
  - intros Hkey Hanswers.
    destruct (fst (Supervisor._call_orion_api self prompt tools agents schema w))
      as [r | e] eqn:Hrun.
    + exists r. split; [reflexivity | apply Hlast; reflexivity].
    + exfalso. destruct (Hraise e eq_refl) as [[Hno _] | [history Hfail]];
        [contradiction |].
      destruct (Hanswers history) as [r Hr]. congruence.
Qed.

(** C2, as stated, fails: the first response holds a tool-call list and
    a delegation list, yet the request that follows it carries the tool
    results alone, and no further request is sent. *)
Lemma resend_after_both_lists_lacks_delegation_results :
  exists rq0 rq1 r,
    rev (sent (snd (Supervisor._call_orion_api (rt := Demo.runtime)
                      Example.coordinator "p" [] [] None Example.once)))
    = [rq0; rq1]
    /\ backend Example.once [rq0] = Ok r
    /\ r_tool_calls r <> None
    /\ r_agent_delegations r <> None
    /\ ~ carries_both rq1.
Proof.
  eexists _, _, _. split; [vm_compute; reflexivity |].
  split; [reflexivity |].
  split; [discriminate |]. split; [discriminate |].
  intros [_ H]. apply H. reflexivity.
Qed.

(** C2, amended: when the response at hand holds a tool-call list, the
    pass runs every tool call and sends the tool results at once, in a
    request of their own; if the response to that request holds a
    delegation list, those delegations are run in the same pass and their
    results are sent in a second request, whose payload still carries the
    tool results. *)
Theorem tool_results_then_delegation_results `{rt : Runtime} (self : SupervisorObj)
    (endpoint : string) (headers : list (string * string)) (st : LoopState)
    (w : World) (tcs : list ToolCall) (r1 : Response) (ds : list Delegation) :
  r_tool_calls (result st) = Some tcs ->
  let p1 := set_tool_results (payload st) (tool_results_of self tcs) in
  let w1 := after_request w (request endpoint p1 headers) in
  backend w (sent w1) = Ok r1 ->
  r_agent_delegations r1 = Some ds ->
  exists drs,
    fst (run_delegations self ds [] w1) = Ok drs /\
    let w2 := snd (run_delegations self ds [] w1) in
    let p2 := set_delegation_results p1 drs in
    snd (Supervisor.loop_body self endpoint headers st w)
    = after_request w2 (request endpoint p2 headers)
    /\ In (request endpoint p1 headers) (sent w2)
    /\ pl_delegation_results p1 = pl_delegation_results (payload st)
    /\ pl_tool_results p2 = Some (tool_results_of self tcs)
    /\ pl_delegation_results p2 = Some drs.
Proof.
  intros Htcs p1 w1 Hr1 Hds.
  set (st0 := {| payload := payload st; result := result st;
                 needs_more_processing := false;
                 current_iteration := S (current_iteration st) |}).
  set (st1 := {| payload := p1; result := r1; needs_more_processing := true;
                 current_iteration := current_iteration st0 |}).
  assert (Hds1 : r_agent_delegations (result st1) = Some ds) by exact Hds.
  destruct (process_delegations_run self endpoint headers st1 w1 Hds1)
    as [drs [Hdrs Hrun]].
  exists drs. split; [exact Hdrs |]. cbv zeta in Hrun |- *.
  split; [| split; [| repeat split]].
  - unfold Supervisor.loop_body. fold st0. unfold bind.
    rewrite (process_tool_calls_run self endpoint headers st0 w Htcs).
    change (payload st0) with (payload st). fold p1.
    change (after_request w (request endpoint p1 headers)) with w1.
    change (request endpoint p1 headers :: sent w) with (sent w1).
    rewrite Hr1. fold st1. rewrite Hrun. reflexivity.
  - destruct (bounded_run_delegations self ds [] w1) as [_ [[more Hmore] _]].
    rewrite Hmore. apply in_or_app. right. left. reflexivity.
Qed.

(** ** What [run] does with the final response *)

Section Run.
Context `{rt : Runtime}.

Lemma analyst_run_concludes (self : AnalystObj) (input_text : string) (w : World) :
  Analyst.run self input_text w
  = let call :=
      Analyst._call_orion_api self
        (full_prompt (an_name self) (an_instructions self) input_text)
        (tools_info_of (an_tools self))
        (option_map fields_schema (an_output_type self)) w in
    (obind (fst call)
       (conclude (an_output_type self) (an_require_output_type self)
          (Analyst._parse_output_to_model self)),
     snd call).
Proof.
  unfold Analyst.run, bind. cbv zeta.
  destruct (Analyst._call_orion_api _ _ _ _ w) as [[response | e] w']; [| reflexivity].
  simpl. unfold conclude.
  destruct (an_output_type self) as [m |]; [| reflexivity].
  unfold try_except, bind, lift.
  destruct (Analyst._parse_output_to_model self _ m) as [i | e]; [reflexivity |].
  destruct (an_require_output_type self); reflexivity.
Qed.

(** Building the temporary analyst succeeds and touches nothing. *)
Lemma temp_analyst_init (output_type : ModelType) (w : World) :
  Analyst.__init__ "temp" "temp" (Some output_type) [] false w
  = (Ok (temp_analyst output_type), w).
Proof. reflexivity. Qed.

Lemma parse_with_analyst_run (output_type : ModelType) (text : string) (w : World) :
  Supervisor.parse_with_analyst output_type text w
  = (Analyst._parse_output_to_model (temp_analyst output_type) text output_type, w).
Proof. reflexivity. Qed.

Lemma supervisor_run_concludes (self : SupervisorObj) (input_text : string) (w : World) :
  Supervisor.run self input_text w
  = let call :=
      Supervisor._call_orion_api self
        (full_prompt (sv_name self) (sv_instructions self) input_text)
        (tools_info_of (sv_tools self))
        (map Supervisor.agent_info (sv_supervised_agents self))
        (option_map fields_schema (sv_output_type self)) w in
    (obind (fst call)
       (conclude (sv_output_type self) (sv_require_output_type self)
          (fun text m => Analyst._parse_output_to_model (temp_analyst m) text m)),
     snd call).
Proof.
  unfold Supervisor.run, bind. cbv zeta.
  destruct (Supervisor._call_orion_api _ _ _ _ _ w) as [[response | e] w']; [| reflexivity].
  cbn [fst snd obind]. unfold conclude.
  destruct (sv_output_type self) as [m |]; [| reflexivity].
  unfold try_except, bind. rewrite parse_with_analyst_run.
  destruct (Analyst._parse_output_to_model _ _ m) as [i | e]; [reflexivity |].
  destruct (sv_require_output_type self); reflexivity.
Qed.

End Run.

(** ** The claims about tool execution and delegation *)

Lemma occurs_in_middle (a t b : string) : occurs_in t (a ++ t ++ b).
Proof. exists a, b. reflexivity. Qed.

Lemma string_app_assoc (a b c : string) : (a ++ b) ++ c = a ++ b ++ c.
Proof.
  induction a as [| x a IH]; [reflexivity |].
  change (String x ((a ++ b) ++ c) = String x (a ++ b ++ c)).
  rewrite IH. reflexivity.
Qed.

Lemma string_app_nil_r (a : string) : a ++ EmptyString = a.
Proof.
  induction a as [| x a IH]; [reflexivity |].
  change (String x (a ++ EmptyString) = String x a).
  rewrite IH. reflexivity.
Qed.

(** C3, as stated, fails: the error value of a tool that raises is not
    [{error: "<tool name>: <message>"}]. *)
Lemma tool_error_text_is_not_name_colon_message :
  Analyst._execute_tool_call (rt := Demo.runtime)
    (Example.analyst false) Example.get_price_call
  <> Ok (error_value "get_price: no quote").
Proof. vm_compute. discriminate. Qed.

(** C3, amended: when the callable of the tool a call resolves to raises,
    or its return value fails JSON serialization, tool execution, in the
    Analyst and in the Supervisor, returns the value
    [{"error": "Erro ao executar ferramenta '<tool name>': <message>"}],
    which contains the tool name and the message of the exception, and
    raises nothing. *)
Theorem tool_failure_is_data `{rt : Runtime} (tools : list ToolEntry) (tc : ToolCall)
    (name : string) (t : ToolEntry) (args : BaseModel) (e : exn) :
  tc_name tc = Some name ->
  find (fun t => opt_eqb (tc_name tc) (te_name t)) tools = Some t ->
  model_new (te_parameters t)
    (match tc_arguments tc with Some a => a | None => [] end) = Ok args ->
  (fn_call (te_function t) (bm_dict args) = Raise e
   \/ exists v, fn_call (te_function t) (bm_dict args) = Ok v /\ json_dumps v = Raise e) ->
  let msg := "Erro ao executar ferramenta '" ++ name ++ "': " ++ exn_str e in
  (forall a, an_tools a = tools ->
     Analyst._execute_tool_call a tc = Ok (error_value msg))
  /\ (forall s, sv_tools s = tools ->
        Supervisor._execute_tool_call s tc = Ok (error_value msg))
  /\ te_name t = name
  /\ occurs_in name msg
  /\ occurs_in (exn_str e) msg.
Proof.
  intros Hname Hfind Hargs Hfail msg.
  assert (Hrun : execute_tool_call_in tools tc = Ok (error_value msg)).
  { unfold execute_tool_call_in. rewrite Hfind, Hargs. simpl obind.
    destruct Hfail as [Hcall | [v [Hcall Hdump]]].
    - rewrite Hcall. simpl. rewrite Hname. reflexivity.
    - rewrite Hcall. simpl. rewrite Hdump, Hname. reflexivity. }
  split; [| split; [| split; [| split]]].
  - intros a Ha. unfold Analyst._execute_tool_call. rewrite Ha. exact Hrun.
  - intros s Hs. unfold Supervisor._execute_tool_call. rewrite Hs. exact Hrun.
  - apply find_some in Hfind. destruct Hfind as [_ Heq].
    rewrite Hname in Heq. simpl in Heq. apply String.eqb_eq in Heq. congruence.
  - apply occurs_in_middle.
  - exists ("Erro ao executar ferramenta '" ++ name ++ "': "), EmptyString.
    unfold msg. rewrite string_app_nil_r, !string_app_assoc. reflexivity.
Qed.

(** A delegation to an agent nobody supervises returns its error text
    and touches nothing. *)
Lemma unresolved_delegation_run `{rt : Runtime} (self : SupervisorObj)
    (d : Delegation) (w : World) :
  unresolved self d ->
  Supervisor._execute_agent_delegation self d w
  = (Ok (unknown_agent_text (dg_agent_id d)), w).
Proof.
  intros Hd. unfold Supervisor._execute_agent_delegation.
  unfold unresolved in Hd. rewrite Hd. reflexivity.
Qed.

(** The delegation loop returns one entry per delegation, in order; the
    entry of an unresolved delegation holds the error text. *)
Lemma run_delegations_entries `{rt : Runtime} (self : SupervisorObj)
    (ds : list Delegation) (acc : list DelegationResult) (w : World) :
  exists entries,
    fst (run_delegations self ds acc w) = Ok (acc ++ entries)%list
    /\ Forall2 (fun d r =>
                  dr_delegation_id r = dg_id d
                  /\ (unresolved self d ->
                      dr_result r = unknown_agent_text (dg_agent_id d)))
               ds entries.
Proof.
  revert acc w. induction ds as [| d ds IH]; intros acc w.
  - exists []. split; [simpl; rewrite app_nil_r; reflexivity | constructor].
  - change (run_delegations self (d :: ds) acc w)
      with (bind
              (bind (Supervisor._execute_agent_delegation self d)
                 (fun text =>
                    ret (acc ++ [{| dr_delegation_id := dg_id d;
                                    dr_result := text |}])%list))
              (fun acc' => run_delegations self ds acc') w).
    unfold bind at 1. unfold bind at 1.
    destruct (delegation_returns self d w) as [text Htext].
    destruct (Supervisor._execute_agent_delegation self d w) as [o w1] eqn:Hrun.
    simpl in Htext. subst o. cbn [ret].
    destruct (IH (acc ++ [{| dr_delegation_id := dg_id d; dr_result := text |}])%list w1)
      as [entries [Hentries Hall]].
    exists ({| dr_delegation_id := dg_id d; dr_result := text |} :: entries).
    split.
    + rewrite Hentries, <- app_assoc. reflexivity.
    + constructor; [| exact Hall]. split; [reflexivity |].
      intros Hd. rewrite (unresolved_delegation_run w Hd) in Hrun.
      injection Hrun as Htext _. simpl. congruence.
Qed.


(** ** The claims about the extraction cascade *)

Section Cascade.
Context `{rt : Runtime}.

(** The result of the cascade is the result of the strategy selected. *)
Lemma parse_by_selected_strategy (self : AnalystObj) (text : string) (m : ModelType) :
  match Analyst.selected_strategy text m with
  | Some 1 => Analyst.strategy1 text m = Analyst._parse_output_to_model self text m
  | Some 2 => Analyst.strategy2 text m = Some (Analyst._parse_output_to_model self text m)
  | Some _ => Analyst.strategy3 text m = Analyst._parse_output_to_model self text m
  | None => exists e, Analyst._parse_output_to_model self text m = Raise e
  end.
Proof.
  unfold Analyst.selected_strategy, Analyst._parse_output_to_model.
  destruct (Analyst.strategy1 text m) as [i1 | e1]; simpl; [reflexivity |].
  destruct (Analyst.strategy2 text m) as [[i2 | e2] |]; simpl; [reflexivity | |];
    destruct (Analyst.strategy3 text m) as [i3 | e3]; simpl;
    try reflexivity; eexists; reflexivity.
Qed.

(** Strategy 2 is selected only after strategy 1 has failed. *)
Lemma strategy2_after_strategy1 (text : string) (m : ModelType) :
  Analyst.selected_strategy text m = Some 2 ->
  is_ok (Analyst.strategy1 text m) = false.
Proof.
  unfold Analyst.selected_strategy.
  destruct (is_ok (Analyst.strategy1 text m)); [discriminate | reflexivity].
Qed.

(** When strategy 1 fails, for whatever reason, the cascade goes on. *)
Lemma parse_after_strategy1 (self : AnalystObj) (text : string) (m : ModelType) (e : exn) :
  Analyst.strategy1 text m = Raise e ->
  Analyst._parse_output_to_model self text m
  = match Analyst.strategy2 text m with
    | Some (Ok instance) => Ok instance
    | _ =>
        match Analyst.strategy3 text m with
        | Ok instance => Ok instance
        | Raise e3 =>
            Raise (ValueError
              ("Não foi possível extrair dados estruturados: " ++ exn_str e3))
        end
    end.
Proof. intros H1. unfold Analyst._parse_output_to_model. rewrite H1. reflexivity. Qed.

End Cascade.

(** C4: when the whole text does not parse as JSON but the text between
    its first '{' and its last '}' does, and validates, extraction
    returns the instance that parsing that substring alone gives;
    strategy 2 is the one selected, and it is selected only when
    strategy 1 has failed. *)
Theorem embedded_object_is_extracted `{rt : Runtime} (self : AnalystObj)
    (text : string) (m : ModelType) (e : exn) (data : pyval) (instance : BaseModel) :
  json_loads text = Raise e ->
  (0 <= str_find "{"%char text)%Z ->
  (str_find "{"%char text < str_rfind "}"%char text)%Z ->
  let embedded :=
    str_slice text (str_find "{"%char text) (str_rfind "}"%char text + 1) in
  json_loads embedded = Ok data ->
  model_call m data = Ok instance ->
  Analyst._parse_output_to_model self text m = Ok instance
  /\ Analyst.strategy1 embedded m = Ok instance
  /\ Analyst._parse_output_to_model self embedded m = Ok instance
  /\ Analyst.selected_strategy text m = Some 2
  /\ (forall text' m',
        Analyst.selected_strategy text' m' = Some 2 ->
        is_ok (Analyst.strategy1 text' m') = false).
Proof.
  intros Hwhole Hfirst Hlast embedded Hdata Hvalid.
  assert (H1 : Analyst.strategy1 text m = Raise e)
    by (unfold Analyst.strategy1; rewrite Hwhole; reflexivity).
  assert (H2 : Analyst.strategy2 text m = Some (Ok instance)).
  { unfold Analyst.strategy2.
    apply Z.leb_le in Hfirst. apply Z.ltb_lt in Hlast.
    rewrite Hfirst, Hlast. simpl andb. cbv iota. fold embedded.
    rewrite Hdata. simpl. rewrite Hvalid. reflexivity. }
  assert (H1' : Analyst.strategy1 embedded m = Ok instance)
    by (unfold Analyst.strategy1; rewrite Hdata; simpl; exact Hvalid).
  split; [| split; [| split; [| split]]].
  - rewrite (parse_after_strategy1 self text m H1), H2. reflexivity.
  - exact H1'.
  - unfold Analyst._parse_output_to_model. rewrite H1'. reflexivity.
  - unfold Analyst.selected_strategy. rewrite H1, H2. reflexivity.
  - intros text' m'. apply strategy2_after_strategy1.
Qed.

(** C5, as stated, fails: the error extraction raises does not carry the
    input text: two different texts fail with the very same error. *)
Lemma extraction_error_forgets_the_text :
  ~ (exists recover : exn -> string,
       forall text e,
         Analyst._parse_output_to_model (rt := Demo.runtime)
           (Example.analyst true) text Example.Trend = Raise e ->
         recover e = text).
Proof.
  intros [recover Hrecover].
  assert (Hsame :
    Analyst._parse_output_to_model (rt := Demo.runtime)
      (Example.analyst true) "a" Example.Trend
    = Analyst._parse_output_to_model (rt := Demo.runtime)
        (Example.analyst true) "b" Example.Trend)
    by (vm_compute; reflexivity).
  destruct (Analyst._parse_output_to_model (rt := Demo.runtime)
              (Example.analyst true) "a" Example.Trend) as [i | e] eqn:Ha.
  - vm_compute in Ha. discriminate.
  - pose proof (Hrecover "a" e Ha) as H1.
    pose proof (Hrecover "b" e (eq_sym Hsame)) as H2.
    rewrite H1 in H2. discriminate.
Qed.

(** C5, amended: when all three strategies fail to produce an instance,
    extraction raises a [ValueError] whose message is
    ["Não foi possível extrair dados estruturados: "] followed by the
    message of the last underlying error, the one strategy 3 ended
    with. *)
Theorem extraction_failure_error `{rt : Runtime} (self : AnalystObj)
    (text : string) (m : ModelType) (e : exn) :
  is_ok (Analyst.strategy1 text m) = false ->
  (forall instance, Analyst.strategy2 text m <> Some (Ok instance)) ->
  Analyst.strategy3 text m = Raise e ->
  Analyst._parse_output_to_model self text m
  = Raise (ValueError ("Não foi possível extrair dados estruturados: " ++ exn_str e))
  /\ Analyst.selected_strategy text m = None.
Proof.
  intros H1 H2 H3.
  unfold Analyst._parse_output_to_model, Analyst.selected_strategy.
  rewrite H1. destruct (Analyst.strategy1 text m) as [i1 | e1]; [discriminate |].
  destruct (Analyst.strategy2 text m) as [[i2 | e2] |];
    [exfalso; apply (H2 i2); reflexivity | |];
    rewrite H3; split; reflexivity.
Qed.

(** C9: a text that is a valid JSON document but fails validation does
    not make extraction raise from strategy 1: the result is the one
    strategies 2 and 3 give, as after any other failure of strategy 1. *)
Theorem invalid_document_falls_through `{rt : Runtime} (self : AnalystObj)
    (text : string) (m : ModelType) (data : pyval) (e : exn) :
  json_loads text = Ok data ->
  model_call m data = Raise e ->
  Analyst._parse_output_to_model self text m
  = match Analyst.strategy2 text m with
    | Some (Ok instance) => Ok instance
    | _ =>
        match Analyst.strategy3 text m with
        | Ok instance => Ok instance
        | Raise e3 =>
            Raise (ValueError
              ("Não foi possível extrair dados estruturados: " ++ exn_str e3))
        end
    end
  /\ Analyst.selected_strategy text m <> Some 1
  /\ (forall text' e', json_loads text' = Raise e' ->
        Analyst._parse_output_to_model self text' m
        = match Analyst.strategy2 text' m with
          | Some (Ok instance) => Ok instance
          | _ =>
              match Analyst.strategy3 text' m with
              | Ok instance => Ok instance
              | Raise e3 =>
                  Raise (ValueError
                    ("Não foi possível extrair dados estruturados: " ++ exn_str e3))
              end
          end).
Proof.
  intros Hdata Hinvalid.
  assert (H1 : Analyst.strategy1 text m = Raise e)
    by (unfold Analyst.strategy1; rewrite Hdata; simpl; exact Hinvalid).
  split; [| split].
  - apply (parse_after_strategy1 self text m H1).
  - unfold Analyst.selected_strategy. rewrite H1. simpl.
    destruct (Analyst.strategy2 text m) as [[i2 | e2] |]; try discriminate;
      destruct (is_ok _); discriminate.
  - intros text' e' Hbad.
    apply (parse_after_strategy1 self text' m (e := e')).
    unfold Analyst.strategy1. rewrite Hbad. reflexivity.
Qed.

(** ** Two evaluations of the cascade *)

Lemma agree_ret {A} (R : World -> World -> Prop) (a : A) : agree R (ret a) (ret a).
Proof. intros w1 w2 HR. split; [reflexivity | exact HR]. Qed.

Lemma agree_raise {A} (R : World -> World -> Prop) (e : exn) :
  agree R (@raise A e) (raise e).
Proof. intros w1 w2 HR. split; [reflexivity | exact HR]. Qed.

Lemma agree_lift {A} (R : World -> World -> Prop) (o : outcome A) :
  agree R (lift o) (lift o).
Proof. intros w1 w2 HR. split; [reflexivity | exact HR]. Qed.

Lemma agree_bind {A B} (R : World -> World -> Prop) (c1 c2 : M A) (k1 k2 : A -> M B) :
  agree R c1 c2 -> (forall a, agree R (k1 a) (k2 a)) -> agree R (bind c1 k1) (bind c2 k2).
Proof.
  intros Hc Hk w1 w2 HR. unfold bind. destruct (Hc w1 w2 HR) as [Hout Hw].
  destruct (c1 w1) as [[a1 | e1] v1], (c2 w2) as [[a2 | e2] v2];
    cbn [fst snd] in *; try discriminate.
  - injection Hout as Hout. subst a2. apply Hk. exact Hw.
  - injection Hout as Hout. subst e2. split; [reflexivity | exact Hw].
Qed.

Lemma agree_try_except {A} (R : World -> World -> Prop) (c1 c2 : M A)
    (h1 h2 : exn -> M A) :
  agree R c1 c2 -> (forall e, agree R (h1 e) (h2 e)) ->
  agree R (try_except c1 h1) (try_except c2 h2).
Proof.
  intros Hc Hh w1 w2 HR. unfold try_except. destruct (Hc w1 w2 HR) as [Hout Hw].
  destruct (c1 w1) as [[a1 | e1] v1], (c2 w2) as [[a2 | e2] v2];
    cbn [fst snd] in *; try discriminate.
  - split; [exact Hout | exact Hw].
  - injection Hout as Hout. subst e2. apply Hh. exact Hw.
Qed.

Section TwoEvaluations.
Context `{rt : Runtime}.
Variables (m : StatefulModel) (R : World -> World -> Prop).
Hypothesis validation_agrees : forall data, agree R (sm_new m data) (sm_new m data).

Lemma model_call_agrees (data : pyval) :
  agree R (Stateful.model_call m data) (Stateful.model_call m data).
Proof.
  destruct data; try apply agree_raise. apply validation_agrees.
Qed.

Lemma parsed_agrees (text : string) :
  agree R
    (data <- lift (json_loads text) ;;
     instance <- Stateful.model_call m data ;;
     ret (Some instance))
    (data <- lift (json_loads text) ;;
     instance <- Stateful.model_call m data ;;
     ret (Some instance)).
Proof.
  apply agree_bind; [apply agree_lift |]. intros data.
  apply agree_bind; [apply model_call_agrees |]. intros instance. apply agree_ret.
Qed.

Lemma strategy1_agrees (text : string) :
  agree R (Stateful.strategy1 text m) (Stateful.strategy1 text m).
Proof.
  unfold Stateful.strategy1.
  apply agree_try_except; [apply parsed_agrees | intros e; apply agree_ret].
Qed.

Lemma strategy2_agrees (text : string) :
  agree R (Stateful.strategy2 text m) (Stateful.strategy2 text m).
Proof.
  unfold Stateful.strategy2.
  apply agree_try_except; [| intros e; apply agree_ret]. cbv zeta.
  destruct (_ && _); [apply parsed_agrees | apply agree_ret].
Qed.

Lemma strategy3_agrees (text : string) :
  agree R (Stateful.strategy3 text m) (Stateful.strategy3 text m).
Proof.
  unfold Stateful.strategy3.
  apply agree_try_except; [apply validation_agrees | intros e; apply agree_raise].
Qed.

Lemma cascade_agrees (text : string) :
  agree R (Stateful.cascade text m) (Stateful.cascade text m).
Proof.
  unfold Stateful.cascade.
  apply agree_bind; [apply strategy1_agrees |]. intros [i1 |]; [apply agree_ret |].
  apply agree_bind; [apply strategy2_agrees |]. intros [i2 |]; [apply agree_ret |].
  apply agree_bind; [apply strategy3_agrees |]. intros i3. apply agree_ret.
Qed.

End TwoEvaluations.

Section Stateless.
Context `{rt : Runtime}.

(** For a model whose validation depends on the data alone the stateful
    cascade is the cascade of [Analyst._parse_output_to_model], in every
    world, and leaves the world as it was. *)
Lemma stateless_cascade (self : AnalystObj) (text : string) (m0 : ModelType)
    (w : World) :
  Stateful.cascade text (stateless m0) w = (selected_instance self text m0, w).
Proof.
  assert (Hcall : forall data w',
            Stateful.model_call (stateless m0) data w' = (model_call m0 data, w'))
    by (intros data w'; destruct data; reflexivity).
  unfold Stateful.cascade, selected_instance, Analyst.selected_strategy,
    Analyst._parse_output_to_model.
  unfold bind at 1.
  assert (H1 : Stateful.strategy1 text (stateless m0) w
               = (Ok match Analyst.strategy1 text m0 with
                     | Ok instance => Some instance
                     | Raise _ => None
                     end, w)).
  { unfold Stateful.strategy1, Analyst.strategy1, try_except, bind, lift.
    destruct (json_loads text) as [data |]; [| reflexivity].
    rewrite Hcall. cbn [obind]. destruct (model_call m0 data); reflexivity. }
  rewrite H1. destruct (Analyst.strategy1 text m0) as [i1 | e1]; [reflexivity |].
  cbn [is_ok]. unfold bind at 1.
  assert (H2 : Stateful.strategy2 text (stateless m0) w
               = (Ok match Analyst.strategy2 text m0 with
                     | Some (Ok instance) => Some instance
                     | _ => None
                     end, w)).
  { unfold Stateful.strategy2, Analyst.strategy2, try_except. cbv zeta.
    destruct (_ && _); [| reflexivity].
    unfold bind, lift.
    destruct (json_loads _) as [data |]; [| reflexivity].
    rewrite Hcall. cbn [obind]. destruct (model_call m0 data); reflexivity. }
  rewrite H2. destruct (Analyst.strategy2 text m0) as [[i2 | e2] |]; [reflexivity | |];
    unfold bind, Stateful.strategy3, Analyst.strategy3, try_except, stateless, lift;
    cbn [sm_new sm_fields];
    destruct (model_new m0 _); reflexivity.
Qed.

End Stateless.




(** C10: the structured extraction of [Supervisor.run] gives exactly what
    [Analyst._parse_output_to_model] gives on the same text and schema,
    on any analyst, and leaves the world as it was; so a supervisor and
    an analyst with the same output type and the same
    [require_output_type] make the same thing of the same final
    response. *)
Theorem supervisor_extraction_is_analyst_extraction `{rt : Runtime}
    (analyst : AnalystObj) (m : ModelType) (text : string) (w : World) :
  Supervisor.parse_with_analyst m text w
  = (Analyst._parse_output_to_model analyst text m, w)
  /\ (forall (supervisor : SupervisorObj) (input_s input_a : string)
             (ws wa : World) (response : Response),
        sv_output_type supervisor = an_output_type analyst ->
        sv_require_output_type supervisor = an_require_output_type analyst ->
        fst (Supervisor._call_orion_api supervisor
               (full_prompt (sv_name supervisor) (sv_instructions supervisor) input_s)
               (tools_info_of (sv_tools supervisor))
               (map Supervisor.agent_info (sv_supervised_agents supervisor))
               (option_map fields_schema (sv_output_type supervisor)) ws)
        = Ok response ->
        fst (Analyst._call_orion_api analyst
               (full_prompt (an_name analyst) (an_instructions analyst) input_a)
               (tools_info_of (an_tools analyst))
               (option_map fields_schema (an_output_type analyst)) wa)
        = Ok response ->
        fst (Supervisor.run supervisor input_s ws)
        = fst (Analyst.run analyst input_a wa)).
Proof.
  split; [reflexivity |].
  intros supervisor input_s input_a ws wa response Htype Hrequire Hs Ha.
  rewrite supervisor_run_concludes, analyst_run_concludes. cbv zeta. cbn [fst].
  rewrite Hs, Ha, Htype, Hrequire. reflexivity.
Qed.

(** C7: in a run with an output type, when the backend is done and
    extraction from the text of the final response fails, [run] raises
    if [require_output_type] is set and returns the raw result
    otherwise; in [Analyst.run] and in [Supervisor.run] alike. *)
Theorem failed_extraction_in_run `{rt : Runtime} (input_text : string)
    (m : ModelType) (response : Response) (e : exn) :
  (forall analyst,
     Analyst._parse_output_to_model analyst (content (make_result response)) m
     = Raise e) ->
  let failure :=
    ValueError ("Não foi possível converter o resultado para "
                ++ model_name m ++ ": " ++ exn_str e) in
  (forall (self : AnalystObj) (w : World),
     an_output_type self = Some m ->
     fst (Analyst._call_orion_api self
            (full_prompt (an_name self) (an_instructions self) input_text)
            (tools_info_of (an_tools self))
            (option_map fields_schema (an_output_type self)) w) = Ok response ->
     fst (Analyst.run self input_text w)
     = if an_require_output_type self then Raise failure
       else Ok (Raw (make_result response)))
  /\ (forall (self : SupervisorObj) (w : World),
        sv_output_type self = Some m ->
        fst (Supervisor._call_orion_api self
               (full_prompt (sv_name self) (sv_instructions self) input_text)
               (tools_info_of (sv_tools self))
               (map Supervisor.agent_info (sv_supervised_agents self))
               (option_map fields_schema (sv_output_type self)) w) = Ok response ->
        fst (Supervisor.run self input_text w)
        = if sv_require_output_type self then Raise failure
          else Ok (Raw (make_result response))).
Proof.
  intros Hfail failure. split.
  - intros self w Htype Hcall.
    rewrite analyst_run_concludes. cbv zeta. cbn [fst].
    rewrite Hcall, Htype. cbn [obind]. unfold conclude. cbv zeta.
    rewrite (Hfail self). reflexivity.
  - intros self w Htype Hcall.
    rewrite supervisor_run_concludes. cbv zeta. cbn [fst].
    rewrite Hcall, Htype. cbn [obind]. unfold conclude. cbv zeta.
    rewrite (Hfail (temp_analyst m)). reflexivity.
Qed.

(** ** The theorems at work on the examples *)

Lemma call_orion_api_round_trips_witness :
  let run := Supervisor._call_orion_api (rt := Demo.runtime)
               Example.coordinator "p" [] [] None Example.insatiable in
  (round_trips_of
     (Supervisor._call_orion_api (rt := Demo.runtime)
        Example.coordinator "p" [] [] None) Example.insatiable <= 21)%nat
  /\ last_response (snd run) (Example.both_lists 21)
  /\ exists r, fst run = Ok r /\ last_response (snd run) r.
Proof.
  destruct (@call_orion_api_round_trips Demo.runtime
              Example.coordinator "p" [] [] None Example.insatiable)
    as [Hcount [Hlast [_ [_ [_ [_ Hreturns]]]]]].
  split; [exact Hcount |]. split; [apply Hlast; vm_compute; reflexivity |].
  apply Hreturns; [discriminate |]. intros history. eexists. reflexivity.
Defined.

Lemma tool_results_then_delegation_results_witness :
  r_tool_calls (result Example.first_state) <> None
  /\ exists rq2 rest,
       sent (snd (Supervisor.loop_body (rt := Demo.runtime) Example.coordinator
                    "e" [] Example.first_state Example.insatiable)) = rq2 :: rest
       /\ carries_both rq2.
Proof.
  split; [discriminate |].
  destruct (@tool_results_then_delegation_results Demo.runtime
              Example.coordinator "e" [] Example.first_state Example.insatiable
              [{| tc_id := PStr "call-1"; tc_name := Some "lookup";
                  tc_arguments := Some [] |}]
              (Example.both_lists 1)
              [{| dg_id := PStr "dlg-1"; dg_agent_id := Some 7%Z;
                  dg_input := Some "go" |}]
              eq_refl eq_refl eq_refl)
    as [drs [_ [Hsent [_ [_ [Htools Hdelegations]]]]]].
  eexists _, _. split; [rewrite Hsent; reflexivity |].
  unfold carries_both, request. cbn [rq_json].
  rewrite Htools, Hdelegations. split; discriminate.
Defined.

Lemma tool_failure_is_data_witness :
  fn_call Example.get_price [("ticker", PStr "XYZ")] = Raise (Exn "RuntimeError" "no quote")
  /\ Analyst._execute_tool_call (rt := Demo.runtime)
       (Example.analyst false) Example.get_price_call
     = Ok (error_value "Erro ao executar ferramenta 'get_price': no quote").
Proof.
  split; [reflexivity |].
  apply (@tool_failure_is_data Demo.runtime
           [Example.get_price_tool] Example.get_price_call
           "get_price" Example.get_price_tool
           {| bm_class := "get_price_params"; bm_dict := [("ticker", PStr "XYZ")] |}
           (Exn "RuntimeError" "no quote")
           eq_refl eq_refl eq_refl (or_introl eq_refl)).
  reflexivity.
Defined.


Lemma embedded_object_is_extracted_witness :
  json_loads (Runtime := Demo.runtime) Example.wrapped
  = Raise (Demo.JSONDecodeError "Expecting value")
  /\ Analyst._parse_output_to_model (rt := Demo.runtime)
       (Example.analyst false) Example.wrapped Example.Trend
     = Ok {| bm_class := "Trend"; bm_dict := [("trend", PStr "up")] |}.
Proof.
  split; [vm_compute; reflexivity |].
  apply (@embedded_object_is_extracted Demo.runtime
           (Example.analyst false) Example.wrapped Example.Trend
           (Demo.JSONDecodeError "Expecting value")
           (PDict [("trend", PStr "up")])
           {| bm_class := "Trend"; bm_dict := [("trend", PStr "up")] |}).
  - vm_compute; reflexivity.
  - vm_compute; discriminate.
  - vm_compute; reflexivity.
  - vm_compute; reflexivity.
  - vm_compute; reflexivity.
Defined.

Lemma extraction_failure_error_witness :
  exists e,
    Analyst.strategy3 (rt := Demo.runtime) "a" Example.Trend = Raise e
    /\ Analyst._parse_output_to_model (rt := Demo.runtime)
         (Example.analyst true) "a" Example.Trend
       = Raise (ValueError
           ("Não foi possível extrair dados estruturados: " ++ exn_str e)).
Proof.
  eexists. split; [vm_compute; reflexivity |].
  apply (@extraction_failure_error Demo.runtime
           (Example.analyst true) "a" Example.Trend).
  - vm_compute; reflexivity.
  - intros instance. vm_compute. discriminate.
  - vm_compute; reflexivity.
Defined.

Lemma invalid_document_falls_through_witness :
  exists e,
    json_loads (Runtime := Demo.runtime) Example.other_object
    = Ok (PDict [("mood", PStr "up")])
    /\ model_call Example.Trend (PDict [("mood", PStr "up")]) = Raise e
    /\ Analyst.selected_strategy (rt := Demo.runtime) Example.other_object Example.Trend
       <> Some 1.
Proof.
  eexists. split; [vm_compute; reflexivity |]. split; [vm_compute; reflexivity |].
  eapply (@invalid_document_falls_through Demo.runtime
            (Example.analyst false) Example.other_object Example.Trend).
  - vm_compute; reflexivity.
  - vm_compute; reflexivity.
Defined.

Lemma failed_extraction_in_run_witness :
  exists e,
    (forall analyst,
       Analyst._parse_output_to_model (rt := Demo.runtime) analyst "a" Example.Trend
       = Raise e)
    /\ fst (Analyst.run (rt := Demo.runtime) (Example.analyst true) "x" (Example.says "a"))
       = Raise (ValueError ("Não foi possível converter o resultado para Trend: "
                            ++ exn_str e))
    /\ fst (Supervisor.run (rt := Demo.runtime) (Example.supervisor false) "x"
              (Example.says "a"))
       = Ok (Raw (make_result (Example.plain "a"))).
Proof.
  eexists. split; [intros analyst; vm_compute; reflexivity |].
  destruct (@failed_extraction_in_run Demo.runtime "x"
              Example.Trend (Example.plain "a")
              (ValueError
                 ("Não foi possível extrair dados estruturados: "
                  ++ "1 validation error for Trend" ++ newline ++ "trend" ++ newline
                  ++ "  field required (type=value_error.missing)"))
              ltac:(intros analyst; vm_compute; reflexivity))
    as [Hanalyst Hsupervisor].
  split.
  - apply (Hanalyst (Example.analyst true) (Example.says "a") eq_refl).
    vm_compute; reflexivity.
  - apply (Hsupervisor (Example.supervisor false) (Example.says "a") eq_refl).
    vm_compute; reflexivity.
Defined.

Lemma supervisor_extraction_is_analyst_extraction_witness :
  sv_output_type (Example.supervisor false) = an_output_type (Example.analyst false)
  /\ fst (Supervisor.run (rt := Demo.runtime) (Example.supervisor false) "x"
            (Example.says Example.wrapped))
     = fst (Analyst.run (rt := Demo.runtime) (Example.analyst false) "y"
              (Example.says Example.wrapped)).
Proof.
  split; [reflexivity |].
  destruct (@supervisor_extraction_is_analyst_extraction Demo.runtime
              (Example.analyst false) Example.Trend Example.wrapped
              (Example.says Example.wrapped))
    as [_ Hrun].
  apply (Hrun (Example.supervisor false) "x" "y"
           (Example.says Example.wrapped) (Example.says Example.wrapped)
           (Example.plain Example.wrapped) eq_refl eq_refl).
  - vm_compute; reflexivity.
  - vm_compute; reflexivity.
Defined.

(** ** Further properties: the API key *)

Lemma get_orion_key_configured (w : World) (key : string) :
  configured_key w = key -> key <> EmptyString -> get_orion_key w = (Ok key, w).
Proof.
  intros Hkey Hne. unfold get_orion_key. fold (configured_key w). rewrite Hkey.
  destruct key; [contradiction | reflexivity].
Qed.

Lemma get_orion_key_missing (w : World) :
  configured_key w = EmptyString -> get_orion_key w = (Raise key_missing, w).
Proof.
  intros Hkey. unfold get_orion_key. fold (configured_key w). rewrite Hkey. reflexivity.
Qed.

(** X1: after [set_default_orion_key(k)] with a non-empty [k],
    [get_orion_key] returns [k], whatever was configured before, and
    nothing but the two key slots has changed. *)
Theorem set_then_get_orion_key (api_key : string) (w : World) :
  api_key <> EmptyString ->
  let w' := snd (set_default_orion_key api_key w) in
  get_orion_key w' = (Ok api_key, w')
  /\ backend w' = backend w
  /\ sent w' = sent w
  /\ REGISTERED_TOOLS w' = REGISTERED_TOOLS w.
Proof.
  intros Hne w'. split; [| repeat split].
  apply get_orion_key_configured; [| exact Hne].
  unfold configured_key. simpl. destruct api_key; [contradiction | reflexivity].
Qed.

(** The module-level key comes before the environment variable, an
    empty module-level key falls back to the environment, and when
    neither holds a non-empty text [get_orion_key] raises [ValueError]. *)
Lemma get_orion_key_order (w : World) :
  get_orion_key w
  = match str_or (ORION_API_KEY w) EmptyString,
          str_or (environ_ORION_API_KEY w) EmptyString with
    | String c k, _ => (Ok (String c k), w)
    | EmptyString, String c k => (Ok (String c k), w)
    | EmptyString, EmptyString => (Raise key_missing, w)
    end.
Proof.
  unfold get_orion_key.
  destruct (ORION_API_KEY w) as [[| c k] |],
           (environ_ORION_API_KEY w) as [[| c' k'] |]; reflexivity.
Qed.

Section NoKey.
Context `{rt : Runtime}.

(** X2: without a configured key, [run] of an operator, of an analyst and
    of a supervisor raises the [ValueError] of [get_orion_key] and sends
    no request. *)
Theorem run_without_key (w : World) (input_text : string) :
  configured_key w = EmptyString ->
  (forall o, Operator.run o input_text w = (Raise key_missing, w))
  /\ (forall a, Analyst.run a input_text w = (Raise key_missing, w))
  /\ (forall s, Supervisor.run s input_text w = (Raise key_missing, w)).
Proof.
  intros Hkey. pose proof (get_orion_key_missing w Hkey) as Hget.
  split; [| split].
  - intros o. unfold Operator.run, Operator._call_orion_api, bind.
    rewrite Hget. reflexivity.
  - intros a. unfold Analyst.run, Analyst._call_orion_api, bind.
    rewrite Hget. reflexivity.
  - intros s. unfold Supervisor.run, Supervisor._call_orion_api, bind.
    rewrite Hget. reflexivity.
Qed.

End NoKey.

Lemma operator_run_request (o : OperatorObj) (input_text key : string)
    (w : World) :
  configured_key w = key ->
  key <> EmptyString ->
  let rq := operator_request o input_text key in
  Operator.run o input_text w
  = (match backend w (rq :: sent w) with
     | Ok response =>
         Ok {| content := match r_content response with
                          | Some text => text
                          | None => EmptyString
                          end;
               raw_response := response |}
     | Raise e => Raise e
     end,
     after_request w rq).
Proof.
  intros Hkey Hne rq. unfold Operator.run, Operator._call_orion_api, bind.
  rewrite (get_orion_key_configured w Hkey Hne).
  unfold post_json. fold (request (op_base_url o ++ "/api/agents/run")
    {| pl_prompt := full_prompt (op_name o) (op_instructions o) input_text;
       pl_max_tokens := 1000;
       pl_agent_type := None; pl_tools := None;
       pl_supervised_agents := None; pl_output_schema := None;
       pl_tool_results := None; pl_delegation_results := None |}
    (api_headers key)).
  fold (operator_request o input_text key). fold rq.
  destruct (backend w (rq :: sent w)); reflexivity.
Qed.

(** X3: with a key configured, [Operator.run] makes exactly one
    round-trip, to [<base_url>/api/agents/run], with the full prompt,
    [max_tokens = 1000] and the bearer key; it returns the content of the
    response (the empty text when the response has none) or lets the
    failure of the transport through. *)
Theorem operator_run_one_round_trip (o : OperatorObj) (input_text key : string)
    (w : World) :
  configured_key w = key ->
  key <> EmptyString ->
  let rq := operator_request o input_text key in
  Operator.run o input_text w
  = (match backend w (rq :: sent w) with
     | Ok response =>
         Ok {| content := match r_content response with
                          | Some text => text
                          | None => EmptyString
                          end;
               raw_response := response |}
     | Raise e => Raise e
     end,
     after_request w rq).
Proof. apply operator_run_request. Qed.

Lemma set_then_get_orion_key_witness :
  get_orion_key (snd (set_default_orion_key "k1" (Example.says "a")))
  = (Ok "k1", snd (set_default_orion_key "k1" (Example.says "a"))).
Proof.
  apply (@set_then_get_orion_key "k1" (Example.says "a")). discriminate.
Defined.

Lemma run_without_key_witness :
  Operator.run redator "x" (keyless (fun _ => Ok (Example.plain "a")))
  = (Raise key_missing, keyless (fun _ => Ok (Example.plain "a"))).
Proof.
  apply (@run_without_key Demo.runtime
           (keyless (fun _ => Ok (Example.plain "a"))) "x" eq_refl).
Defined.

Lemma operator_run_one_round_trip_witness :
  fst (Operator.run redator "x" (Example.says "a"))
  = Ok {| content := "a"; raw_response := Example.plain "a" |}
  /\ List.length (sent (snd (Operator.run redator "x" (Example.says "a")))) = 1%nat.
Proof.
  rewrite (@operator_run_one_round_trip redator "x" "key" (Example.says "a") eq_refl);
    [split; reflexivity | discriminate].
Defined.

(** ** Further properties: the analyst's tool round *)

Section AnalystCall.
Context `{rt : Runtime}.
Variables (self : AnalystObj) (endpoint : string) (first_payload : Payload)
          (headers : list (string * string)).

(** One round of the [for tool_call in result["tool_calls"]] loop of the
    analyst. *)
Lemma analyst_tool_step (tc : ToolCall) (tcs : list ToolCall) (acc : Response)
    (w1 : World) :
  let body :=
    fun (_ : Response) tool_call =>
      tool_result <- lift (Analyst._execute_tool_call self tool_call) ;;
      post_json endpoint
        (set_tool_results first_payload
           [{| tr_tool_call_id := tc_id tool_call; tr_result := tool_result |}])
        headers in
  let rq := analyst_followup self endpoint first_payload headers tc in
  for_each body (tc :: tcs) acc w1
  = match backend w1 (rq :: sent w1) with
    | Ok r1 => for_each body tcs r1 (after_request w1 rq)
    | Raise e => (Raise e, after_request w1 rq)
    end.
Proof.
  intros body rq. cbn [for_each]. unfold bind at 1. unfold body at 1. unfold bind at 1.
  assert (Hexec : lift (Analyst._execute_tool_call self tc) w1
                  = (Ok (value_of (Analyst._execute_tool_call self tc)), w1)).
  { unfold lift, Analyst._execute_tool_call. f_equal. apply tool_call_returns. }
  rewrite Hexec. cbv beta iota.
  change (post_json endpoint
            (set_tool_results first_payload
               [{| tr_tool_call_id := tc_id tc;
                   tr_result := value_of (Analyst._execute_tool_call self tc) |}])
            headers w1)
    with (backend w1 (rq :: sent w1), after_request w1 rq).
  destruct (backend w1 (rq :: sent w1)); reflexivity.
Qed.

(** The whole loop: one request per tool call, in order, until one
    fails. *)
Lemma analyst_tool_loop (tcs : list ToolCall) (acc : Response) (w1 : World) :
  let run :=
    for_each
      (fun (_ : Response) tool_call =>
         tool_result <- lift (Analyst._execute_tool_call self tool_call) ;;
         post_json endpoint
           (set_tool_results first_payload
              [{| tr_tool_call_id := tc_id tool_call; tr_result := tool_result |}])
           headers)
      tcs acc w1 in
  backend (snd run) = backend w1
  /\ exists n,
       (n <= List.length tcs)%nat
       /\ sent (snd run)
          = (rev (firstn n (map (analyst_followup self endpoint first_payload headers) tcs))
             ++ sent w1)%list
       /\ (forall r, fst run = Ok r ->
             n = List.length tcs
             /\ (last_response w1 acc -> last_response (snd run) r)).
Proof.
  revert acc w1. induction tcs as [| tc tcs IH]; intros acc w1; cbv zeta.
  - simpl. split; [reflexivity |]. exists 0%nat.
    split; [lia |]. split; [reflexivity |].
    intros r Hr. injection Hr as Hr. subst r. split; [reflexivity | tauto].
  - pose proof (analyst_tool_step tc tcs acc w1) as Hstep. cbv zeta in Hstep.
    rewrite Hstep. clear Hstep.
    set (rq := analyst_followup self endpoint first_payload headers tc).
    destruct (backend w1 (rq :: sent w1)) as [r1 | e] eqn:Hr1.
    + specialize (IH r1 (after_request w1 rq)). cbv zeta in IH.
      destruct IH as [Hb [n [Hn [Hsent Hok]]]].
      split; [rewrite Hb; reflexivity |].
      exists (S n). split; [simpl; lia |]. split.
      * rewrite Hsent. cbn [map firstn rev sent after_request].
        rewrite <- app_assoc. reflexivity.
      * intros r Hr. destruct (Hok r Hr) as [Hlen Hlast].
        split; [simpl; lia |]. intros _. apply Hlast.
        unfold last_response. simpl. exact Hr1.
    + cbn [fst snd]. split; [reflexivity |]. exists 1%nat.
      split; [simpl; lia |]. split.
      * reflexivity.
      * intros r Hr. discriminate.
Qed.

End AnalystCall.

(** X4: with a key configured and the first request answered,
    [Analyst._call_orion_api] returns that response after one round-trip
    when it holds no tool-call list; when it holds one, the analyst sends
    one more request per tool call of that list, in order, each carrying
    the result of that call alone, and returns the last response.  Tool
    calls in the later responses are not run: the requests depend on the
    first list only. *)
Theorem analyst_call_round_trips `{rt : Runtime} (self : AnalystObj)
    (prompt : string) (tools : list ToolInfo) (schema : option Schema)
    (key : string) (w : World) (r0 : Response) :
  configured_key w = key ->
  key <> EmptyString ->
  let endpoint := an_base_url self ++ "/api/agents/run" in
  let first_payload := analyst_payload prompt tools schema in
  let headers := api_headers key in
  let rq0 := request endpoint first_payload headers in
  let run := Analyst._call_orion_api self prompt tools schema w in
  backend w (rq0 :: sent w) = Ok r0 ->
  (r_tool_calls r0 = None -> run = (Ok r0, after_request w rq0))
  /\ (forall tcs,
        r_tool_calls r0 = Some tcs ->
        (List.length (sent (snd run)) <= List.length (sent w) + 1 + List.length tcs)%nat
        /\ (forall r, fst run = Ok r ->
              sent (snd run)
              = (rev (map (analyst_followup self endpoint first_payload headers) tcs)
                 ++ rq0 :: sent w)%list
              /\ last_response (snd run) r)).
Proof.
  intros Hkey Hne endpoint first_payload headers rq0 run Hr0.
  assert (Hrun : run
    = match r_tool_calls r0 with
      | Some tool_calls =>
          for_each
            (fun (_ : Response) tool_call =>
               tool_result <- lift (Analyst._execute_tool_call self tool_call) ;;
               post_json endpoint
                 (set_tool_results first_payload
                    [{| tr_tool_call_id := tc_id tool_call;
                        tr_result := tool_result |}])
                 headers)
            tool_calls r0 (after_request w rq0)
      | None => (Ok r0, after_request w rq0)
      end).
  { unfold run, Analyst._call_orion_api, bind.
    rewrite (get_orion_key_configured w Hkey Hne).
    fold endpoint. fold (analyst_payload prompt tools schema). fold first_payload.
    fold headers. rewrite post_json_run. fold rq0. rewrite Hr0.
    destruct (r_tool_calls r0); reflexivity. }
  split.
  - intros Hnone. rewrite Hrun, Hnone. reflexivity.
  - intros tcs Htcs. rewrite Hrun, Htcs.
    destruct (analyst_tool_loop self endpoint first_payload headers tcs r0
                (after_request w rq0)) as [_ [n [Hn [Hsent Hok]]]].
    split.
    + rewrite Hsent, length_app, length_rev, length_firstn, length_map. simpl. lia.
    + intros r Hr. destruct (Hok r Hr) as [Hlen Hlast].
      split.
      * rewrite Hsent, Hlen, <- (length_map (analyst_followup self endpoint first_payload headers)),
          firstn_all. reflexivity.
      * apply Hlast. unfold last_response. simpl. exact Hr0.
Qed.

Lemma analyst_call_round_trips_witness :
  let run := Analyst._call_orion_api (rt := Demo.runtime)
               (Example.analyst false) "p" [] None Example.insatiable in
  fst run = Ok (Example.both_lists 2) /\ List.length (sent (snd run)) = 2%nat.
Proof.
  cbv zeta. split; [vm_compute; reflexivity |].
  destruct (@analyst_call_round_trips Demo.runtime (Example.analyst false) "p" [] None
              "key" Example.insatiable (Example.both_lists 1)
              eq_refl ltac:(discriminate) eq_refl) as [_ Hcalls].
  destruct (Hcalls _ eq_refl) as [_ Hok].
  destruct (Hok (Example.both_lists 2) ltac:(vm_compute; reflexivity)) as [Hsent _].
  rewrite Hsent. reflexivity.
Defined.

(** ** Further properties: tool execution *)

Lemma find_all_false {A} (f : A -> bool) (l : list A) :
  Forall (fun x => f x = false) l -> find f l = None.
Proof.
  induction 1 as [| x l Hx _ IH]; simpl; [reflexivity | rewrite Hx; exact IH].
Qed.

Lemma find_first {A} (f : A -> bool) (before after : list A) (x : A) :
  Forall (fun y => f y = false) before -> f x = true ->
  find f (before ++ x :: after) = Some x.
Proof.
  induction 1 as [| y l Hy _ IH]; intros Hx; simpl.
  - rewrite Hx. reflexivity.
  - rewrite Hy. apply IH. exact Hx.
Qed.

Lemma opt_eqb_false (name : option string) (s : string) :
  name <> Some s -> opt_eqb name s = false.
Proof.
  intros Hne. destruct name as [n |]; [| reflexivity]. simpl.
  apply String.eqb_neq. congruence.
Qed.

Section ToolExecution.
Context `{rt : Runtime}.

(** X5: a tool call whose name no tool of the agent has (a call with no
    name among them) returns [{"error": "Ferramenta '<name>' não
    encontrada"}], in the analyst and in the supervisor; nothing is
    raised. *)
Theorem unknown_tool_is_reported (tools : list ToolEntry) (tc : ToolCall) :
  Forall (fun t => tc_name tc <> Some (te_name t)) tools ->
  let value :=
    error_value ("Ferramenta '" ++ fmt_opt_str (tc_name tc) ++ "' não encontrada") in
  (forall a, an_tools a = tools -> Analyst._execute_tool_call a tc = Ok value)
  /\ (forall s, sv_tools s = tools -> Supervisor._execute_tool_call s tc = Ok value).
Proof.
  intros Hnone value.
  assert (Hrun : execute_tool_call_in tools tc = Ok value).
  { unfold execute_tool_call_in. rewrite find_all_false; [reflexivity |].
    eapply List.Forall_impl; [| exact Hnone]. intros t Ht. apply opt_eqb_false. exact Ht. }
  split; intros x Hx;
    [unfold Analyst._execute_tool_call | unfold Supervisor._execute_tool_call];
    rewrite Hx; exact Hrun.
Qed.

(** X6: when several tools of an agent share the name of the call, the
    first one in [self.tools] is the one that runs; if its parameter
    model accepts the arguments, its callable returns and the result
    serializes, the call returns the JSON text of the result. *)
Theorem first_tool_of_the_name_runs (before after : list ToolEntry) (t : ToolEntry)
    (tc : ToolCall) (args : BaseModel) (v : pyval) (text : string) :
  tc_name tc = Some (te_name t) ->
  Forall (fun t' => te_name t' <> te_name t) before ->
  model_new (te_parameters t) (arguments_of tc) = Ok args ->
  fn_call (te_function t) (bm_dict args) = Ok v ->
  json_dumps v = Ok text ->
  (forall a, an_tools a = (before ++ t :: after)%list ->
     Analyst._execute_tool_call a tc = Ok (PStr text))
  /\ (forall s, sv_tools s = (before ++ t :: after)%list ->
        Supervisor._execute_tool_call s tc = Ok (PStr text)).
Proof.
  intros Hname Hbefore Hargs Hcall Hdump.
  assert (Hrun : execute_tool_call_in (before ++ t :: after) tc = Ok (PStr text)).
  { unfold execute_tool_call_in. rewrite (@find_first _ _ before after t).
    - fold (arguments_of tc). rewrite Hargs. simpl. rewrite Hcall. simpl.
      rewrite Hdump. reflexivity.
    - eapply List.Forall_impl; [| exact Hbefore]. intros t' Ht'.
      rewrite Hname. simpl. apply String.eqb_neq. congruence.
    - rewrite Hname. simpl. apply String.eqb_refl. }
  split; intros x Hx;
    [unfold Analyst._execute_tool_call | unfold Supervisor._execute_tool_call];
    rewrite Hx; exact Hrun.
Qed.

(** X7: when the parameter model of the tool rejects the arguments, the
    call returns [{"error": "Erro ao executar ferramenta '<name>':
    <message of the validation error>"}] and the callable has no part in
    it: the value is the same whatever function stands behind the tool. *)
Theorem invalid_arguments_are_reported (before after : list ToolEntry) (t : ToolEntry)
    (tc : ToolCall) (e : exn) (f : Callable) :
  tc_name tc = Some (te_name t) ->
  Forall (fun t' => te_name t' <> te_name t) before ->
  model_new (te_parameters t) (arguments_of tc) = Raise e ->
  let value :=
    error_value ("Erro ao executar ferramenta '" ++ te_name t ++ "': " ++ exn_str e) in
  (forall a, an_tools a = (before ++ with_function t f :: after)%list ->
     Analyst._execute_tool_call a tc = Ok value)
  /\ (forall s, sv_tools s = (before ++ with_function t f :: after)%list ->
        Supervisor._execute_tool_call s tc = Ok value).
Proof.
  intros Hname Hbefore Hargs value.
  assert (Hrun : execute_tool_call_in (before ++ with_function t f :: after) tc = Ok value).
  { unfold execute_tool_call_in. rewrite (@find_first _ _ before after (with_function t f)).
    - fold (arguments_of tc). cbn [te_parameters with_function]. rewrite Hargs.
      simpl. rewrite Hname. reflexivity.
    - eapply List.Forall_impl; [| exact Hbefore]. intros t' Ht'.
      rewrite Hname. simpl. apply String.eqb_neq. congruence.
    - rewrite Hname. simpl. apply String.eqb_refl. }
  split; intros x Hx;
    [unfold Analyst._execute_tool_call | unfold Supervisor._execute_tool_call];
    rewrite Hx; exact Hrun.
Qed.

(** X8: tool execution never raises, whatever the tools and the call:
    it returns either a text (the JSON of the result) or an error
    value. *)
Theorem tool_execution_never_raises (tc : ToolCall) :
  (forall a, exists v,
     Analyst._execute_tool_call a tc = Ok v
     /\ ((exists text, v = PStr text) \/ (exists msg, v = error_value msg)))
  /\ (forall s, exists v,
        Supervisor._execute_tool_call s tc = Ok v
        /\ ((exists text, v = PStr text) \/ (exists msg, v = error_value msg))).
Proof.
  assert (Hrun : forall tools, exists v,
            execute_tool_call_in tools tc = Ok v
            /\ ((exists text, v = PStr text) \/ (exists msg, v = error_value msg))).
  { intros tools. unfold execute_tool_call_in.
    destruct (find _ tools) as [t |].
    - destruct (obind _ _) as [text | e].
      + eexists. split; [reflexivity | left; eexists; reflexivity].
      + eexists. split; [reflexivity | right; eexists; reflexivity].
    - eexists. split; [reflexivity | right; eexists; reflexivity]. }
  split; intros x; apply Hrun.
Qed.

End ToolExecution.

Lemma unknown_tool_is_reported_witness :
  Supervisor._execute_tool_call (rt := Demo.runtime) Example.coordinator
    {| tc_id := PStr "call-1"; tc_name := None; tc_arguments := None |}
  = Ok (error_value "Ferramenta 'None' não encontrada").
Proof.
  apply (proj2 (@unknown_tool_is_reported Demo.runtime []
                  {| tc_id := PStr "call-1"; tc_name := None; tc_arguments := None |}
                  (List.Forall_nil _))).
  reflexivity.
Defined.

Lemma first_tool_of_the_name_runs_witness :
  Analyst._execute_tool_call (rt := Demo.runtime)
    {| an_name := "a"; an_instructions := "i"; an_output_type := None;
       an_require_output_type := false; an_base_url := default_base_url;
       an_tools := [Example.get_price_tool; echo_tool;
                    with_function echo_tool Example.get_price] |}
    (echo_call [("value", PStr "hi")])
  = Ok (PStr (quote ++ "hi" ++ quote)).
Proof.
  apply (proj1 (@first_tool_of_the_name_runs Demo.runtime
                  [Example.get_price_tool]
                  [with_function echo_tool Example.get_price]
                  echo_tool (echo_call [("value", PStr "hi")])
                  {| bm_class := "echo_params"; bm_dict := [("value", PStr "hi")] |}
                  (PStr "hi") (quote ++ "hi" ++ quote)
                  eq_refl
                  ltac:(repeat constructor; discriminate)
                  eq_refl eq_refl eq_refl)).
  reflexivity.
Defined.

Lemma invalid_arguments_are_reported_witness :
  Analyst._execute_tool_call (rt := Demo.runtime)
    {| an_name := "a"; an_instructions := "i"; an_output_type := None;
       an_require_output_type := false; an_base_url := default_base_url;
       an_tools := [with_function echo_tool Example.get_price] |}
    (echo_call [])
  = Ok (error_value
      ("Erro ao executar ferramenta 'echo': 1 validation error for echo_params"
       ++ newline ++ "value" ++ newline ++ "  field required (type=value_error.missing)")).
Proof.
  apply (proj1 (@invalid_arguments_are_reported Demo.runtime [] [] echo_tool
                  (echo_call [])
                  (Demo.ValidationError
                     ("1 validation error for echo_params" ++ newline ++ "value"
                      ++ newline ++ "  field required (type=value_error.missing)"))
                  Example.get_price
                  eq_refl (List.Forall_nil _) eq_refl)).
  reflexivity.
Defined.

(** ** Further properties: delegation *)

Lemma find_app_first {A} (f : A -> bool) (l l' : list A) :
  find f (l ++ l')
  = match find f l with
    | Some x => Some x
    | None => find f l'
    end.
Proof.
  induction l as [| x l IH]; simpl; [reflexivity |].
  destruct (f x); [reflexivity | exact IH].
Qed.

Lemma find_in {A} (f : A -> bool) (l : list A) (x : A) :
  In x l -> f x = true -> exists y, find f l = Some y /\ f y = true.
Proof.
  intros Hin Hx. destruct (find f l) as [y |] eqn:Hfind.
  - exists y. split; [reflexivity |]. apply (find_some _ _ Hfind).
  - rewrite (find_none _ _ Hfind x Hin) in Hx. discriminate.
Qed.

Section Delegation.
Context `{rt : Runtime}.

(** X9: when the run of the agent a delegation resolves to raises, the
    delegation returns the text ["Erro ao executar o agente <name>:
    <message>"] and raises nothing. *)
Theorem failing_agent_is_reported (self : SupervisorObj) (d : Delegation)
    (agent : AgentRef) (e : exn) (w w' : World) :
  find (Supervisor.id_matches (dg_agent_id d)) (sv_supervised_agents self) = Some agent ->
  Supervisor.agent_run agent (input_of d) w = (Raise e, w') ->
  Supervisor._execute_agent_delegation self d w = (Ok (failed_agent_text agent e), w').
Proof.
  intros Hfind Hrun. unfold Supervisor._execute_agent_delegation. rewrite Hfind.
  fold (input_of d). unfold try_except, bind. rewrite Hrun. reflexivity.
Qed.

(** X10: when the run of the agent returns, the delegation returns the
    content of a raw result as it is, and the JSON text of the fields of
    a structured result; if that serialization raises, the text that
    reports the failure of the agent. *)
Theorem delegation_result_is_text (self : SupervisorObj) (d : Delegation)
    (agent : AgentRef) (out : RunOutput) (w w' : World) :
  find (Supervisor.id_matches (dg_agent_id d)) (sv_supervised_agents self) = Some agent ->
  Supervisor.agent_run agent (input_of d) w = (Ok out, w') ->
  Supervisor._execute_agent_delegation self d w
  = (Ok match out with
        | Raw r => content r
        | Structured instance =>
            match json_dumps (PDict (bm_dict instance)) with
            | Ok text => text
            | Raise e => failed_agent_text agent e
            end
        end,
     w').
Proof.
  intros Hfind Hrun. unfold Supervisor._execute_agent_delegation. rewrite Hfind.
  fold (input_of d). unfold try_except, bind. rewrite Hrun.
  destruct out as [r | instance]; [reflexivity |].
  unfold lift. destruct (json_dumps _); reflexivity.
Qed.

(** X11: a delegation never raises, does not change the backend, and
    adds no round-trip of the supervisor's own. *)
Theorem delegation_never_raises (self : SupervisorObj) (d : Delegation) (w : World) :
  let run := Supervisor._execute_agent_delegation self d w in
  (exists text, fst run = Ok text)
  /\ backend (snd run) = backend w
  /\ (round_trips (snd run) <= round_trips w)%nat.
Proof.
  cbv zeta. split; [apply delegation_returns |].
  destruct (bounded_delegation self d w) as [Hb [_ Hn]].
  split; [exact Hb | lia].
Qed.

(** X12: every id the supervisor publishes in [supervised_agents] is one
    a delegation resolves on: a delegation that names it finds an agent
    with that id. *)
Theorem published_ids_resolve (self : SupervisorObj) (info : AgentInfo) (d : Delegation) :
  In info (map Supervisor.agent_info (sv_supervised_agents self)) ->
  dg_agent_id d = Some (ai_id info) ->
  exists agent,
    find (Supervisor.id_matches (dg_agent_id d)) (sv_supervised_agents self) = Some agent
    /\ obj_id agent = ai_id info
    /\ ~ unresolved self d.
Proof.
  intros Hin Hid. apply in_map_iff in Hin. destruct Hin as [a [Hinfo Ha]].
  assert (Hmatch : Supervisor.id_matches (dg_agent_id d) a = true).
  { rewrite Hid, <- Hinfo. simpl. apply Z.eqb_refl. }
  destruct (find_in _ _ a Ha Hmatch) as [agent [Hfind Hagent]].
  exists agent. split; [exact Hfind |]. split.
  - rewrite Hid in Hagent. simpl in Hagent. apply Z.eqb_eq. exact Hagent.
  - unfold unresolved. rewrite Hfind. discriminate.
Qed.

End Delegation.

(** X13: [add_supervised_agent] keeps every delegation that resolved
    resolving to the same agent, makes the id of the new agent resolve,
    to the new agent itself when no agent had that id before, and
    leaves the tools and the output type alone. *)
Theorem add_supervised_agent_resolves (self : SupervisorObj) (agent : AgentRef)
    (d : Delegation) :
  let self' := Supervisor.add_supervised_agent self agent in
  (forall a,
     find (Supervisor.id_matches (dg_agent_id d)) (sv_supervised_agents self) = Some a ->
     find (Supervisor.id_matches (dg_agent_id d)) (sv_supervised_agents self') = Some a)
  /\ (dg_agent_id d = Some (obj_id agent) -> ~ unresolved self' d)
  /\ (dg_agent_id d = Some (obj_id agent) -> unresolved self d ->
      find (Supervisor.id_matches (dg_agent_id d)) (sv_supervised_agents self')
      = Some agent)
  /\ sv_tools self' = sv_tools self
  /\ sv_output_type self' = sv_output_type self
  /\ sv_require_output_type self' = sv_require_output_type self.
Proof.
  cbv zeta. unfold Supervisor.add_supervised_agent. cbn [sv_supervised_agents].
  assert (Hnew : dg_agent_id d = Some (obj_id agent) ->
                 Supervisor.id_matches (dg_agent_id d) agent = true).
  { intros Hid. rewrite Hid. simpl. apply Z.eqb_refl. }
  split; [| split; [| split; [| repeat split]]].
  - intros a Ha. rewrite find_app_first, Ha. reflexivity.
  - intros Hid. unfold unresolved. cbn [sv_supervised_agents].
    rewrite find_app_first. destruct (find _ (sv_supervised_agents self)); [discriminate |].
    simpl. rewrite (Hnew Hid). discriminate.
  - intros Hid Hun. unfold unresolved in Hun. rewrite find_app_first, Hun.
    simpl. rewrite (Hnew Hid). reflexivity.
Qed.

Lemma failing_agent_is_reported_witness :
  Supervisor._execute_agent_delegation (rt := Demo.runtime) editor_in_chief to_redator
    (keyless (fun _ => Ok (Example.plain "a")))
  = (Ok (failed_agent_text {| obj_id := 4242; obj := AnOperator redator |} key_missing),
     keyless (fun _ => Ok (Example.plain "a"))).
Proof.
  apply (@failing_agent_is_reported Demo.runtime editor_in_chief to_redator
           {| obj_id := 4242; obj := AnOperator redator |} key_missing
           (keyless (fun _ => Ok (Example.plain "a")))
           (keyless (fun _ => Ok (Example.plain "a")))
           eq_refl eq_refl).
Defined.

Lemma delegation_result_is_text_witness :
  fst (Supervisor._execute_agent_delegation (rt := Demo.runtime) editor_in_chief
         to_redator (Example.says "um texto"))
  = Ok "um texto".
Proof.
  rewrite (@delegation_result_is_text Demo.runtime editor_in_chief to_redator
             {| obj_id := 4242; obj := AnOperator redator |}
             (Raw {| content := "um texto"; raw_response := Example.plain "um texto" |})
             (Example.says "um texto")
             (after_request (Example.says "um texto")
                (operator_request redator EmptyString "key"))
             eq_refl eq_refl).
  reflexivity.
Defined.

Lemma published_ids_resolve_witness :
  ~ unresolved editor_in_chief to_redator.
Proof.
  destruct (@published_ids_resolve editor_in_chief
              (Supervisor.agent_info {| obj_id := 4242; obj := AnOperator redator |})
              to_redator (or_introl eq_refl) eq_refl)
    as [agent [_ [_ Hresolved]]].
  exact Hresolved.
Defined.

(** ** Further properties: the supervisor's loop *)

Section MoreLoop.
Context `{rt : Runtime}.
Variables (self : SupervisorObj) (endpoint : string) (headers : list (string * string)).

(** A pass over a response without tool calls and delegations does
    nothing but count itself and clear [needs_more_processing]. *)
Lemma loop_body_quiet (st : LoopState) (w : World) :
  r_tool_calls (result st) = None ->
  r_agent_delegations (result st) = None ->
  Supervisor.loop_body self endpoint headers st w
  = (Ok {| payload := payload st; result := result st;
           needs_more_processing := false;
           current_iteration := S (current_iteration st) |}, w).
Proof.
  intros Ht Hd. unfold Supervisor.loop_body, bind, Supervisor.process_tool_calls.
  cbn [result]. rewrite Ht. cbn [ret].
  unfold Supervisor.process_delegations. cbn [result]. rewrite Hd. reflexivity.
Qed.

(** After a pass that leaves [needs_more_processing] clear, the response
    at hand asks for nothing. *)
Lemma loop_body_idle (st st' : LoopState) (w w' : World) :
  Supervisor.loop_body self endpoint headers st w = (Ok st', w') ->
  needs_more_processing st' = false ->
  r_tool_calls (result st') = None /\ r_agent_delegations (result st') = None.
Proof.
  unfold Supervisor.loop_body, bind.
  set (st0 := {| payload := payload st; result := result st;
                 needs_more_processing := false;
                 current_iteration := S (current_iteration st) |}).
  destruct (r_tool_calls (result st0)) as [tcs |] eqn:Ht.
  - rewrite (process_tool_calls_run self endpoint headers st0 w Ht).
    set (w1 := after_request w _).
    destruct (backend w _) as [r1 | e]; [| discriminate].
    set (st1 := {| payload := _; result := r1; needs_more_processing := true;
                   current_iteration := _ |}).
    destruct (r_agent_delegations (result st1)) as [ds |] eqn:Hd.
    + destruct (process_delegations_run self endpoint headers st1 w1 Hd) as [drs [_ Hrun]].
      cbv zeta in Hrun. rewrite Hrun.
      destruct (backend _ _); [| discriminate].
      intros H Hneeds. injection H as H _. subst st'. discriminate.
    + unfold Supervisor.process_delegations. rewrite Hd.
      intros H Hneeds. injection H as H _. subst st'. discriminate.
  - unfold Supervisor.process_tool_calls at 1. rewrite Ht. cbn [ret].
    destruct (r_agent_delegations (result st0)) as [ds |] eqn:Hd.
    + destruct (process_delegations_run self endpoint headers st0 w Hd) as [drs [_ Hrun]].
      cbv zeta in Hrun. rewrite Hrun.
      destruct (backend _ _); [| discriminate].
      intros H Hneeds. injection H as H _. subst st'. discriminate.
    + unfold Supervisor.process_delegations. rewrite Hd.
      intros H _. injection H as H _. subst st'. split; assumption.
Qed.

(** When the loop stops, either the response at hand asks for nothing
    or [max_iterations] passes are done. *)
Lemma while_loop_stops (fuel : nat) (st st' : LoopState) (w w' : World) :
  Supervisor.while_loop fuel self endpoint headers st w = (Ok st', w') ->
  (Supervisor.max_iterations - current_iteration st <= fuel)%nat ->
  (needs_more_processing st = false ->
   r_tool_calls (result st) = None /\ r_agent_delegations (result st) = None) ->
  (r_tool_calls (result st') = None /\ r_agent_delegations (result st') = None)
  \/ (Supervisor.max_iterations <= current_iteration st')%nat.
Proof.
  revert st w. induction fuel as [| fuel IH]; intros st w Hrun Hfuel Hidle.
  - rewrite while_loop_at_cap in Hrun by lia.
    injection Hrun as Hst _. subst st'. right. lia.
  - simpl in Hrun.
    destruct (needs_more_processing st) eqn:Hneeds; simpl in Hrun.
    + destruct (current_iteration st <? Supervisor.max_iterations)%nat eqn:Hlt.
      * unfold bind in Hrun.
        destruct (Supervisor.loop_body self endpoint headers st w)
          as [[st1 | e] w1] eqn:Hbody; [| discriminate].
        pose proof (loop_body_keeps _ _ _ _ _ Hbody) as [Hi _].
        apply (IH st1 w1 Hrun); [lia |].
        intros Hn. apply (loop_body_idle _ _ Hbody Hn).
      * injection Hrun as Hst _. subst st'. right.
        apply Nat.ltb_ge in Hlt. exact Hlt.
    + injection Hrun as Hst _. subst st'. left. apply Hidle. reflexivity.
Qed.

End MoreLoop.

(** X14: with a key configured, when the first response holds neither a
    tool-call list nor a delegation list, [Supervisor._call_orion_api]
    returns it after that single round-trip. *)
Theorem quiet_response_ends_the_run `{rt : Runtime} (self : SupervisorObj)
    (prompt : string) (tools : list ToolInfo) (agents : list AgentInfo)
    (schema : option Schema) (key : string) (w : World) (r0 : Response) :
  configured_key w = key ->
  key <> EmptyString ->
  let rq0 := supervisor_request self prompt tools agents schema key in
  backend w (rq0 :: sent w) = Ok r0 ->
  r_tool_calls r0 = None ->
  r_agent_delegations r0 = None ->
  Supervisor._call_orion_api self prompt tools agents schema w
  = (Ok r0, after_request w rq0).
Proof.
  intros Hkey Hne rq0 Hr0 Ht Hd.
  unfold Supervisor._call_orion_api, bind.
  rewrite (get_orion_key_configured w Hkey Hne).
  unfold Supervisor.orchestrate, bind.
  change (post_json (sv_base_url self ++ "/api/agents/run")
            (Supervisor.initial_payload prompt tools agents schema)
            (api_headers key) w)
    with (backend w (rq0 :: sent w), after_request w rq0).
  rewrite Hr0.
  change Supervisor.max_iterations with 10%nat.
  cbn [Supervisor.while_loop needs_more_processing current_iteration andb].
  change (0 <? Supervisor.max_iterations)%nat with true. cbv iota.
  unfold bind. rewrite loop_body_quiet by assumption.
  cbn [Supervisor.while_loop needs_more_processing andb]. reflexivity.
Qed.

(** X15: the loop gives up on a response that still asks for tool calls
    or delegations only when [max_iterations] passes are done: if the
    final response holds one of the two lists, the pass counter stands
    at 10. *)
Theorem pending_work_only_at_cap `{rt : Runtime} (self : SupervisorObj)
    (endpoint : string) (headers : list (string * string)) (payload0 : Payload)
    (w w' : World) (final : LoopState) :
  Supervisor.orchestrate self endpoint headers payload0 w = (Ok final, w') ->
  asks_for_more (result final) ->
  current_iteration final = Supervisor.max_iterations.
Proof.
  unfold Supervisor.orchestrate, bind.
  destruct (post_json endpoint payload0 headers w) as [[r0 | e] w1]; [| discriminate].
  intros Hloop Hmore.
  pose proof (while_loop_keeps _ _ _ _ _ _ Hloop) as [Hle _].
  destruct (while_loop_stops _ _ _ _ _ Hloop) as [[Ht Hd] | Hcap].
  - cbn [current_iteration]. lia.
  - cbn [needs_more_processing]. discriminate.
  - destruct Hmore as [Hm | Hm]; contradiction.
  - cbn [current_iteration] in Hle. lia.
Qed.

(** X16: in a pass over a response that holds a tool-call list, nothing
    else of that response is looked at: two loop states with the same
    payload, pass counter and tool calls go through the same pass, so a
    delegation list that came beside the tool calls has no effect. *)
Theorem only_tool_calls_count `{rt : Runtime} (self : SupervisorObj)
    (endpoint : string) (headers : list (string * string)) (st1 st2 : LoopState)
    (w : World) :
  payload st1 = payload st2 ->
  current_iteration st1 = current_iteration st2 ->
  r_tool_calls (result st1) = r_tool_calls (result st2) ->
  r_tool_calls (result st1) <> None ->
  Supervisor.loop_body self endpoint headers st1 w
  = Supervisor.loop_body self endpoint headers st2 w.
Proof.
  intros Hp Hi Ht Hsome.
  destruct (r_tool_calls (result st1)) as [tcs |] eqn:H1; [| contradiction].
  symmetry in Ht. unfold Supervisor.loop_body, bind.
  rewrite (process_tool_calls_run self endpoint headers
             {| payload := payload st1; result := result st1;
                needs_more_processing := false;
                current_iteration := S (current_iteration st1) |} w H1).
  rewrite (process_tool_calls_run self endpoint headers
             {| payload := payload st2; result := result st2;
                needs_more_processing := false;
                current_iteration := S (current_iteration st2) |} w Ht).
  cbn [payload current_iteration]. rewrite Hp, Hi. reflexivity.
Qed.

(** X17: the tool block of a pass sends one request that carries one
    entry per tool call of the list, in the order of the list, each with
    the id of its call and the value its execution returned (error values
    included); it does so for an empty list too, and sets
    [needs_more_processing]. *)
Theorem tool_results_follow_the_calls `{rt : Runtime} (self : SupervisorObj)
    (endpoint : string) (headers : list (string * string)) (st : LoopState)
    (w : World) (tcs : list ToolCall) :
  r_tool_calls (result st) = Some tcs ->
  exists results,
    sent (snd (Supervisor.process_tool_calls self endpoint headers st w))
    = request endpoint (set_tool_results (payload st) results) headers :: sent w
    /\ Forall2 (fun tc tr =>
                  tr_tool_call_id tr = tc_id tc
                  /\ Supervisor._execute_tool_call self tc = Ok (tr_result tr))
               tcs results
    /\ (forall st' w',
          Supervisor.process_tool_calls self endpoint headers st w = (Ok st', w') ->
          needs_more_processing st' = true
          /\ payload st' = set_tool_results (payload st) results).
Proof.
  intros Htcs. exists (tool_results_of self tcs).
  rewrite (process_tool_calls_run self endpoint headers st w Htcs).
  split; [reflexivity |]. split.
  - unfold tool_results_of. clear Htcs. induction tcs as [| tc tcs IH]; constructor.
    + split; [reflexivity |]. simpl.
      unfold Supervisor._execute_tool_call. apply tool_call_returns.
    + exact IH.
  - intros st' w' H. destruct (backend w _); [| discriminate].
    injection H as H _. subst st'. split; reflexivity.
Qed.

Lemma quiet_response_ends_the_run_witness :
  let run := Supervisor._call_orion_api (rt := Demo.runtime)
               Example.coordinator "p" [] [] None (Example.says "done") in
  fst run = Ok (Example.plain "done") /\ List.length (sent (snd run)) = 1%nat.
Proof.
  cbv zeta.
  rewrite (@quiet_response_ends_the_run Demo.runtime Example.coordinator "p" [] [] None
             "key" (Example.says "done") (Example.plain "done")
             eq_refl ltac:(discriminate) eq_refl eq_refl eq_refl).
  split; reflexivity.
Defined.

Lemma pending_work_only_at_cap_witness :
  exists final w',
    Supervisor.orchestrate (rt := Demo.runtime) Example.coordinator "e" []
      (Supervisor.initial_payload "p" [] [] None) Example.insatiable = (Ok final, w')
    /\ asks_for_more (result final)
    /\ current_iteration final = 10%nat.
Proof.
  set (run := Supervisor.orchestrate (rt := Demo.runtime) Example.coordinator "e" []
                (Supervisor.initial_payload "p" [] [] None) Example.insatiable).
  set (final := match fst run with Ok st => st | Raise _ => Example.first_state end).
  assert (Hrun : run = (Ok final, snd run)) by (vm_compute; reflexivity).
  assert (Hmore : asks_for_more (result final)) by (left; vm_compute; discriminate).
  exists final, (snd run). split; [exact Hrun |]. split; [exact Hmore |].
  apply (@pending_work_only_at_cap Demo.runtime Example.coordinator "e" []
           (Supervisor.initial_payload "p" [] [] None) Example.insatiable (snd run)
           final Hrun Hmore).
Defined.

Lemma only_tool_calls_count_witness :
  Supervisor.loop_body (rt := Demo.runtime) Example.coordinator "e" []
    Example.first_state Example.insatiable
  = Supervisor.loop_body (rt := Demo.runtime) Example.coordinator "e" []
      {| payload := payload Example.first_state;
         result := {| r_content := None;
                      r_tool_calls := r_tool_calls (Example.both_lists 1);
                      r_agent_delegations := None |};
         needs_more_processing := false;
         current_iteration := 0 |}
      Example.insatiable.
Proof.
  apply (@only_tool_calls_count Demo.runtime Example.coordinator "e" []
           Example.first_state _ Example.insatiable eq_refl eq_refl eq_refl).
  discriminate.
Defined.

Lemma tool_results_follow_the_calls_witness :
  exists results,
    sent (snd (Supervisor.process_tool_calls (rt := Demo.runtime) Example.coordinator
                 "e" [] Example.first_state Example.insatiable))
    = [request "e" (set_tool_results (payload Example.first_state) results) []]
    /\ List.length results = 1%nat.
Proof.
  destruct (@tool_results_follow_the_calls Demo.runtime Example.coordinator "e" []
              Example.first_state Example.insatiable _ eq_refl)
    as [results [Hsent [Hall _]]].
  exists results. split; [exact Hsent |].
  apply Forall2_length in Hall. simpl in Hall. symmetry. exact Hall.
Defined.

(** ** Further properties: what the requests of a run have in common *)

Lemma sends_only_ret {A} (P : Request -> Prop) (a : A) : sends_only P (ret a).
Proof. intros w. exists []. split; [reflexivity | constructor]. Qed.

Lemma sends_only_raise {A} (P : Request -> Prop) (e : exn) : sends_only P (@raise A e).
Proof. intros w. exists []. split; [reflexivity | constructor]. Qed.

Lemma sends_only_lift {A} (P : Request -> Prop) (o : outcome A) : sends_only P (lift o).
Proof. intros w. exists []. split; [reflexivity | constructor]. Qed.

Lemma sends_only_bind {A B} (P : Request -> Prop) (c : M A) (k : A -> M B) :
  sends_only P c -> (forall a, sends_only P (k a)) -> sends_only P (bind c k).
Proof.
  intros Hc Hk w. unfold bind. destruct (Hc w) as [m1 [H1 HP1]].
  destruct (c w) as [[a | e] w1]; simpl in H1.
  - destruct (Hk a w1) as [m2 [H2 HP2]]. exists (m2 ++ m1)%list.
    split; [rewrite H2, H1; apply app_assoc | apply Forall_app; split; assumption].
  - exists m1. split; assumption.
Qed.

Lemma sends_only_try_except {A} (P : Request -> Prop) (c : M A) (handler : exn -> M A) :
  sends_only P c -> (forall e, sends_only P (handler e)) ->
  sends_only P (try_except c handler).
Proof.
  intros Hc Hh w. unfold try_except. destruct (Hc w) as [m1 [H1 HP1]].
  destruct (c w) as [[a | e] w1]; simpl in H1.
  - exists m1. split; assumption.
  - destruct (Hh e w1) as [m2 [H2 HP2]]. exists (m2 ++ m1)%list.
    split; [rewrite H2, H1; apply app_assoc | apply Forall_app; split; assumption].
Qed.

Lemma sends_only_for_each {A B} (P : Request -> Prop) (f : B -> A -> M B) (xs : list A) :
  (forall acc x, sends_only P (f acc x)) -> forall acc, sends_only P (for_each f xs acc).
Proof.
  intros Hf. induction xs as [| x xs IH]; intros acc; simpl.
  - apply sends_only_ret.
  - apply sends_only_bind; [apply Hf | exact IH].
Qed.

Lemma sends_only_weaken {A} (P Q : Request -> Prop) (c : M A) :
  (forall rq, P rq -> Q rq) -> sends_only P c -> sends_only Q c.
Proof.
  intros HPQ Hc w. destruct (Hc w) as [m [H HP]]. exists m.
  split; [exact H | eapply List.Forall_impl; [exact HPQ | exact HP]].
Qed.

Lemma sends_only_get_orion_key (P : Request -> Prop) : sends_only P get_orion_key.
Proof.
  intros w. exists []. split; [| constructor].
  unfold get_orion_key. destruct (str_or _ _); reflexivity.
Qed.

Lemma sends_only_post_json (P : Request -> Prop) (endpoint : string) (p : Payload)
    (headers : list (string * string)) :
  P (request endpoint p headers) -> sends_only P (post_json endpoint p headers).
Proof.
  intros HP w. exists [request endpoint p headers].
  split; [reflexivity | constructor; [exact HP | constructor]].
Qed.

Section Envelope.
Context `{rt : Runtime}.

(** The supervised agents send requests of their own kind only. *)
Lemma agents_send_their_own (agent : AgentRef) (input_text : string) :
  sends_only (fun rq => is_supervisor_request rq = false)
             (Supervisor.agent_run agent input_text).
Proof.
  unfold Supervisor.agent_run. destruct (obj agent) as [o | a].
  - apply sends_only_bind; [| intros; apply sends_only_ret].
    unfold Operator.run. apply sends_only_bind; [| intros; apply sends_only_ret].
    unfold Operator._call_orion_api.
    apply sends_only_bind; [apply sends_only_get_orion_key |].
    intros key. apply sends_only_post_json. reflexivity.
  - unfold Analyst.run. apply sends_only_bind.
    + unfold Analyst._call_orion_api.
      apply sends_only_bind; [apply sends_only_get_orion_key |]. intros key.
      apply sends_only_bind.
      * apply sends_only_post_json. unfold is_supervisor_request. cbn [rq_json request].
        apply analyst_payload_type. reflexivity.
      * intros r. destruct (r_tool_calls r) as [tcs |]; [| apply sends_only_ret].
        apply sends_only_for_each. intros acc tc.
        apply sends_only_bind; [apply sends_only_lift |].
        intros v. apply sends_only_post_json.
        destruct (option_map fields_schema (an_output_type a)) as [[| f fs] |];
          reflexivity.
    + intros response. destruct (an_output_type a) as [m |]; [| apply sends_only_ret].
      apply sends_only_try_except.
      * apply sends_only_bind; [apply sends_only_lift | intros; apply sends_only_ret].
      * intros e. destruct (an_require_output_type a);
          [apply sends_only_raise | apply sends_only_ret].
Qed.

Lemma delegations_send_their_own (self : SupervisorObj) (ds : list Delegation)
    (acc : list DelegationResult) :
  sends_only (fun rq => is_supervisor_request rq = false) (run_delegations self ds acc).
Proof.
  unfold run_delegations. apply sends_only_for_each. intros acc' d.
  apply sends_only_bind; [| intros; apply sends_only_ret].
  unfold Supervisor._execute_agent_delegation.
  destruct (find _ _) as [agent |]; [| apply sends_only_ret].
  apply sends_only_try_except; [| intros; apply sends_only_ret].
  apply sends_only_bind; [apply agents_send_their_own |].
  intros [r | i]; [apply sends_only_ret | apply sends_only_lift].
Qed.

Variables (self : SupervisorObj) (endpoint : string) (headers : list (string * string))
          (payload0 : Payload).

Lemma own_request_in_the_run (p : Payload) :
  envelope p = envelope payload0 ->
  in_the_run endpoint headers payload0 (request endpoint p headers).
Proof. intros Hp. right. repeat split. exact Hp. Qed.

Lemma loop_body_envelope (st : LoopState) (w : World) :
  envelope (payload st) = envelope payload0 ->
  (exists more,
     sent (snd (Supervisor.loop_body self endpoint headers st w)) = (more ++ sent w)%list
     /\ Forall (in_the_run endpoint headers payload0) more)
  /\ (forall st' w',
        Supervisor.loop_body self endpoint headers st w = (Ok st', w') ->
        envelope (payload st') = envelope payload0).
Proof.
  intros Henv. unfold Supervisor.loop_body, bind.
  set (st0 := {| payload := payload st; result := result st;
                 needs_more_processing := false;
                 current_iteration := S (current_iteration st) |}).
  assert (Hstep : forall st1 w1,
            envelope (payload st1) = envelope payload0 ->
            (exists more,
               sent (snd (Supervisor.process_delegations self endpoint headers st1 w1))
               = (more ++ sent w1)%list
               /\ Forall (in_the_run endpoint headers payload0) more)
            /\ (forall st' w',
                  Supervisor.process_delegations self endpoint headers st1 w1
                  = (Ok st', w') -> envelope (payload st') = envelope payload0)).
  { intros st1 w1 H1.
    destruct (r_agent_delegations (result st1)) as [ds |] eqn:Hd.
    - destruct (process_delegations_run self endpoint headers st1 w1 Hd)
        as [drs [_ Hrun]]. cbv zeta in Hrun. rewrite Hrun.
      destruct (delegations_send_their_own self ds [] w1) as [m [Hm HP]].
      split.
      + exists (request endpoint (set_delegation_results (payload st1) drs) headers :: m).
        split; [cbn [snd sent after_request]; rewrite Hm; reflexivity |].
        constructor.
        * apply own_request_in_the_run. exact H1.
        * eapply List.Forall_impl; [| exact HP]. intros rq Hrq. left. exact Hrq.
      + intros st' w'. destruct (backend _ _); [| discriminate].
        intros H. injection H as H _. subst st'. exact H1.
    - unfold Supervisor.process_delegations. rewrite Hd. split.
      + exists []. split; [reflexivity | constructor].
      + intros st' w' H. injection H as H _. subst st'. exact H1. }
  destruct (r_tool_calls (result st0)) as [tcs |] eqn:Ht.
  - rewrite (process_tool_calls_run self endpoint headers st0 w Ht).
    set (p1 := set_tool_results (payload st0) (tool_results_of self tcs)).
    set (w1 := after_request w (request endpoint p1 headers)).
    assert (Hp1 : envelope p1 = envelope payload0) by exact Henv.
    destruct (backend w _) as [r1 | e].
    + set (st1 := {| payload := p1; result := r1; needs_more_processing := true;
                     current_iteration := current_iteration st0 |}).
      destruct (Hstep st1 w1 Hp1) as [[m [Hm HP]] Hkeep].
      split; [| exact Hkeep].
      exists (m ++ [request endpoint p1 headers])%list. split.
      * rewrite Hm, <- app_assoc. reflexivity.
      * apply Forall_app. split; [exact HP |].
        constructor; [apply own_request_in_the_run; exact Hp1 | constructor].
    + split; [| intros st' w' H; discriminate].
      exists [request endpoint p1 headers]. split; [reflexivity |].
      constructor; [apply own_request_in_the_run; exact Hp1 | constructor].
  - unfold Supervisor.process_tool_calls. rewrite Ht. cbn [ret].
    apply (Hstep st0 w). exact Henv.
Qed.

Lemma while_loop_envelope (fuel : nat) (st : LoopState) (w : World) :
  envelope (payload st) = envelope payload0 ->
  exists more,
    sent (snd (Supervisor.while_loop fuel self endpoint headers st w))
    = (more ++ sent w)%list
    /\ Forall (in_the_run endpoint headers payload0) more.
Proof.
  revert st w. induction fuel as [| fuel IH]; intros st w Henv; simpl.
  - destruct (_ && _); exists []; split; try reflexivity; constructor.
  - destruct (_ && _); [| exists []; split; [reflexivity | constructor]].
    unfold bind.
    destruct (loop_body_envelope st w Henv) as [[m1 [H1 HP1]] Hkeep].
    destruct (Supervisor.loop_body self endpoint headers st w) as [[st' | e] w'] eqn:Hb.
    + destruct (IH st' w' (Hkeep st' w' eq_refl)) as [m2 [H2 HP2]].
      exists (m2 ++ m1)%list. simpl in H1.
      split; [rewrite H2, H1; apply app_assoc | apply Forall_app; split; assumption].
    + exists m1. split; assumption.
Qed.

End Envelope.

(** X18: every request sent during a run of [Supervisor._call_orion_api]
    is either a request of a supervised agent (its [agent_type] is not
    ["supervisor"]) or goes to [<base_url>/api/agents/run] with the
    bearer key read at the start and the prompt, [max_tokens],
    [agent_type], tools, supervised agents and output schema of the first
    request: the loop changes nothing but the two result lists. *)
Theorem requests_keep_the_envelope `{rt : Runtime} (self : SupervisorObj)
    (prompt : string) (tools : list ToolInfo) (agents : list AgentInfo)
    (schema : option Schema) (w : World) :
  let rq0 := supervisor_request self prompt tools agents schema (configured_key w) in
  exists more,
    sent (snd (Supervisor._call_orion_api self prompt tools agents schema w))
    = (more ++ sent w)%list
    /\ Forall (fun rq => is_supervisor_request rq = false \/ same_envelope rq0 rq) more.
Proof.
  cbv zeta. unfold Supervisor._call_orion_api, bind.
  destruct (configured_key w) as [| c k] eqn:Hkey.
  - rewrite (get_orion_key_missing w Hkey).
    exists []. split; [reflexivity | constructor].
  - rewrite (get_orion_key_configured w Hkey) by discriminate.
    unfold Supervisor.orchestrate, bind.
    set (endpoint := sv_base_url self ++ "/api/agents/run").
    set (payload0 := Supervisor.initial_payload prompt tools agents schema).
    set (headers := api_headers (String c k)).
    change (post_json endpoint payload0 headers w)
      with (backend w (request endpoint payload0 headers :: sent w),
            after_request w (request endpoint payload0 headers)).
    destruct (backend w _) as [r0 | e].
    + destruct (@while_loop_envelope rt self endpoint headers payload0
                  Supervisor.max_iterations
                  {| payload := payload0; result := r0; needs_more_processing := true;
                     current_iteration := 0 |}
                  (after_request w (request endpoint payload0 headers)) eq_refl)
        as [m [Hm HP]].
      exists (m ++ [request endpoint payload0 headers])%list. split.
      * destruct (Supervisor.while_loop _ _ _ _ _ _) as [[final | e] w'];
          simpl in Hm |- *; rewrite Hm, <- app_assoc; reflexivity.
      * apply Forall_app. split; [exact HP |].
        constructor; [right; repeat split | constructor].
    + exists [request endpoint payload0 headers]. split; [reflexivity |].
      constructor; [right; repeat split | constructor].
Qed.

(** ** Further properties: the tool registry and the constructors *)

Section Registry.
Context `{rt : Runtime}.

(** The decorator [tool] returns the function it was given and
    registers it under the given name, or under the name of the function
    when none (or an empty one) is given, replacing what was registered
    under that name; the description defaults to the stripped docstring;
    no other entry of the registry changes, and nothing is sent. *)
Lemma tool_registers (func : Callable) (name description : option string) (w : World) :
  let run := tool func name description w in
  let key := str_or name (fn_name func) in
  fst run = Ok func
  /\ (exists entry,
        REGISTERED_TOOLS (snd run) !! key = Some entry
        /\ te_function entry = func
        /\ te_name entry = key
        /\ te_description entry
           = str_or description (str_strip (str_or (fn_doc func) EmptyString)))
  /\ (forall k, k <> key -> REGISTERED_TOOLS (snd run) !! k = REGISTERED_TOOLS w !! k)
  /\ backend (snd run) = backend w
  /\ sent (snd run) = sent w.
Proof.
  cbv zeta. unfold tool. cbn [fst snd set_registry REGISTERED_TOOLS backend sent].
  split; [reflexivity |]. split; [| split; [| split; reflexivity]].
  - eexists. split; [apply lookup_insert_eq |]. repeat split.
  - intros k Hk. apply lookup_insert_ne. congruence.
Qed.

Lemma registry_grows_refl (w : World) : registry_grows w w.
Proof. repeat split; auto. Qed.

Lemma registry_grows_trans (w w1 w2 : World) :
  registry_grows w w1 -> registry_grows w1 w2 -> registry_grows w w2.
Proof.
  intros [H1 [Hb1 [Hs1 [Hk1 He1]]]] [H2 [Hb2 [Hs2 [Hk2 He2]]]].
  repeat split; try congruence. intros k e Hk. apply H2, H1, Hk.
Qed.

(** One round of the constructors' loop over [tools]. *)
Lemma resolve_tool_run (acc : list ToolEntry) (f : Callable) (w : World) :
  exists entry w',
    resolve_tool acc f w = (Ok (acc ++ [entry])%list, w')
    /\ REGISTERED_TOOLS w' !! fn_name f = Some entry
    /\ registry_grows w w'
    /\ (REGISTERED_TOOLS w !! fn_name f <> None -> w' = w).
Proof.
  unfold resolve_tool, bind, registry_lookup.
  destruct (REGISTERED_TOOLS w !! fn_name f) as [entry |] eqn:Hfound.
  - exists entry, w. split; [reflexivity |]. split; [exact Hfound |].
    split; [apply registry_grows_refl | reflexivity].
  - unfold tool. cbn [str_or fn_name REGISTERED_TOOLS set_registry fst snd].
    rewrite lookup_insert_eq.
    eexists _, _. split; [reflexivity |]. split; [apply lookup_insert_eq |].
    split; [| intros H; contradiction].
    repeat split. intros k e Hk. cbn [REGISTERED_TOOLS set_registry].
    rewrite lookup_insert_ne; [exact Hk | congruence].
Qed.

(** The whole loop: one entry per function, the one the registry holds
    under the name of the function once the loop is over. *)
Lemma resolve_tools_run (tools : list Callable) (acc : list ToolEntry) (w : World) :
  exists entries w',
    for_each resolve_tool tools acc w = (Ok (acc ++ entries)%list, w')
    /\ Forall2 (fun f e => REGISTERED_TOOLS w' !! fn_name f = Some e) tools entries
    /\ registry_grows w w'
    /\ (Forall (fun f => REGISTERED_TOOLS w !! fn_name f <> None) tools -> w' = w).
Proof.
  revert acc w. induction tools as [| f tools IH]; intros acc w.
  - exists [], w. split; [simpl; rewrite app_nil_r; reflexivity |].
    split; [constructor |]. split; [apply registry_grows_refl | reflexivity].
  - destruct (resolve_tool_run acc f w) as [entry [w1 [Hrun [Hentry [Hgrow Hsame]]]]].
    destruct (IH (acc ++ [entry])%list w1) as [entries [w' [Hrest [Hall [Hgrow' Hsame']]]]].
    exists (entry :: entries), w'. split.
    + cbn [for_each]. unfold bind. rewrite Hrun, Hrest, <- app_assoc. reflexivity.
    + split; [| split].
      * constructor; [| exact Hall]. apply (proj1 Hgrow'). exact Hentry.
      * eapply registry_grows_trans; eassumption.
      * intros Hreg. inversion Hreg as [| f' l Hf Hl]; subst.
        rewrite (Hsame Hf) in *. apply Hsame'. exact Hl.
Qed.

(** The constructors' loop over functions that are all registered: the
    decorator is not called. *)
Lemma resolve_registered_tools (tools : list Callable) (acc : list ToolEntry)
    (w : World) :
  Forall (fun f => REGISTERED_TOOLS w !! fn_name f <> None) tools ->
  exists entries,
    for_each resolve_tool tools acc w = (Ok (acc ++ entries)%list, w)
    /\ Forall2 (fun f e => REGISTERED_TOOLS w !! fn_name f = Some e) tools entries.
Proof.
  revert acc. induction tools as [| f tools IH]; intros acc Hreg.
  - exists []. split; [simpl; rewrite app_nil_r; reflexivity | constructor].
  - inversion Hreg as [| f' l Hf Hl]; subst.
    destruct (REGISTERED_TOOLS w !! fn_name f) as [entry |] eqn:Hfound;
      [| contradiction].
    destruct (IH (acc ++ [entry])%list Hl) as [entries [Hrun Hall]].
    exists (entry :: entries). split; [| constructor; assumption].
    assert (Hstep : resolve_tool acc f w = (Ok (acc ++ [entry])%list, w))
      by (unfold resolve_tool, bind, registry_lookup; rewrite Hfound; reflexivity).
    cbn [for_each]. unfold bind at 1. rewrite Hstep, Hrun, <- app_assoc. reflexivity.
Qed.

(** X19: the constructor of an analyst or a supervisor raises the
    [ValueError] on the output type when [require_output_type] is set
    and no output type is given, whatever the tools, before any of them
    is looked at: nothing is registered.  Otherwise, when every function
    given is registered already, so that none has to be decorated, it
    returns, leaving the world as it was.  An agent it returns has the
    given name, instructions, output type and flag, and the default base
    URL. *)
Theorem constructor_checks_output_type (name instructions : string)
    (output_type : option ModelType) (tools : list Callable)
    (require_output_type : bool) (agents : list AgentRef) (w : World) :
  let unconfigured := require_output_type && is_none output_type in
  let failure :=
    ValueError "output_type é obrigatório quando require_output_type=True" in
  let analyst :=
    Analyst.__init__ name instructions output_type tools require_output_type w in
  let supervisor :=
    Supervisor.__init__ name instructions agents output_type tools
      require_output_type w in
  (unconfigured = true ->
   analyst = (Raise failure, w) /\ supervisor = (Raise failure, w))
  /\ (unconfigured = false ->
      Forall (fun f => REGISTERED_TOOLS w !! fn_name f <> None) tools ->
      exists a s,
        analyst = (Ok a, w) /\ supervisor = (Ok s, w)
        /\ List.length (an_tools a) = List.length tools
        /\ sv_tools s = an_tools a)
  /\ (forall a, fst analyst = Ok a ->
        unconfigured = false
        /\ an_name a = name /\ an_instructions a = instructions
        /\ an_output_type a = output_type
        /\ an_require_output_type a = require_output_type
        /\ an_base_url a = default_base_url)
  /\ (forall s, fst supervisor = Ok s ->
        unconfigured = false
        /\ sv_name s = name /\ sv_instructions s = instructions
        /\ sv_supervised_agents s = agents
        /\ sv_output_type s = output_type
        /\ sv_require_output_type s = require_output_type
        /\ sv_base_url s = default_base_url).
Proof.
  cbv zeta. unfold Analyst.__init__, Supervisor.__init__.
  destruct (require_output_type && is_none output_type).
  - split; [intros _; split; reflexivity |].
    split; [discriminate |]. split; intros x H; discriminate.
  - split; [discriminate |]. split; [| split].
    + intros _ Hreg.
      destruct (resolve_registered_tools [] w Hreg) as [entries [Hrun Hall]].
      simpl app in Hrun. apply Forall2_length in Hall.
      unfold bind. rewrite Hrun. cbn [ret].
      eexists _, _. split; [reflexivity |]. split; [reflexivity |].
      split; [cbn [an_tools]; congruence | reflexivity].
    + intros a. unfold bind.
      destruct (for_each resolve_tool tools [] w) as [[entries | e] w'];
        cbn [ret fst]; [| discriminate].
      intros H. injection H as H. subst a. repeat split.
    + intros s. unfold bind.
      destruct (for_each resolve_tool tools [] w) as [[entries | e] w'];
        cbn [ret fst]; [| discriminate].
      intros H. injection H as H. subst s. repeat split.
Qed.

(** X20: the tools of a constructed analyst or supervisor are, in the
    order of the functions given, the entries the registry holds under
    the names of those functions; construction registers the functions
    that were missing and overwrites nothing that was registered (a
    function whose name is taken gets the entry that has the name), sends
    nothing, and leaves the world as it was when every name was
    registered already. *)
Theorem constructor_takes_registry_entries (name instructions : string)
    (output_type : option ModelType) (tools : list Callable)
    (require_output_type : bool) (agents : list AgentRef) (w : World) :
  (forall self w',
     Analyst.__init__ name instructions output_type tools require_output_type w
     = (Ok self, w') ->
     Forall2 (fun f e => REGISTERED_TOOLS w' !! fn_name f = Some e) tools (an_tools self)
     /\ registry_grows w w'
     /\ (Forall (fun f => REGISTERED_TOOLS w !! fn_name f <> None) tools -> w' = w))
  /\ (forall self w',
        Supervisor.__init__ name instructions agents output_type tools
          require_output_type w = (Ok self, w') ->
        Forall2 (fun f e => REGISTERED_TOOLS w' !! fn_name f = Some e) tools (sv_tools self)
        /\ registry_grows w w'
        /\ (Forall (fun f => REGISTERED_TOOLS w !! fn_name f <> None) tools -> w' = w)).
Proof.
  destruct (resolve_tools_run tools [] w) as [entries [w1 [Hrun Hrest]]].
  simpl app in Hrun.
  split; intros self w';
    [unfold Analyst.__init__ | unfold Supervisor.__init__];
    (destruct (require_output_type && is_none output_type); [discriminate |]);
    unfold bind; rewrite Hrun; cbn [ret];
    intros H; injection H as Hself Hw; subst self w'; exact Hrest.
Qed.

End Registry.

Section Decorated.
Context `{rt : Runtime}.

(** The constructors' loop over a single function that has just been
    decorated. *)
Lemma resolve_after_tool (func : Callable) (name description : option string)
    (w : World) :
  let key := str_or name (fn_name func) in
  let w1 := snd (tool func name description w) in
  let loop := for_each resolve_tool [func] [] w1 in
  (key = fn_name func ->
   exists entry,
     loop = (Ok [entry], w1)
     /\ te_function entry = func
     /\ te_name entry = fn_name func
     /\ te_description entry
        = str_or description (str_strip (str_or (fn_doc func) EmptyString)))
  /\ (key <> fn_name func ->
      REGISTERED_TOOLS w !! fn_name func = None ->
      exists entry custom,
        fst loop = Ok [entry]
        /\ te_function entry = func
        /\ te_name entry = fn_name func
        /\ te_description entry = str_strip (str_or (fn_doc func) EmptyString)
        /\ REGISTERED_TOOLS (snd loop) !! fn_name func = Some entry
        /\ REGISTERED_TOOLS (snd loop) !! key = Some custom
        /\ te_name custom = key).
Proof.
  cbv zeta. split.
  - intros Hkey. cbn [for_each]. unfold bind, resolve_tool, bind, registry_lookup.
    unfold tool at 1. cbn [snd set_registry REGISTERED_TOOLS].
    rewrite Hkey, lookup_insert_eq. cbn [ret app].
    eexists. split; [unfold tool; cbn [snd]; rewrite Hkey; reflexivity |].
    repeat split.
  - intros Hkey Hfree. cbn [for_each]. unfold bind, resolve_tool, bind, registry_lookup.
    assert (Hfree1 : REGISTERED_TOOLS (snd (tool func name description w)) !! fn_name func
                     = None).
    { unfold tool. cbn [snd set_registry REGISTERED_TOOLS].
      rewrite lookup_insert_ne; [exact Hfree | exact Hkey]. }
    rewrite Hfree1.
    destruct (tool_registers func None None (snd (tool func name description w)))
      as [Hret [[entry [Hentry [Hf [Hn Hd]]]] [Hothers _]]].
    cbn [str_or] in Hentry, Hn, Hd, Hothers.
    destruct (tool func None None (snd (tool func name description w)))
      as [[decorated | e] w2] eqn:Htool; cbn [fst snd] in *; [| discriminate].
    injection Hret as Hret. subst decorated. rewrite Hentry. cbn [ret app fst snd].
    destruct (tool_registers func name description w)
      as [_ [[custom [Hcustom [_ [Hcn _]]]] _]].
    exists entry, custom. repeat split; try assumption.
    rewrite Hothers; [exact Hcustom | exact Hkey].
Qed.

(** X21: a function decorated under its own name and then given to the
    constructor of an analyst or a supervisor brings the entry the
    decorator made, and construction changes nothing.  A function
    decorated under another name is not found by the constructor, which
    registers it again under the name of the function, with its
    docstring as description: the tool of the agent does not carry the
    custom name, whose entry stays in the registry unused. *)
Theorem constructor_looks_up_the_function_name (func : Callable)
    (name description : option string) (w : World)
    (agent_name instructions : string) (output_type : option ModelType)
    (require_output_type : bool) (agents : list AgentRef) :
  require_output_type && is_none output_type = false ->
  let key := str_or name (fn_name func) in
  let w1 := snd (tool func name description w) in
  let analyst :=
    Analyst.__init__ agent_name instructions output_type [func] require_output_type w1 in
  let supervisor :=
    Supervisor.__init__ agent_name instructions agents output_type [func]
      require_output_type w1 in
  (key = fn_name func ->
   exists a s entry,
     analyst = (Ok a, w1) /\ supervisor = (Ok s, w1)
     /\ an_tools a = [entry] /\ sv_tools s = [entry]
     /\ te_function entry = func
     /\ te_name entry = fn_name func
     /\ te_description entry
        = str_or description (str_strip (str_or (fn_doc func) EmptyString)))
  /\ (key <> fn_name func ->
      REGISTERED_TOOLS w !! fn_name func = None ->
      exists a s entry custom,
        fst analyst = Ok a /\ fst supervisor = Ok s
        /\ an_tools a = [entry] /\ sv_tools s = [entry]
        /\ te_function entry = func
        /\ te_name entry = fn_name func
        /\ te_description entry = str_strip (str_or (fn_doc func) EmptyString)
        /\ REGISTERED_TOOLS (snd analyst) !! fn_name func = Some entry
        /\ REGISTERED_TOOLS (snd analyst) !! key = Some custom
        /\ te_name custom = key
        /\ snd supervisor = snd analyst).
Proof.
  intros Hconf. cbv zeta.
  destruct (resolve_after_tool func name description w) as [Hown Hother].
  cbv zeta in Hown, Hother.
  unfold Analyst.__init__, Supervisor.__init__. rewrite Hconf. unfold bind.
  split.
  - intros Hkey. destruct (Hown Hkey) as [entry [Hloop [Hf [Hn Hd]]]].
    rewrite Hloop. cbn [ret].
    eexists _, _, entry. repeat split; assumption.
  - intros Hkey Hfree.
    destruct (Hother Hkey Hfree) as [entry [custom [Hloop [Hf [Hn [Hd [He [Hc Hcn]]]]]]]].
    destruct (for_each resolve_tool [func] [] (snd (tool func name description w)))
      as [[entries | e] w2]; cbn [fst snd] in *; [| discriminate].
    injection Hloop as Hloop. subst entries. cbn [ret fst snd].
    eexists _, _, entry, custom. repeat split; assumption.
Qed.

End Decorated.

Lemma constructor_looks_up_the_function_name_witness :
  exists a entry,
    fst (Analyst.__init__ (rt := Demo.runtime) "a" "i" None [Example.get_price] false
           (snd (tool (rt := Demo.runtime) Example.get_price (Some "price") None
                   (Example.says "a"))))
    = Ok a
    /\ an_tools a = [entry]
    /\ te_name entry = "get_price".
Proof.
  destruct (@constructor_looks_up_the_function_name Demo.runtime Example.get_price
              (Some "price") None (Example.says "a") "a" "i" None false [] eq_refl)
    as [_ Hother].
  destruct (Hother ltac:(discriminate) ltac:(reflexivity))
    as [a [s [entry [custom [Ha [_ [Hta [_ [_ [Hn _]]]]]]]]]].
  exists a, entry. repeat split; assumption.
Defined.

(** ** Further properties: the extraction strategies *)

Lemma string_app_nil_l (b : string) : EmptyString ++ b = b.
Proof. reflexivity. Qed.

Lemma string_app_cons (x : ascii) (a b : string) : String x a ++ b = String x (a ++ b).
Proof. reflexivity. Qed.

Lemma string_length_app (a b : string) :
  String.length (a ++ b) = (String.length a + String.length b)%nat.
Proof.
  induction a as [| x a IH]; [reflexivity |].
  rewrite string_app_cons. cbn [String.length]. rewrite IH. reflexivity.
Qed.

(** Two ways of cutting the same text in two: the shorter first part is
    a prefix of the longer. *)
Lemma string_app_split (a b c d : string) :
  a ++ b = c ++ d ->
  (String.length a <= String.length c)%nat ->
  exists m, c = a ++ m /\ b = m ++ d.
Proof.
  revert c. induction a as [| x a IH]; intros c Heq Hlen.
  - exists c. split; [reflexivity | exact Heq].
  - destruct c as [| y c]; [cbn [String.length] in Hlen; lia |].
    rewrite !string_app_cons in Heq. injection Heq as Hxy Hrest.
    cbn [String.length] in Hlen.
    destruct (IH c Hrest ltac:(lia)) as [m [Hc Hb]].
    exists m. split; [rewrite string_app_cons; congruence | exact Hb].
Qed.

Lemma substring_prefix (t b : string) : substring 0 (String.length t) (t ++ b) = t.
Proof.
  induction t as [| x t IH].
  - destruct b; reflexivity.
  - rewrite string_app_cons. cbn [String.length substring]. rewrite IH. reflexivity.
Qed.

Lemma substring_middle (a t b : string) :
  substring (String.length a) (String.length t) (a ++ t ++ b) = t.
Proof.
  induction a as [| x a IH]; [exact (substring_prefix t b) |].
  rewrite string_app_cons. cbn [String.length substring]. exact IH.
Qed.

(** [find]: the index of the first occurrence. *)
Lemma str_find_app (c : ascii) (before rest : string) :
  str_contains c before = false ->
  str_find c (before ++ String c rest) = Z.of_nat (String.length before).
Proof.
  induction before as [| a before IH]; intros H.
  - rewrite string_app_nil_l. cbn [str_find]. rewrite Ascii.eqb_refl. reflexivity.
  - rewrite string_app_cons. cbn [str_contains] in H.
    apply orb_false_iff in H as [Ha Hb].
    cbn [str_find String.length]. rewrite Ha, (IH Hb).
    destruct (Z.of_nat (String.length before) <? 0)%Z eqn:E;
      [apply Z.ltb_lt in E |]; lia.
Qed.

Lemma str_find_bound (c : ascii) (a r : string) :
  (0 <= str_find c (a ++ String c r) <= Z.of_nat (String.length a))%Z.
Proof.
  induction a as [| x a IH].
  - rewrite string_app_nil_l. cbn [str_find String.length].
    rewrite Ascii.eqb_refl. lia.
  - rewrite string_app_cons. cbn [str_find String.length].
    destruct (Ascii.eqb x c); [lia |].
    destruct (str_find c (a ++ String c r) <? 0)%Z eqn:E;
      [apply Z.ltb_lt in E |]; lia.
Qed.

Lemma str_find_spec (c : ascii) (s : string) :
  (0 <= str_find c s)%Z ->
  exists before rest,
    s = before ++ String c rest
    /\ str_contains c before = false
    /\ str_find c s = Z.of_nat (String.length before).
Proof.
  induction s as [| a s IH]; cbn [str_find]; intros H; [lia |].
  destruct (Ascii.eqb a c) eqn:E.
  - apply Ascii.eqb_eq in E. subst a. exists EmptyString, s. repeat split.
  - destruct (str_find c s <? 0)%Z eqn:E2; [lia |]. apply Z.ltb_ge in E2.
    destruct (IH E2) as [b [r [Hs [Hb Hi]]]].
    exists (String a b), r. split; [rewrite string_app_cons, <- Hs; reflexivity |].
    split; [cbn [str_contains]; rewrite E, Hb; reflexivity |].
    cbn [String.length]. lia.
Qed.

(** [rfind]: the index of the last occurrence. *)
Lemma str_rfind_absent (c : ascii) (s : string) :
  str_contains c s = false -> str_rfind c s = (-1)%Z.
Proof.
  induction s as [| a s IH]; cbn [str_contains str_rfind]; intros H; [reflexivity |].
  apply orb_false_iff in H as [Ha Hs]. rewrite (IH Hs), Ha. reflexivity.
Qed.

Lemma str_rfind_none (c : ascii) (s : string) :
  (str_rfind c s < 0)%Z -> str_contains c s = false.
Proof.
  induction s as [| a s IH]; cbn [str_contains str_rfind]; intros H; [reflexivity |].
  destruct (0 <=? str_rfind c s)%Z eqn:E; [apply Z.leb_le in E; lia |].
  apply Z.leb_gt in E. destruct (Ascii.eqb a c); [lia |].
  rewrite (IH E). reflexivity.
Qed.

Lemma str_rfind_app (c : ascii) (front after : string) :
  str_contains c after = false ->
  str_rfind c (front ++ String c after) = Z.of_nat (String.length front).
Proof.
  intros H. induction front as [| a front IH].
  - rewrite string_app_nil_l. cbn [str_rfind].
    rewrite (str_rfind_absent c after H), Ascii.eqb_refl. reflexivity.
  - rewrite string_app_cons. cbn [str_rfind String.length]. rewrite IH.
    destruct (0 <=? Z.of_nat (String.length front))%Z eqn:E;
      [| apply Z.leb_gt in E]; lia.
Qed.

Lemma str_rfind_bound (c : ascii) (a r : string) :
  (Z.of_nat (String.length a) <= str_rfind c (a ++ String c r))%Z.
Proof.
  induction a as [| x a IH].
  - rewrite string_app_nil_l. cbn [str_rfind String.length].
    destruct (0 <=? str_rfind c r)%Z eqn:E; [apply Z.leb_le in E; lia |].
    rewrite Ascii.eqb_refl. lia.
  - rewrite string_app_cons. cbn [str_rfind String.length].
    destruct (0 <=? str_rfind c (a ++ String c r))%Z eqn:E;
      [| apply Z.leb_gt in E]; lia.
Qed.

Lemma str_rfind_spec (c : ascii) (s : string) :
  (0 <= str_rfind c s)%Z ->
  exists front after,
    s = front ++ String c after
    /\ str_contains c after = false
    /\ str_rfind c s = Z.of_nat (String.length front).
Proof.
  induction s as [| a s IH]; cbn [str_rfind]; intros H; [lia |].
  destruct (0 <=? str_rfind c s)%Z eqn:E.
  - apply Z.leb_le in E. destruct (IH E) as [f [r [Hs [Hr Hi]]]].
    exists (String a f), r. split; [rewrite string_app_cons, <- Hs; reflexivity |].
    split; [exact Hr |]. cbn [String.length]. lia.
  - apply Z.leb_gt in E. destruct (Ascii.eqb a c) eqn:Ea; [| lia].
    apply Ascii.eqb_eq in Ea. subst a. exists EmptyString, s.
    split; [reflexivity |]. split; [apply str_rfind_none; exact E | reflexivity].
Qed.

Section Strategies.
Context `{rt : Runtime}.

(** The guard of strategy 2 holds exactly for the texts with a '{'
    somewhere before a '}'. *)
Lemma strategy2_guard (text : string) :
  let start_idx := str_find "{"%char text in
  let end_idx := str_rfind "}"%char text in
  (0 <=? start_idx)%Z && (start_idx <? end_idx)%Z = true
  <-> exists before inner after,
        text = before ++ "{" ++ inner ++ "}" ++ after.
Proof.
  cbv zeta. split.
  - intros H. apply andb_true_iff in H as [H0 H1].
    apply Z.leb_le in H0. apply Z.ltb_lt in H1.
    destruct (str_find_spec "{"%char text H0) as [b [rest [Hb [_ Hi]]]].
    destruct (str_rfind_spec "}"%char text ltac:(lia)) as [f [a [Hf [_ Hj]]]].
    rewrite Hi, Hj in H1.
    destruct (@string_app_split b (String "{"%char rest) f (String "}"%char a)
                ltac:(congruence) ltac:(lia)) as [m [Hfm Hrest]].
    destruct m as [| x m].
    + subst f. rewrite string_length_app in H1. cbn [String.length] in H1. lia.
    + rewrite string_app_cons in Hrest. injection Hrest as Hx Hrest. subst x rest.
      exists b, m, a. exact Hb.
  - intros [b [inner [a Htext]]]. subst text.
    change (b ++ "{" ++ inner ++ "}" ++ a)
      with (b ++ String "{"%char (inner ++ String "}"%char a)).
    pose proof (str_find_bound "{"%char b (inner ++ String "}"%char a)) as Hfind.
    assert (Hassoc : b ++ String "{"%char (inner ++ String "}"%char a)
                     = (b ++ String "{"%char inner) ++ String "}"%char a)
      by (rewrite string_app_assoc; reflexivity).
    pose proof (str_rfind_bound "}"%char (b ++ String "{"%char inner) a) as Hrfind.
    rewrite <- Hassoc, string_length_app in Hrfind. cbn [String.length] in Hrfind.
    apply andb_true_iff. split; [apply Z.leb_le | apply Z.ltb_lt]; lia.
Qed.

(** X22: on a text made of a part without '{', a '{', any text, a '}'
    and a part without '}', strategy 2 does what strategy 1 does on the
    text from that '{' to that '}': what stands before the first '{' and
    after the last '}' is dropped, and the braces in between are kept. *)
Theorem strategy2_takes_the_outermost_braces (before inner after : string)
    (m : ModelType) :
  str_contains "{"%char before = false ->
  str_contains "}"%char after = false ->
  Analyst.strategy2 (before ++ "{" ++ inner ++ "}" ++ after) m
  = Some (Analyst.strategy1 ("{" ++ inner ++ "}") m).
Proof.
  intros Hb Ha. unfold Analyst.strategy2, Analyst.strategy1. cbv zeta.
  change (before ++ "{" ++ inner ++ "}" ++ after)
    with (before ++ String "{"%char (inner ++ String "}"%char after)).
  assert (Hfind : str_find "{"%char
                    (before ++ String "{"%char (inner ++ String "}"%char after))
                  = Z.of_nat (String.length before))
    by (apply str_find_app; exact Hb).
  assert (Hrfind : str_rfind "}"%char
                     (before ++ String "{"%char (inner ++ String "}"%char after))
                   = Z.of_nat (String.length before + S (String.length inner))).
  { replace (before ++ String "{"%char (inner ++ String "}"%char after))
      with ((before ++ String "{"%char inner) ++ String "}"%char after)
      by (rewrite string_app_assoc; reflexivity).
    rewrite (str_rfind_app "}"%char (before ++ String "{"%char inner) after Ha).
    rewrite string_length_app. reflexivity. }
  rewrite Hfind, Hrfind.
  assert (Hguard : (0 <=? Z.of_nat (String.length before))%Z
                   && (Z.of_nat (String.length before)
                       <? Z.of_nat (String.length before + S (String.length inner)))%Z
                   = true)
    by (apply andb_true_iff; split; [apply Z.leb_le | apply Z.ltb_lt]; lia).
  rewrite Hguard. unfold str_slice.
  replace (Z.to_nat (Z.of_nat (String.length before))) with (String.length before)
    by lia.
  replace (Z.to_nat (Z.of_nat (String.length before + S (String.length inner)) + 1
                     - Z.of_nat (String.length before)))
    with (String.length ("{" ++ inner ++ "}"))
    by (change ("{" ++ inner ++ "}") with (String "{"%char (inner ++ "}"));
        cbn [String.length]; rewrite string_length_app; cbn [String.length]; lia).
  replace (before ++ String "{"%char (inner ++ String "}"%char after))
    with (before ++ ("{" ++ inner ++ "}") ++ after)
    by (change ("{" ++ inner ++ "}") with (String "{"%char (inner ++ "}"));
        rewrite string_app_cons, string_app_assoc; reflexivity).
  rewrite substring_middle. reflexivity.
Qed.

(** X23: strategy 2 is skipped, without reading any JSON, exactly for
    the texts that have no '{' before a '}'; for such a text that
    strategy 1 rejects, extraction is what strategy 3 makes of it. *)
Theorem strategy2_skipped_without_braces (self : AnalystObj) (text : string)
    (m : ModelType) :
  (Analyst.strategy2 text m = None
   <-> ~ exists before inner after, text = before ++ "{" ++ inner ++ "}" ++ after)
  /\ (Analyst.strategy2 text m = None ->
      is_ok (Analyst.strategy1 text m) = false ->
      Analyst._parse_output_to_model self text m
      = match Analyst.strategy3 text m with
        | Ok instance => Ok instance
        | Raise e =>
            Raise (ValueError
              ("Não foi possível extrair dados estruturados: " ++ exn_str e))
        end).
Proof.
  split.
  - pose proof (strategy2_guard text) as Hguard. cbv zeta in Hguard.
    unfold Analyst.strategy2.
    destruct ((0 <=? str_find "{"%char text)%Z
              && (str_find "{"%char text <? str_rfind "}"%char text)%Z).
    + split; [discriminate |]. intros Hno. exfalso. apply Hno, Hguard. reflexivity.
    + split; [| reflexivity]. intros _ Hex. apply Hguard in Hex. discriminate.
  - intros H2 H1. unfold Analyst._parse_output_to_model. rewrite H2.
    destruct (Analyst.strategy1 text m); [discriminate | reflexivity].
Qed.

(** [dict]: reading after writing. *)
Lemma dict_get_set (d : dict) (k k' : string) (v : pyval) :
  dict_get (dict_set d k v) k' = if String.eqb k k' then Some v else dict_get d k'.
Proof.
  induction d as [| [k0 v0] d IH]; cbn [dict_set dict_get].
  - destruct (String.eqb k k'); reflexivity.
  - destruct (String.eqb k0 k) eqn:E0.
    + apply String.eqb_eq in E0. subst k0. cbn [dict_get].
      destruct (String.eqb k k'); reflexivity.
    + cbn [dict_get]. destruct (String.eqb k0 k') eqn:E1.
      * apply String.eqb_eq in E1. subst k'.
        rewrite String.eqb_sym, E0. reflexivity.
      * exact IH.
Qed.

(** The loop of strategy 3 over the fields, from any [data]. *)
Lemma scan_fields_get (output : string) (fields : list string) (data : dict)
    (k : string) :
  dict_get (fold_left (Analyst.scan_field output) fields data) k
  = if existsb (String.eqb k) fields
    then match Analyst.first_match (Analyst.patterns k) output with
         | Some group1 => Some (Analyst.convert_value (str_strip group1))
         | None => dict_get data k
         end
    else dict_get data k.
Proof.
  revert data. induction fields as [| f fields IH]; intros data; [reflexivity |].
  cbn [fold_left existsb]. rewrite IH. unfold Analyst.scan_field.
  destruct (String.eqb k f) eqn:E.
  - apply String.eqb_eq in E. subst f. cbn [orb].
    destruct (Analyst.first_match (Analyst.patterns k) output) as [g |].
    + rewrite dict_get_set, String.eqb_refl.
      destruct (existsb (String.eqb k) fields); reflexivity.
    + destruct (existsb (String.eqb k) fields); reflexivity.
  - cbn [orb].
    assert (Hsame : dict_get
                      match Analyst.first_match (Analyst.patterns f) output with
                      | Some group1 =>
                          dict_set data f (Analyst.convert_value (str_strip group1))
                      | None => data
                      end k = dict_get data k).
    { destruct (Analyst.first_match (Analyst.patterns f) output); [| reflexivity].
      rewrite dict_get_set, String.eqb_sym, E. reflexivity. }
    rewrite Hsame. reflexivity.
Qed.

(** X24: the data strategy 3 hands to the model hold a value for a key
    exactly when the key is a field of the model and one of the three
    patterns of the field matches the text; the value is the conversion
    of what the first pattern that matches captured, stripped. *)
Theorem strategy3_scans_the_fields (output : string) (m : ModelType) :
  exists data,
    Analyst.strategy3 output m = model_new m data
    /\ forall k,
         dict_get data k
         = if existsb (String.eqb k) (map fst (model_fields m))
           then option_map (fun group1 => Analyst.convert_value (str_strip group1))
                  (Analyst.first_match (Analyst.patterns k) output)
           else None.
Proof.
  eexists. split; [reflexivity |]. intros k. rewrite scan_fields_get.
  destruct (existsb (String.eqb k) (map fst (model_fields m))); [| reflexivity].
  destruct (Analyst.first_match (Analyst.patterns k) output); reflexivity.
Qed.

(** X25: an instance that extraction returns was made by the model
    itself from a mapping: extraction returns nothing that the model's
    validation has not accepted. *)
Theorem extracted_instance_is_validated (self : AnalystObj) (text : string)
    (m : ModelType) (instance : BaseModel) :
  Analyst._parse_output_to_model self text m = Ok instance ->
  exists data, model_new m data = Ok instance.
Proof.
  assert (Hcall : forall v i, obind (json_loads v) (model_call m) = Ok i ->
                              exists data, model_new m data = Ok i).
  { intros v i H. destruct (json_loads v) as [value |]; [| discriminate].
    cbn [obind] in H. destruct value; try discriminate.
    eexists. exact H. }
  unfold Analyst._parse_output_to_model.
  destruct (Analyst.strategy1 text m) as [i1 | e1] eqn:H1.
  - intros H. injection H as H. subst i1. apply (Hcall _ _ H1).
  - destruct (Analyst.strategy2 text m) as [[i2 | e2] |] eqn:H2.
    + intros H. injection H as H. subst i2. unfold Analyst.strategy2 in H2.
      destruct (_ && _); [| discriminate]. injection H2 as H2.
      apply (Hcall _ _ H2).
    + destruct (Analyst.strategy3 text m) as [i3 | e3] eqn:H3; [| discriminate].
      intros H. injection H as H. subst i3. eexists. exact H3.
    + destruct (Analyst.strategy3 text m) as [i3 | e3] eqn:H3; [| discriminate].
      intros H. injection H as H. subst i3. eexists. exact H3.
Qed.

Lemma str_endswith_app (c : ascii) (s : string) :
  str_endswith c (s ++ String c EmptyString) = true.
Proof.
  induction s as [| a s IH].
  - rewrite string_app_nil_l. cbn [str_endswith]. apply Ascii.eqb_refl.
  - rewrite string_app_cons.
    destruct (s ++ String c EmptyString) as [| x y] eqn:E.
    + apply (f_equal String.length) in E. rewrite string_length_app in E.
      cbn [String.length] in E. lia.
    + cbn [str_endswith]. cbn [str_endswith] in IH. exact IH.
Qed.

(** X26: a captured value that stands between double quotes is taken as
    text, the quotes removed, whatever the text between them is: a
    quoted number or a quoted [true] stays a string. *)
Theorem quoted_value_is_text (s : string) :
  Analyst.convert_value (quote ++ s ++ quote) = PStr s.
Proof.
  unfold Analyst.convert_value.
  change (quote ++ s ++ quote) with (String quote_char (s ++ String quote_char EmptyString)).
  assert (Hend : str_endswith quote_char
                   (String quote_char (s ++ String quote_char EmptyString)) = true)
    by (apply (str_endswith_app quote_char (String quote_char s))).
  rewrite Hend. cbn [str_startswith]. rewrite Ascii.eqb_refl. cbn [andb].
  unfold str_inner. cbn [String.length]. rewrite string_length_app.
  cbn [String.length substring].
  replace (S (String.length s + 1) - 2)%nat with (String.length s) by lia.
  rewrite substring_prefix. reflexivity.
Qed.

End Strategies.

Lemma strategy2_takes_the_outermost_braces_witness :
  Analyst.strategy2 (rt := Demo.runtime) ("see " ++ "{" ++ "x" ++ "}" ++ " end")
    Example.Trend
  = Some (Analyst.strategy1 (rt := Demo.runtime) ("{" ++ "x" ++ "}") Example.Trend).
Proof.
  apply (@strategy2_takes_the_outermost_braces Demo.runtime "see " "x" " end"
           Example.Trend); reflexivity.
Defined.

Lemma extracted_instance_is_validated_witness :
  exists data,
    model_new Example.Trend data
    = Ok {| bm_class := "Trend"; bm_dict := [("trend", PStr "up")] |}.
Proof.
  apply (@extracted_instance_is_validated Demo.runtime (Example.analyst false)
           Example.wrapped Example.Trend).
  vm_compute; reflexivity.
Defined.
